(** * Whisper Assistant: the intent-to-command mapping contract

    A shallow embedding of the command mapper of the extension
    ([CommandMapper.mapTranscriptionToCommand],
    [CommandMapper.mapTranscriptionToCommandViaTools],
    [CommandMapper.executeCommand]) and of the conversion of the speech
    engine's reply into a [Transcription] in
    [SpeechTranscription.processRecording].

    The collaborators the TypeScript code calls but does not own are taken
    as the variables of a section: the language-model endpoint
    ([openai.chat.completions.create]), the runtime's [JSON.parse] and the
    host's [vscode.commands.executeCommand].  A promise that resolves is a
    [Returned] outcome, one that rejects (or a synchronous [throw]) is a
    [Thrown] one; every observable call is recorded in a trace of events. *)

From Stdlib Require Import String Ascii List ZArith Bool Arith Lia.
From Stdlib Require Import DecimalString.
Import ListNotations.
Open Scope string_scope.

Set Implicit Arguments.
Set Warnings "-register-all".

(** ** JavaScript values *)

(** A JavaScript string is a sequence of UTF-16 code units; the model's
    alphabet is the first 256 of them, one [ascii] per code unit, so that
    [String.length] is the [.length] of the source. *)

(** A number is kept as an exact decimal [mantissa * 10 ^ exp10]; the
    modelled code only copies numbers or writes the literals [0] and [0.2]. *)
Record number : Type := Num { mantissa : Z; exp10 : Z }.

Definition zero : number := Num 0 0.

Inductive JsValue : Type :=
| JUndefined
| JNull
| JBool (b : bool)
| JNumber (n : number)
| JString (s : string)
| JArray (items : list JsValue)
| JObject (fields : list (string * JsValue))
| JNative (name : string).
(** [JNative k] stands for the member [k] that every plain object inherits
    from [Object.prototype] (a function, or the prototype itself for
    [__proto__]). *)

Inductive JsError : Type :=
| TypeError
| SyntaxError
| Rejected (reason : string).
(** [TypeError] and [SyntaxError] are the errors the runtime itself throws
    in the modelled code (a member read of [undefined] or [null], a value
    that cannot be converted to a string, a text [JSON.parse] refuses);
    [Rejected reason] is a value a collaborator threw or rejected a promise
    with, whatever it is. *)

Inductive Outcome (A : Type) : Type :=
| Returned (a : A)
| Thrown (e : JsError).

Arguments Returned {A} a.
Arguments Thrown {A} e.

(** Own properties of an object: the first binding of the key. *)
Fixpoint own_property (fields : list (string * JsValue)) (k : string)
  : option JsValue :=
  match fields with
  | [] => None
  | (k', v) :: rest => if String.eqb k' k then Some v else own_property rest k
  end.

(** The property names a plain object inherits from [Object.prototype]. *)
Definition object_prototype_keys : list string :=
  [ "constructor"; "toString"; "toLocaleString"; "valueOf";
    "hasOwnProperty"; "isPrototypeOf"; "propertyIsEnumerable"; "__proto__";
    "__defineGetter__"; "__defineSetter__";
    "__lookupGetter__"; "__lookupSetter__" ].

Definition mem_string (k : string) (l : list string) : bool :=
  existsb (String.eqb k) l.

Definition nullish (v : JsValue) : bool :=
  match v with
  | JUndefined | JNull => true
  | _ => false
  end.

(** [js_get v k] is the member access [v.k] (or [v[k]]).  Reading a member
    of [undefined] or [null] throws a [TypeError]; a plain object answers
    with its own property, then with what it inherits, then [undefined].
    On primitives and arrays the model covers the names their prototypes do
    not define, which is the case of every name the modelled code reads
    from a decoded value ([filename], [command], [args]). *)
Definition js_get (v : JsValue) (k : string) : Outcome JsValue :=
  match v with
  | JUndefined | JNull => Thrown TypeError
  | JObject fields =>
      match own_property fields k with
      | Some x => Returned x
      | None =>
          if mem_string k object_prototype_keys
          then Returned (JNative k) else Returned JUndefined
      end
  | _ => Returned JUndefined
  end.

(** Truthiness of a string: only the empty string is falsy. *)
Definition truthy_string (s : string) : bool :=
  match s with
  | EmptyString => false
  | String _ _ => true
  end.

(** ** Data model of the repository *)

(** [interface Segment] of speech-transcription.ts. *)
Record Segment : Type := mkSegment {
  id : number;
  seek : number;
  start : number;
  end_ : number;
  seg_text : string;
  tokens : list number;
  temperature : number
}.

(** [interface Transcription] of speech-transcription.ts. *)
Record Transcription : Type := mkTranscription {
  text : string;
  segments : list Segment;
  language : string
}.

(** The verbose reply of the speech engine
    ([openai.audio.transcriptions.create] with [verbose_json]): its
    [segments] may be missing; of a segment the seven fields that the
    repository's [Segment] names are kept. *)
Record TranscriptionVerbose : Type := mkVerbose {
  raw_text : string;
  raw_segments : option (list Segment);
  raw_language : string
}.

(** ** The reply of the language-model endpoint *)

(** The part of a chat completion the mapper reads.  A field is optional
    where the source reaches it through [?.]. *)
Record FunctionCall : Type := mkFunctionCall {
  name : string;
  arguments : string
}.

Record ToolCall : Type := mkToolCall {
  type : string;
  function : FunctionCall
}.

Record Message : Type := mkMessage {
  function_call : option FunctionCall;
  tool_calls : option (list ToolCall)
}.

Record Choice : Type := mkChoice {
  message : option Message
}.

Record ChatCompletion : Type := mkCompletion {
  choices : list Choice
}.

(** ** Effects *)

(** What a run lets the outside world observe, in order. *)
Inductive Event : Type :=
| ChatCompletionsCreate (request : JsValue)
| ConsoleLog (label : string) (v : JsValue)
| ConsoleError (label : string) (error : JsError)
| ShowErrorMessage (msg : string)
| VscodeExecuteCommand (command args : JsValue).

(** A computation yields the events it emitted and how it ended. *)
Definition Eff (A : Type) : Type := (list Event * Outcome A)%type.

Definition ret {A} (a : A) : Eff A := ([], Returned a).

Definition throw {A} (e : JsError) : Eff A := ([], Thrown e).

Definition emit (ev : Event) : Eff unit := ([ev], Returned tt).

Definition lift {A} (o : Outcome A) : Eff A := ([], o).

Definition bind {A B} (m : Eff A) (k : A -> Eff B) : Eff B :=
  match m with
  | (tr, Returned a) => let (tr', r) := k a in ((tr ++ tr')%list, r)
  | (tr, Thrown e) => (tr, Thrown e)
  end.

(** [try { body } catch (error) { handler }]. *)
Definition try_catch {A} (body : Eff A) (handler : JsError -> Eff A) : Eff A :=
  match body with
  | (tr, Returned a) => (tr, Returned a)
  | (tr, Thrown e) => let (tr', r) := handler e in ((tr ++ tr')%list, r)
  end.

Notation "x <- m ;; k" := (bind m (fun x => k))
  (at level 61, m at next level, right associativity).
Notation "m ;;; k" := (bind m (fun _ => k))
  (at level 61, right associativity).

Definition trace {A} (m : Eff A) : list Event := fst m.
Definition outcome {A} (m : Eff A) : Outcome A := snd m.

Definition is_notification (ev : Event) : bool :=
  match ev with
  | ShowErrorMessage _ => true
  | _ => false
  end.

Definition is_request (ev : Event) : bool :=
  match ev with
  | ChatCompletionsCreate _ => true
  | _ => false
  end.

(** The user-visible failure notifications of a run. *)
Definition notifications {A} (m : Eff A) : nat :=
  List.length (filter is_notification (trace m)).

(** The outbound requests to the language-model endpoint of a run. *)
Definition requests {A} (m : Eff A) : nat :=
  List.length (filter is_request (trace m)).

(** ** Literals of the source *)

Definition dquote : string := String (ascii_of_nat 34) EmptyString.
Definition newline : string := String (ascii_of_nat 10) EmptyString.
Definition quoted (s : string) : string := dquote ++ s ++ dquote.

(** The six host command identifiers, in the order of the [enum] of the
    function schema. *)
Definition commandEnum : list string :=
  [ "workbench.action.quickOpen";
    "workbench.action.files.newUntitledFile";
    "workbench.action.files.save";
    "workbench.action.closeActiveEditor";
    "workbench.action.findInFiles";
    "references-view.findReferences" ].

Definition systemPrompt : string :=
  "You are a helpful assistant that maps user input to VS Code commands. Assume that part of the input indicates the type of command to execute, and any additional part, if present, provides arguments for that command. Interpret and correct typos or slightly incorrect inputs before mapping them."
  ++ newline ++ newline
  ++ "Map the input to one of the following commands based on intent:"
  ++ newline ++ newline
  ++ "- " ++ quoted "workbench.action.quickOpen"
  ++ " (e.g., for opening files or ambiguous input)" ++ newline
  ++ "- " ++ quoted "workbench.action.files.newUntitledFile"
  ++ " (e.g., for creating a new file)" ++ newline
  ++ "- " ++ quoted "workbench.action.files.save"
  ++ " (e.g., for saving files)" ++ newline
  ++ "- " ++ quoted "workbench.action.closeActiveEditor"
  ++ " (e.g., for closing files or editors)" ++ newline
  ++ "- " ++ quoted "workbench.action.findInFiles"
  ++ " (e.g., for search-related tasks)" ++ newline
  ++ "- " ++ quoted "references-view.findReferences"
  ++ " (e.g., for finding references in code)."
  ++ newline ++ newline
  ++ "If the input includes arguments, such as a filename or search term, include them in the appropriate field of the arguments. If no specific command matches, default to "
  ++ quoted "workbench.action.quickOpen"
  ++ " and put the corrected transcription inside the filename field of the arguments. If it is a file name change it to camelCase".

Definition systemPromptViaTools : string :=
  "You are a helpful assistant that maps user input to VS Code commands. Interpret and correct typos or slightly incorrect inputs before mapping them to the most appropriate command. If no specific command matches, use quickOpen with the transcription as the filename.".

Definition chatMessage (role content : string) : JsValue :=
  JObject [ ("role", JString role); ("content", JString content) ].

(** The single callable of the [functions] protocol. *)
Definition executeVSCodeCommand_schema : JsValue :=
  JObject
    [ ("name", JString "executeVSCodeCommand");
      ("description",
        JString "Execute a VS Code command with optional arguments. Defaults to quickOpen with the transcription if nothing else fits.");
      ("parameters",
        JObject
          [ ("type", JString "object");
            ("properties",
              JObject
                [ ("command",
                    JObject
                      [ ("type", JString "string");
                        ("enum", JArray (map JString commandEnum));
                        ("description",
                          JString "The VS Code command to execute.") ]);
                  ("args",
                    JObject
                      [ ("type", JString "object");
                        ("properties",
                          JObject
                            [ ("filename",
                                JObject
                                  [ ("type", JString "string");
                                    ("description",
                                      JString "The name of the file to open, save, or search for. If no specific command matches, use the corrected transcription.") ]) ]);
                        ("description",
                          JString "Optional arguments for the command.") ]) ]);
            ("required", JArray [ JString "command" ]) ]) ].

(** One entry of [VS_CODE_COMMAND_TOOLS]: a callable with an optional
    [filename] string. *)
Definition tool (tool_name description filename_description : string)
  : JsValue :=
  JObject
    [ ("type", JString "function");
      ("function",
        JObject
          [ ("name", JString tool_name);
            ("description", JString description);
            ("parameters",
              JObject
                [ ("type", JString "object");
                  ("properties",
                    JObject
                      [ ("filename",
                          JObject
                            [ ("type", JString "string");
                              ("description",
                                JString filename_description) ]) ]) ]) ]) ].

Definition VS_CODE_COMMAND_TOOLS : JsValue :=
  JArray
    [ tool "quickOpen"
        "Open the quick open dialog to find files or handle ambiguous input"
        "The filename or search term to pre-fill in quick open";
      tool "newFile" "Create a new untitled file"
        "Optional filename for the new file";
      tool "saveFile" "Save the current file" "Optional filename to save as";
      tool "closeEditor" "Close the current editor or file"
        "Optional filename to confirm which file to close";
      tool "findInFiles" "Search for text across all files"
        "The search term to look for in files";
      tool "findReferences"
        "Find all references to the current symbol in the codebase"
        "Optional symbol name to search for references" ].

(** The table that maps a tool name back to a host command. *)
Definition commandMap : JsValue :=
  JObject
    [ ("quickOpen", JString "workbench.action.quickOpen");
      ("newFile", JString "workbench.action.files.newUntitledFile");
      ("saveFile", JString "workbench.action.files.save");
      ("closeEditor", JString "workbench.action.closeActiveEditor");
      ("findInFiles", JString "workbench.action.findInFiles");
      ("findReferences", JString "references-view.findReferences") ].

(** The argument of [chat.completions.create] in
    [mapTranscriptionToCommand]. *)
Definition functionsRequest (content : string) : JsValue :=
  JObject
    [ ("model", JString "gpt-4");
      ("messages",
        JArray [ chatMessage "system" systemPrompt;
                 chatMessage "user" content ]);
      ("functions", JArray [ executeVSCodeCommand_schema ]);
      ("function_call",
        JObject [ ("name", JString "executeVSCodeCommand") ]);
      ("temperature", JNumber (Num 2 (-1))) ].

(** The argument of [chat.completions.create] in
    [mapTranscriptionToCommandViaTools]. *)
Definition toolsRequest (content : string) : JsValue :=
  JObject
    [ ("model", JString "gpt-4");
      ("messages",
        JArray [ chatMessage "system" systemPromptViaTools;
                 chatMessage "user" content ]);
      ("tools", VS_CODE_COMMAND_TOOLS);
      ("temperature", JNumber (Num 2 (-1))) ].

(** ** A decoder of JSON texts

    The mapper takes the runtime's [JSON.parse] as a parameter, and every
    theorem about it holds for every such function that throws on the empty
    text.  [Json.parse] instantiates the parameter where a concrete run is
    evaluated.  It decodes the JSON grammar over the model's alphabet and
    builds the objects as the runtime does: a repeated key keeps its first
    position and its last value, and the keys that are array indices come
    first, in ascending order.  On a text of the model [None] is the
    [SyntaxError] of the runtime.  The model ends where its values do:
    - a text that escapes a code unit above 255 ([\u0100] and beyond)
      denotes a string outside the model's alphabet; [Json.parse] has no
      value for it, and its [None] is then not an error of the runtime;
    - a number literal is kept as the decimal it denotes, where the runtime
      keeps the nearest double: literals that round to the same double
      (more than 17 significant digits, or beyond the range of doubles) are
      different values here.
    The concrete runs of this file decode texts without such escapes and
    with no number but small integers. *)
Module Json.

Local Open Scope nat_scope.
Local Open Scope list_scope.

Definition code (c : ascii) : nat := nat_of_ascii c.

Definition is_ws (c : ascii) : bool :=
  (code c =? 32) || (code c =? 9) || (code c =? 10) || (code c =? 13).

Fixpoint skip_ws (cs : list ascii) : list ascii :=
  match cs with
  | c :: rest => if is_ws c then skip_ws rest else cs
  | [] => []
  end.

Definition is_digit (c : ascii) : bool :=
  (48 <=? code c) && (code c <=? 57).

Definition digit_val (c : ascii) : Z := Z.of_nat (code c - 48).

Fixpoint take_digits (cs : list ascii) : list ascii * list ascii :=
  match cs with
  | c :: rest =>
      if is_digit c
      then let (ds, rest') := take_digits rest in (c :: ds, rest')
      else ([], cs)
  | [] => ([], [])
  end.

Definition digits_value (ds : list ascii) : Z :=
  fold_left (fun acc d => (10 * acc + digit_val d)%Z) ds 0%Z.

Definition hex_val (c : ascii) : option nat :=
  let k := code c in
  if is_digit c then Some (k - 48)
  else if (97 <=? k) && (k <=? 102) then Some (k - 87)
  else if (65 <=? k) && (k <=? 70) then Some (k - 55)
  else None.

Definition hex4 (a b c d : ascii) : option nat :=
  match hex_val a, hex_val b, hex_val c, hex_val d with
  | Some x, Some y, Some z, Some w => Some (((x * 16 + y) * 16 + z) * 16 + w)
  | _, _, _, _ => None
  end.

Definition escape (c : ascii) : option ascii :=
  let k := code c in
  if (k =? 34) || (k =? 92) || (k =? 47) then Some c
  else if k =? 98 then Some (ascii_of_nat 8)
  else if k =? 102 then Some (ascii_of_nat 12)
  else if k =? 110 then Some (ascii_of_nat 10)
  else if k =? 114 then Some (ascii_of_nat 13)
  else if k =? 116 then Some (ascii_of_nat 9)
  else None.

Definition cons_char (c : ascii) (r : option (string * list ascii))
  : option (string * list ascii) :=
  match r with
  | Some (s, rest) => Some (String c s, rest)
  | None => None
  end.

(** The characters of a string literal after its opening quote. *)
Fixpoint string_body (cs : list ascii) : option (string * list ascii) :=
  match cs with
  | [] => None
  | c :: r =>
      if code c =? 34 then Some (EmptyString, r)
      else if code c =? 92 then
        match r with
        | [] => None
        | e :: r' =>
            if code e =? 117 then
              match r' with
              | h1 :: h2 :: h3 :: h4 :: r'' =>
                  match hex4 h1 h2 h3 h4 with
                  | Some n =>
                      if n <? 256
                      then cons_char (ascii_of_nat n) (string_body r'')
                      else None
                  | None => None
                  end
              | _ => None
              end
            else
              match escape e with
              | Some x => cons_char x (string_body r')
              | None => None
              end
        end
      else if code c <? 32 then None
      else cons_char c (string_body r)
  end.

Definition is_nil {A} (l : list A) : bool :=
  match l with [] => true | _ => false end.

Definition fraction (cs : list ascii) : option (list ascii * list ascii) :=
  match cs with
  | c :: r =>
      if code c =? 46 then
        let (ds, r') := take_digits r in
        if is_nil ds then None else Some (ds, r')
      else Some ([], cs)
  | [] => Some ([], cs)
  end.

Definition exponent (cs : list ascii) : option (Z * list ascii) :=
  match cs with
  | c :: r =>
      if (code c =? 101) || (code c =? 69) then
        let (sign, r1) :=
          match r with
          | s :: r' =>
              if code s =? 43 then (1%Z, r')
              else if code s =? 45 then ((-1)%Z, r')
              else (1%Z, r)
          | [] => (1%Z, r)
          end in
        let (ds, r2) := take_digits r1 in
        if is_nil ds then None else Some ((sign * digits_value ds)%Z, r2)
      else Some (0%Z, cs)
  | [] => Some (0%Z, cs)
  end.

Definition number_lit (cs : list ascii) : option (number * list ascii) :=
  let (sign, cs1) :=
    match cs with
    | c :: r => if code c =? 45 then ((-1)%Z, r) else (1%Z, cs)
    | [] => (1%Z, cs)
    end in
  let (int_ds, cs2) := take_digits cs1 in
  match int_ds with
  | [] => None
  | d :: more =>
      if (code d =? 48) && negb (is_nil more) then None
      else
        match fraction cs2 with
        | None => None
        | Some (frac_ds, cs3) =>
            match exponent cs3 with
            | None => None
            | Some (e, cs4) =>
                Some (Num (sign * digits_value (int_ds ++ frac_ds))
                          (e - Z.of_nat (List.length frac_ds)),
                      cs4)
            end
        end
  end.

Fixpoint starts_with (prefix cs : list ascii) : option (list ascii) :=
  match prefix, cs with
  | [], _ => Some cs
  | p :: prefix', c :: cs' =>
      if Ascii.eqb p c then starts_with prefix' cs' else None
  | _ :: _, [] => None
  end.

Definition keyword (word : string) (v : JsValue) (cs : list ascii)
  : option (JsValue * list ascii) :=
  match starts_with (list_ascii_of_string word) cs with
  | Some rest => Some (v, rest)
  | None => None
  end.

Fixpoint remove_key (k : string) (fields : list (string * JsValue))
  : list (string * JsValue) :=
  match fields with
  | [] => []
  | (k', v) :: rest =>
      if String.eqb k' k then remove_key k rest
      else (k', v) :: remove_key k rest
  end.

Definition add_member (k : string) (v : JsValue)
           (later : list (string * JsValue)) : list (string * JsValue) :=
  match own_property later k with
  | Some v' => (k, v') :: remove_key k later
  | None => (k, v) :: later
  end.

(** A key is an array index when it is the decimal text, without leading
    zero, of an integer below [2^32 - 1]. *)
Definition array_index (k : string) : option Z :=
  match list_ascii_of_string k with
  | [] => None
  | c :: rest =>
      if forallb is_digit (c :: rest)
         && (negb (code c =? 48) || is_nil rest)
         && (digits_value (c :: rest) <=? 4294967294)%Z
      then Some (digits_value (c :: rest))
      else None
  end.

Fixpoint insert_index (n : Z) (k : string) (v : JsValue)
         (sorted : list (Z * (string * JsValue)))
  : list (Z * (string * JsValue)) :=
  match sorted with
  | [] => [ (n, (k, v)) ]
  | (m, kv) :: rest =>
      if (n <? m)%Z then (n, (k, v)) :: sorted
      else (m, kv) :: insert_index n k v rest
  end.

(** The order in which an object enumerates its own string keys: the array
    indices in ascending order, then the other keys in the order in which
    they were created. *)
Fixpoint ordered_from (fields : list (string * JsValue))
         (indices : list (Z * (string * JsValue)))
         (others : list (string * JsValue)) : list (string * JsValue) :=
  match fields with
  | [] => map snd indices ++ rev others
  | (k, v) :: rest =>
      match array_index k with
      | Some n => ordered_from rest (insert_index n k v indices) others
      | None => ordered_from rest indices ((k, v) :: others)
      end
  end.

Definition ordered (fields : list (string * JsValue))
  : list (string * JsValue) :=
  ordered_from fields [] [].

Fixpoint value (fuel : nat) (cs : list ascii) {struct fuel}
  : option (JsValue * list ascii) :=
  match fuel with
  | O => None
  | S n =>
      match skip_ws cs with
      | [] => None
      | c :: r =>
          let k := code c in
          if k =? 34 then
            match string_body r with
            | Some (s, r') => Some (JString s, r')
            | None => None
            end
          else if k =? 123 then
            match skip_ws r with
            | c' :: r' =>
                if code c' =? 125 then Some (JObject [], r')
                else
                  match members n r with
                  | Some (fs, r'') => Some (JObject (ordered fs), r'')
                  | None => None
                  end
            | [] => None
            end
          else if k =? 91 then
            match skip_ws r with
            | c' :: r' =>
                if code c' =? 93 then Some (JArray [], r')
                else
                  match elements n r with
                  | Some (vs, r'') => Some (JArray vs, r'')
                  | None => None
                  end
            | [] => None
            end
          else if k =? 110 then keyword "null" JNull (c :: r)
          else if k =? 116 then keyword "true" (JBool true) (c :: r)
          else if k =? 102 then keyword "false" (JBool false) (c :: r)
          else
            match number_lit (c :: r) with
            | Some (x, r') => Some (JNumber x, r')
            | None => None
            end
      end
  end

with elements (fuel : nat) (cs : list ascii) {struct fuel}
  : option (list JsValue * list ascii) :=
  match fuel with
  | O => None
  | S n =>
      match value n cs with
      | None => None
      | Some (v, r) =>
          match skip_ws r with
          | c :: r' =>
              if code c =? 44 then
                match elements n r' with
                | Some (vs, r'') => Some (v :: vs, r'')
                | None => None
                end
              else if code c =? 93 then Some ([v], r')
              else None
          | [] => None
          end
      end
  end

with members (fuel : nat) (cs : list ascii) {struct fuel}
  : option (list (string * JsValue) * list ascii) :=
  match fuel with
  | O => None
  | S n =>
      match skip_ws cs with
      | c :: r =>
          if code c =? 34 then
            match string_body r with
            | None => None
            | Some (key, r1) =>
                match skip_ws r1 with
                | c1 :: r2 =>
                    if code c1 =? 58 then
                      match value n r2 with
                      | None => None
                      | Some (v, r3) =>
                          match skip_ws r3 with
                          | c3 :: r4 =>
                              if code c3 =? 44 then
                                match members n r4 with
                                | Some (fs, r5) =>
                                    Some (add_member key v fs, r5)
                                | None => None
                                end
                              else if code c3 =? 125
                                   then Some ([(key, v)], r4)
                                   else None
                          | [] => None
                          end
                      end
                    else None
                | [] => None
                end
            end
          else None
      | [] => None
      end
  end.

Definition parse (s : string) : option JsValue :=
  let cs := list_ascii_of_string s in
  match value (2 * List.length cs + 2) cs with
  | Some (v, rest) =>
      match skip_ws rest with
      | [] => Some v
      | _ :: _ => None
      end
  | None => None
  end.

(** JSON texts are written below with [']  for the double quote. *)
Fixpoint text_of (s : string) : string :=
  match s with
  | EmptyString => EmptyString
  | String c rest =>
      String (if code c =? 39 then ascii_of_nat 34 else c) (text_of rest)
  end.

End Json.


(** ** The command mapper *)

Section CommandMapper.

(** [JSON.parse]: the decoded value, or [None] when it throws. *)
Variable JSON_parse : string -> option JsValue.

(** [openai.chat.completions.create]: how the promise of the endpoint
    settles for a given request. *)
Variable chat_completions_create : JsValue -> Outcome ChatCompletion.

(** [vscode.commands.executeCommand]: how the host command settles. *)
Variable vscode_commands_executeCommand : JsValue -> JsValue -> Outcome unit.

Definition await_create (request : JsValue) : Eff ChatCompletion :=
  ([ChatCompletionsCreate request], chat_completions_create request).

Definition await_executeCommand (command args : JsValue) : Eff unit :=
  ([VscodeExecuteCommand command args],
   vscode_commands_executeCommand command args).

Definition parse (s : string) : Eff JsValue :=
  match JSON_parse s with
  | Some v => ret v
  | None => throw SyntaxError
  end.

(** [!transcription.text || transcription.text.length <= 2] *)
Definition too_short (transcription : Transcription) : bool :=
  negb (truthy_string (text transcription))
  || (String.length (text transcription) <=? 2)%nat.

(** [completion.choices[0]?.message] *)
Definition first_message (completion : ChatCompletion) : option Message :=
  match hd_error (choices completion) with
  | Some choice => message choice
  | None => None
  end.

(** [completion.choices[0]?.message?.function_call?.arguments] *)
Definition function_call_arguments (completion : ChatCompletion)
  : option string :=
  match first_message completion with
  | Some msg =>
      match function_call msg with
      | Some call => Some (arguments call)
      | None => None
      end
  | None => None
  end.

(** [completion.choices[0]?.message?.tool_calls?.[0]] *)
Definition first_tool_call (completion : ChatCompletion) : option ToolCall :=
  match first_message completion with
  | Some msg =>
      match tool_calls msg with
      | Some calls => hd_error calls
      | None => None
      end
  | None => None
  end.

(** The [catch] block of both mapping operations. *)
Definition onMappingError (error : JsError) : Eff JsValue :=
  emit (ConsoleError "Error mapping transcription to command:" error) ;;;
  emit (ShowErrorMessage "Failed to map voice command to VS Code action") ;;;
  ret JUndefined.

Definition mapTranscriptionToCommand (transcription : Transcription)
  : Eff JsValue :=
  try_catch
    (if too_short transcription then ret JUndefined
     else
       completion <- await_create (functionsRequest (text transcription)) ;;
       match function_call_arguments completion with
       | Some payload =>
           if truthy_string payload then
             args <- parse payload ;;
             ret args
           else ret JUndefined
       | None => ret JUndefined
       end)
    onMappingError.

Definition mapTranscriptionToCommandViaTools (transcription : Transcription)
  : Eff JsValue :=
  try_catch
    (if too_short transcription then ret JUndefined
     else
       completion <- await_create (toolsRequest (text transcription)) ;;
       match first_tool_call completion with
       | Some toolCall =>
           if String.eqb (type toolCall) "function"
              && truthy_string (arguments (function toolCall))
           then
             args <- parse (arguments (function toolCall)) ;;
             command <- lift (js_get commandMap (name (function toolCall))) ;;
             filename <- lift (js_get args "filename") ;;
             ret (JObject [ ("command", command); ("args", filename) ])
           else ret JUndefined
       | None => ret JUndefined
       end)
    onMappingError.

(** The [catch] block of [executeCommand]. *)
Definition onExecuteError (error : JsError) : Eff unit :=
  emit (ConsoleError "Error executing VS Code command:" error) ;;;
  emit (ShowErrorMessage "Failed to execute VS Code command") ;;;
  ret tt.

(** [executeCommand] of command-mapper.ts. *)
Definition executeCommand (mapping : JsValue) : Eff unit :=
  try_catch
    (emit (ConsoleLog "Executing command:" mapping) ;;;
     command <- lift (js_get mapping "command") ;;
     args <- lift (js_get mapping "args") ;;
     await_executeCommand command args)
    onExecuteError.

(** [executeCommand] of the revision of the file that does not log the
    mapping. *)
Definition executeCommand_unlogged (mapping : JsValue) : Eff unit :=
  try_catch
    (command <- lift (js_get mapping "command") ;;
     args <- lift (js_get mapping "args") ;;
     await_executeCommand command args)
    onExecuteError.

End CommandMapper.

(** ** From the speech engine's reply to a [Transcription] *)

(** The arrow function that [processRecording] maps over
    [transcription.segments]. *)
Definition processRecording_segment (seg : Segment) : Segment :=
  {| id := id seg;
     seek := zero;
     start := start seg;
     end_ := end_ seg;
     seg_text := seg_text seg;
     tokens := [];
     temperature := zero |}.

(** [const result: Transcription = { ... }] of [processRecording], for the
    text [processedText] that the interpretation step left. *)
Definition processRecording_result (processedText : string)
           (transcription : TranscriptionVerbose) : Transcription :=
  {| text := processedText;
     segments :=
       match raw_segments transcription with
       | Some segs => map processRecording_segment segs
       | None => []
       end;
     language := raw_language transcription |}.

(** What the specification words for the same step: every segment of the
    speech engine is handed on as it is. *)
Definition passThrough_result (processedText : string)
           (transcription : TranscriptionVerbose) : Transcription :=
  {| text := processedText;
     segments :=
       match raw_segments transcription with
       | Some segs => segs
       | None => []
       end;
     language := raw_language transcription |}.

(** Membership in the six-item command enumeration. *)
Definition is_known_command (v : JsValue) : bool :=
  match v with
  | JString c => mem_string c commandEnum
  | _ => false
  end.

(** [command] field of a value handed to the caller; [None] when the value
    has no readable member (absent). *)
Definition command_of (mapping : JsValue) : option JsValue :=
  match js_get mapping "command" with
  | Returned c => Some c
  | Thrown _ => None
  end.

(** [mapTranscriptionToCommand] upholds the enumeration invariant on a run
    when whatever it hands to the caller is absent or carries a command of
    the six-item enumeration. *)
Definition command_always_in_enumeration
           (JSON_parse : string -> option JsValue)
           (endpoint : JsValue -> Outcome ChatCompletion)
           (transcription : Transcription) : Prop :=
  forall mapping,
    outcome (mapTranscriptionToCommand JSON_parse endpoint transcription)
    = Returned mapping ->
    mapping <> JUndefined ->
    exists c, command_of mapping = Some c /\ is_known_command c = true.

(** [v.k1.k2...]; an array is entered at its first element by the key
    [0]. *)
Fixpoint js_path (v : JsValue) (keys : list string) : Outcome JsValue :=
  match keys with
  | [] => Returned v
  | k :: rest =>
      match v, k with
      | JArray (x :: _), "0" => js_path x rest
      | _, _ =>
          match js_get v k with
          | Returned x => js_path x rest
          | Thrown e => Thrown e
          end
      end
  end.

(** The values the request allows for the [command] parameter of its
    callable. *)
Definition declared_enum (request : JsValue) : Outcome JsValue :=
  js_path request
    [ "functions"; "0"; "parameters"; "properties"; "command"; "enum" ].

(** How a segment of the result relates to the engine's segment it was
    made from. *)
Definition converted_from (raw converted : Segment) : Prop :=
  id converted = id raw
  /\ start converted = start raw
  /\ end_ converted = end_ raw
  /\ seg_text converted = seg_text raw
  /\ seek converted = zero
  /\ tokens converted = []
  /\ temperature converted = zero.

(** [transcription.segments ?? []] *)
Definition engine_segments (transcription : TranscriptionVerbose)
  : list Segment :=
  match raw_segments transcription with
  | Some segs => segs
  | None => []
  end.

(** The six rows of the lookup table, as the specification lists them. *)
Definition toolCommands : list (string * string) :=
  [ ("quickOpen", "workbench.action.quickOpen");
    ("newFile", "workbench.action.files.newUntitledFile");
    ("saveFile", "workbench.action.files.save");
    ("closeEditor", "workbench.action.closeActiveEditor");
    ("findInFiles", "workbench.action.findInFiles");
    ("findReferences", "references-view.findReferences") ].

(** ** Concrete runs *)

Definition spoken (said : string) : Transcription :=
  {| text := said; segments := []; language := "en" |}.

Definition reply_with_function_call (payload : string) : ChatCompletion :=
  {| choices :=
       [ {| message :=
              Some {| function_call :=
                        Some {| name := "executeVSCodeCommand";
                                arguments := payload |};
                      tool_calls := None |} |} ] |}.

Definition reply_with_tool_call (tool_name payload : string) : ChatCompletion :=
  {| choices :=
       [ {| message :=
              Some {| function_call := None;
                      tool_calls :=
                        Some [ {| type := "function";
                                  function := {| name := tool_name;
                                                 arguments := payload |} |} ]
                   |} |} ] |}.

Definition reply_without_call : ChatCompletion :=
  {| choices :=
       [ {| message := Some {| function_call := None; tool_calls := None |} |} ]
  |}.

Definition endpoint_replies (completion : ChatCompletion)
  : JsValue -> Outcome ChatCompletion :=
  fun _ => Returned completion.

Definition host_accepts : JsValue -> JsValue -> Outcome unit :=
  fun _ _ => Returned tt.

Definition host_rejects : JsValue -> JsValue -> Outcome unit :=
  fun _ _ => Thrown (Rejected "command not found").

(** A reply of the speech engine with one timed segment. *)
Definition whisper_segment : Segment :=
  {| id := Num 0 0;
     seek := Num 3000 0;
     start := Num 0 0;
     end_ := Num 25 (-1);
     seg_text := " save the file";
     tokens := [ Num 50364 0; Num 3155 0; Num 264 0; Num 3991 0 ];
     temperature := Num 2 (-1) |}.

Definition whisper_reply : TranscriptionVerbose :=
  {| raw_text := " save the file";
     raw_segments := Some [ whisper_segment ];
     raw_language := "english" |}.

(** Replies used below, the JSON of their arguments written out. *)
Definition quickOpen_config : string :=
  Json.text_of
    "{'command':'workbench.action.quickOpen','args':{'filename':'config'}}".

Definition quickOpen_config_value : JsValue :=
  JObject [ ("command", JString "workbench.action.quickOpen");
            ("args", JObject [ ("filename", JString "config") ]) ].

Definition unlisted_command : string :=
  Json.text_of "{'command':'workbench.action.terminal.kill'}".

Definition unlisted_command_value : JsValue :=
  JObject [ ("command", JString "workbench.action.terminal.kill") ].

Definition truncated_arguments : string :=
  Json.text_of "{'command':'workbench.action.files.save'".

Definition filename_notes : string := Json.text_of "{'filename':'notes.txt'}".

Definition filename_notes_value : JsValue :=
  JObject [ ("filename", JString "notes.txt") ].

(** ** Programs over any kind of event

    [SpeechTranscription] talks to other collaborators than the mapper
    (output channel, file system, recorder process); its runs are traces of
    [PipelineEvent]s, with the same reading of [await], [throw] and
    [try]/[catch] as above. *)

Section Programs.

Variable E : Type.

Definition Prog (A : Type) : Type := (list E * Outcome A)%type.

Definition done {A} (a : A) : Prog A := ([], Returned a).

Definition raise {A} (e : JsError) : Prog A := ([], Thrown e).

Definition tell (ev : E) : Prog unit := ([ev], Returned tt).

(** A call that is observable and settles as [o]. *)
Definition await {A} (ev : E) (o : Outcome A) : Prog A := ([ev], o).

Definition pure_step {A} (o : Outcome A) : Prog A := ([], o).

Definition and_then {A B} (m : Prog A) (k : A -> Prog B) : Prog B :=
  match m with
  | (tr, Returned a) => let (tr', r) := k a in ((tr ++ tr')%list, r)
  | (tr, Thrown e) => (tr, Thrown e)
  end.

Definition attempt {A} (body : Prog A) (handler : JsError -> Prog A)
  : Prog A :=
  match body with
  | (tr, Returned a) => (tr, Returned a)
  | (tr, Thrown e) => let (tr', r) := handler e in ((tr ++ tr')%list, r)
  end.

Definition events {A} (m : Prog A) : list E := fst m.

Definition ending {A} (m : Prog A) : Outcome A := snd m.

End Programs.

Arguments done {E A} a.
Arguments raise {E A} e.
Arguments tell {E} ev.
Arguments await {E A} ev o.
Arguments pure_step {E A} o.
Arguments and_then {E A B} m k.
Arguments attempt {E A} body handler.
Arguments events {E A} m.
Arguments ending {E A} m.

Notation "x <~ m ;; k" := (and_then m (fun x => k))
  (at level 61, m at next level, right associativity).
Notation "m ;;> k" := (and_then m (fun _ => k))
  (at level 61, right associativity).

(** ** More of JavaScript *)

(** [Boolean(v)]: what [if (v)], [v ? a : b] and [filter(Boolean)] test. *)
Definition truthy (v : JsValue) : bool :=
  match v with
  | JUndefined | JNull => false
  | JBool b => b
  | JNumber n => negb (mantissa n =? 0)%Z
  | JString s => truthy_string s
  | JArray _ | JObject _ | JNative _ => true
  end.

(** [v?.k] *)
Definition optional_get (v : JsValue) (k : string) : Outcome JsValue :=
  if nullish v then Returned JUndefined else js_get v k.

(** [config.get(key) || fallback] for a setting that holds a string. *)
Definition or_default (configured : option string) (fallback : string)
  : string :=
  match configured with
  | Some s => if truthy_string s then s else fallback
  | None => fallback
  end.

(** The decimal text of an integer, as a template literal prints it. *)
Definition Number_toString (z : Z) : string :=
  NilZero.string_of_int (Z.to_int z).

(** ** speech-transcription.ts *)

Definition PROVIDER_MODELS : JsValue :=
  JObject [ ("openai", JString "whisper-1");
            ("groq", JString "whisper-large-v3-turbo");
            ("localhost", JString "whisper-1") ].

(** The argument of [audio.transcriptions.create]; [file] is the path the
    read stream was opened on. *)
Record TranscriptionRequest : Type := mkTranscriptionRequest {
  file : string;
  model : JsValue;
  request_language : string;
  response_format : string
}.

Inductive PipelineEvent : Type :=
| AppendLine (line : string)
| CreateReadStream (path : string)
| TranscriptionsCreate (request : TranscriptionRequest)
| ChatCreate (request : JsValue)
| ExecuteCommand (command : JsValue) (args : list JsValue)
| WriteFile (path : string) (result : Transcription)
| ShowError (msg : string)
| Exec (command : string)
| Kill (process : nat).
(** [WriteFile path result] writes [JSON.stringify(result, null, 2)];
    [Exec] spawns a process and [Kill] ends the one with that handle. *)

(** What a [catch] block can find wrong with the value it caught, when
    that value was made by a collaborator (the rejection of a promise, or
    what [exec] threw) and not by the runtime.
    - [Unprintable thrown]: converting the value to a string throws
      [thrown] (its [toString] is not callable, or throws), and so does a
      template literal that holds it.
    - [OddMessage formatted]: the value prints and is an [Error], but its
      [message] is not a string; [formatted] is how
      [error.message.replace(/\bError\b/i, '').trim()] and the conversion
      of its value to a string end.
    - [Sound]: the value prints, and if it is an [Error] its [message] is
      a string. *)
Inductive Defect : Type :=
| Sound
| Unprintable (thrown : JsError)
| OddMessage (formatted : Outcome string).

(** What [SpeechTranscription] is given by the editor, Node and the
    endpoints. *)
Record Platform : Type := mkPlatform {
  (** [config.get(key)] of the [whisper-assistant] settings, all strings;
      [None] is [undefined]. *)
  config_get : string -> option string;
  path_join : string -> string -> string;
  transcriptions_create : TranscriptionRequest -> Outcome TranscriptionVerbose;
  chat_create : JsValue -> Outcome ChatCompletion;
  json_parse : string -> option JsValue;
  json_stringify : JsValue -> string;
  (** a value inside a template literal, when its conversion returns
      (see [convertible]) *)
  to_string : JsValue -> string;
  (** a caught error inside a template literal, when its conversion
      returns *)
  error_string : JsError -> string;
  (** [error.message] when [error instanceof Error] and the message is a
      string *)
  error_message : JsError -> option string;
  (** what is wrong with the value behind [Rejected reason] *)
  rejection_defect : string -> Defect;
  execute_command : JsValue -> list JsValue -> Outcome unit;
  write_file : string -> Transcription -> Outcome unit;
  (** [exec(command, callback)]: the handle of the child process *)
  exec : string -> Outcome nat
}.

Definition fileName : string := "recording".

(** The argument of [chat.completions.create] in [processRecording]. *)
Definition interpretRequest (content : string) : JsValue :=
  JObject
    [ ("model", JString "gpt-4o");
      ("messages",
        JArray [ chatMessage "system" "Convert input to VS Code commands.";
                 chatMessage "user" content ]);
      ("functions",
        JArray
          [ JObject
              [ ("name", JString "executeVSCodeCommand");
                ("description",
                  JString "Execute a VS Code command with optional arguments,default to quickOpen with the transcription if nothing else fits");
                ("parameters",
                  JObject
                    [ ("type", JString "object");
                      ("properties",
                        JObject
                          [ ("command",
                              JObject
                                [ ("type", JString "string");
                                  ("enum", JArray (map JString commandEnum));
                                  ("description",
                                    JString "The VS Code command to execute") ]);
                            ("args",
                              JObject
                                [ ("type", JString "object");
                                  ("properties",
                                    JObject
                                      [ ("filename",
                                          JObject [ ("type", JString "string") ]);
                                        ("searchTerm",
                                          JObject [ ("type", JString "string") ]) ]);
                                  ("description",
                                    JString "Optional arguments for the command") ]) ]);
                      ("required", JArray [ JString "command" ]) ]) ] ]);
      ("function_call",
        JObject [ ("name", JString "executeVSCodeCommand") ]);
      ("temperature", JNumber (Num 2 (-1))) ].

(** [{ command, args }] that [processRecording] fills from the reply. *)
Record CommandObject : Type := mkCommandObject {
  object_command : JsValue;
  object_args : list JsValue
}.

(** *** The message shown when [processRecording] fails *)

Definition is_word_char (c : ascii) : bool :=
  let k := nat_of_ascii c in
  ((48 <=? k) && (k <=? 57) || (65 <=? k) && (k <=? 90)
   || (97 <=? k) && (k <=? 122) || (k =? 95))%nat.

(** [c] is the letter with lower-case code [lower], in either case. *)
Definition letter (lower : nat) (c : ascii) : bool :=
  ((nat_of_ascii c =? lower) || (nat_of_ascii c =? lower - 32))%nat.

(** [s] starts with the letters of [Error], in any case, and a word does
    not go on after them; the answer is what follows the five letters. *)
Definition after_Error (s : string) : option string :=
  match s with
  | String e (String r1 (String r2 (String o (String r3 rest)))) =>
      if letter 101 e && letter 114 r1 && letter 114 r2 && letter 111 o
         && letter 114 r3
         && match rest with
            | EmptyString => true
            | String c _ => negb (is_word_char c)
            end
      then Some rest else None
  | _ => None
  end.

(** [s.replace(/\bError\b/i, '')], scanning [s] from a position that
    follows a word character or not. *)
Fixpoint replace_Error (inside_word : bool) (s : string) : string :=
  match s with
  | EmptyString => EmptyString
  | String c rest =>
      match (if inside_word then None else after_Error s) with
      | Some tail => tail
      | None => String c (replace_Error (is_word_char c) rest)
      end
  end.

(** White space and line terminators of the alphabet. *)
Definition is_space (c : ascii) : bool :=
  let k := nat_of_ascii c in
  ((9 <=? k) && (k <=? 13) || (k =? 32) || (k =? 160))%nat.

Fixpoint trim_start (s : string) : string :=
  match s with
  | EmptyString => EmptyString
  | String c rest => if is_space c then trim_start rest else s
  end.

Fixpoint trim_end (s : string) : string :=
  match s with
  | EmptyString => EmptyString
  | String c rest =>
      match trim_end rest with
      | EmptyString => if is_space c then EmptyString else String c EmptyString
      | kept => String c kept
      end
  end.

(** [s.trim()] *)
Definition trim (s : string) : string := trim_end (trim_start s).

(** [errorMessage] of the [catch] block of [processRecording]. *)
Definition errorMessage (p : Platform) (error : JsError) : string :=
  match error_message p error with
  | Some msg => trim (replace_Error false msg)
  | None => "An error occurred during transcription."
  end.

(** *** Conversions to a string that can throw *)

(** Whether a decoded value can stand in a template literal.  A value that
    [JSON.parse] made holds no function, so an object with an own member
    [toString] has no callable [toString], and the [valueOf] it inherits
    (or holds) gives no primitive either: the conversion throws a
    [TypeError].  An array is joined from its elements, where [null] and
    [undefined] count as the empty string.  Every other decoded value
    converts ([[object Object]] for the other objects). *)
Fixpoint convertible (v : JsValue) : bool :=
  match v with
  | JObject fields =>
      match own_property fields "toString" with
      | Some _ => false
      | None => true
      end
  | JArray items =>
      forallb (fun item => nullish item || convertible item) items
  | _ => true
  end.

(** [`${v}`] for a decoded value [v]. *)
Definition template (p : Platform) (v : JsValue) : Outcome string :=
  if convertible v then Returned (to_string p v) else Thrown TypeError.

(** What is wrong with a caught value.  The errors the runtime itself
    throws ([TypeError], [SyntaxError]) are sound. *)
Definition defect (p : Platform) (error : JsError) : Defect :=
  match error with
  | Rejected reason => rejection_defect p reason
  | TypeError | SyntaxError => Sound
  end.

(** [`${error}`] in a [catch] block. *)
Definition thrown_text (p : Platform) (error : JsError) : Outcome string :=
  match defect p error with
  | Unprintable thrown => Thrown thrown
  | Sound | OddMessage _ => Returned (error_string p error)
  end.

(** [errorMessage] of the [catch] block of [processRecording] as the
    template literal of the notification holds it; the line before has
    printed [error]. *)
Definition shown_message (p : Platform) (error : JsError) : Outcome string :=
  match defect p error with
  | OddMessage formatted => formatted
  | Sound | Unprintable _ => Returned (errorMessage p error)
  end.

(** *** [processRecording] *)

(** [processedText] and [commandObject] before the reply is looked at. *)
Definition nothing_interpreted : string * CommandObject :=
  ("none", {| object_command := JString EmptyString; object_args := [] |}).

(** [if (functionCall?.arguments) { try { ... } catch { ... } }]: the two
    variables after the block.  Nothing after the assignment of
    [processedText] throws ([optional_get] of a decoded value returns), so
    the two variables are either both assigned or both left as they were. *)
Definition interpret (p : Platform) (functionCall : option FunctionCall)
  : Prog PipelineEvent (string * CommandObject) :=
  match functionCall with
  | Some call =>
      if truthy_string (arguments call) then
        attempt
          (args <~ pure_step
                     (match json_parse p (arguments call) with
                      | Some v => Returned v
                      | None => Thrown SyntaxError
                      end) ;;
           command <~ pure_step (js_get args "command") ;;
           printed <~ pure_step (template p command) ;;
           inner <~ pure_step (js_get args "args") ;;
           let processedText :=
             printed
             ++ (if truthy inner then " " ++ json_stringify p inner
                 else EmptyString) in
           filename <~ pure_step (optional_get inner "filename") ;;
           searchTerm <~ pure_step (optional_get inner "searchTerm") ;;
           done (processedText,
                 {| object_command := command;
                    object_args := filter truthy [ filename; searchTerm ] |}))
          (fun error =>
             line <~ pure_step (thrown_text p error) ;;
             tell (AppendLine
                     ("Whisper Assistant: Error parsing function arguments: "
                      ++ line)) ;;>
             done nothing_interpreted)
      else done nothing_interpreted
  | None => done nothing_interpreted
  end.

(** [if (commandObject.command) { try { ... } catch { ... } }].  The
    handler prints the error it caught; when that throws, the error leaves
    the block and reaches the [catch] of [processRecording]. *)
Definition run_command (p : Platform) (commandObject : CommandObject)
  : Prog PipelineEvent unit :=
  if truthy (object_command commandObject) then
    attempt
      (printed <~ pure_step (template p (object_command commandObject)) ;;
       tell (AppendLine
               ("Whisper Assistant: Executing command "
                ++ printed
                ++ " with args: "
                ++ json_stringify p (JArray (object_args commandObject)))) ;;>
       await (ExecuteCommand (object_command commandObject)
                             (object_args commandObject))
             (execute_command p (object_command commandObject)
                              (object_args commandObject)))
      (fun error =>
         line <~ pure_step (thrown_text p error) ;;
         tell (AppendLine ("Whisper Assistant: Error executing command: "
                           ++ line)))
  else done tt.

(** [completion?.choices[0]?.message?.function_call], where [completion] is
    [false] when the text has at most two characters: [false.choices] is
    [undefined], and reading its member [0] throws. *)
Definition interpretation (p : Platform) (said : string)
  : Prog PipelineEvent (option FunctionCall) :=
  if (2 <? String.length said)%nat then
    completion <~ await (ChatCreate (interpretRequest said))
                        (chat_create p (interpretRequest said)) ;;
    done (match first_message completion with
          | Some msg => function_call msg
          | None => None
          end)
  else raise TypeError.

(** [provider] of [processRecording] and [getApiConfig]. *)
Definition apiProvider (p : Platform) : string :=
  or_default (config_get p "apiProvider") "openai".

(** From the start of [processRecording] to the reply of the speech
    engine. *)
Definition transcribe (p : Platform) (tempDir : string)
  : Prog PipelineEvent TranscriptionVerbose :=
  let provider := apiProvider p in
  tell (AppendLine ("Whisper Assistant: Transcribing recording using "
                    ++ provider ++ " API")) ;;>
  let audioFile := path_join p tempDir (fileName ++ ".wav") in
  tell (CreateReadStream audioFile) ;;>
  model <~ pure_step (js_get PROVIDER_MODELS provider) ;;
  let request :=
    {| file := audioFile;
       model := model;
       request_language := "en";
       response_format := "verbose_json" |} in
  transcription <~ await (TranscriptionsCreate request)
                         (transcriptions_create p request) ;;
  tell (AppendLine ("Whisper Assistant: Transcription raw: "
                    ++ raw_text transcription)) ;;>
  done transcription.

(** From the write of the result to the end of the [try] block. *)
Definition save (p : Platform) (tempDir : string) (result : Transcription)
  : Prog PipelineEvent (option Transcription) :=
  let target := path_join p tempDir (fileName ++ ".json") in
  await (WriteFile target result) (write_file p target result) ;;>
  tell (AppendLine ("Whisper Assistant: Transcription: " ++ text result)) ;;>
  if (String.length (text result) =? 0)%nat then done None
  else done (Some result).

(** The [catch] block of [processRecording].  It is not itself guarded:
    an error thrown while [error] is printed or its message is formatted
    is the rejection of the promise [processRecording] returns. *)
Definition onRecordingError (p : Platform) (error : JsError)
  : Prog PipelineEvent (option Transcription) :=
  line <~ pure_step (thrown_text p error) ;;
  tell (AppendLine ("Whisper Assistant: error: " ++ line)) ;;>
  shown <~ pure_step (shown_message p error) ;;
  tell (ShowError ("Whisper Assistant: " ++ shown)) ;;>
  done None.

(** The [try] block of [processRecording]. *)
Definition attempted (p : Platform) (tempDir : string)
  : Prog PipelineEvent (option Transcription) :=
  transcription <~ transcribe p tempDir ;;
  functionCall <~ interpretation p (raw_text transcription) ;;
  interpreted <~ interpret p functionCall ;;
  let result :=
    processRecording_result (fst interpreted) transcription in
  run_command p (snd interpreted) ;;>
  save p tempDir result.

Definition processRecording (p : Platform) (tempDir : string)
  : Prog PipelineEvent (option Transcription) :=
  attempt (attempted p tempDir) (onRecordingError p).

(** *** [getApiConfig] *)

Record ApiConfig : Type := mkApiConfig {
  baseURL : JsValue;
  apiKey : string
}.

Definition baseURLs (p : Platform) : JsValue :=
  JObject
    [ ("localhost",
        JString (or_default (config_get p "customEndpoint")
                            "http://localhost:4444" ++ "/v1"));
      ("openai", JString "https://api.openai.com/v1");
      ("groq", JString "https://api.groq.com/openai/v1") ].

(** A thrown [new Error(message)] is [Rejected message]. *)
Definition getApiConfig (p : Platform) : Outcome ApiConfig :=
  let provider := apiProvider p in
  match config_get p "apiKey" with
  | Some key =>
      if truthy_string key then
        match js_get (baseURLs p) provider with
        | Returned url => Returned {| baseURL := url; apiKey := key |}
        | Thrown e => Thrown e
        end
      else Thrown (Rejected ("API key not configured for " ++ provider))
  | None => Thrown (Rejected ("API key not configured for " ++ provider))
  end.

(** *** The recorder process *)

(** A call of [startRecording]: what it lets observe, the new value of
    [this.recordingProcess], and how the call ends.  The [catch] block
    prints the error [exec] threw; when that throws, the call throws. *)
Definition startRecording_call (p : Platform) (tempDir : string)
           (recordingProcess : option nat)
  : list PipelineEvent * option nat * Outcome unit :=
  let outputPath := path_join p tempDir (fileName ++ ".wav") in
  let command :=
    "sox -d -b 16 -e signed -c 1 -r 16k " ++ quoted outputPath in
  match exec p command with
  | Returned process => ([ Exec command ], Some process, Returned tt)
  | Thrown error =>
      match thrown_text p error with
      | Returned line =>
          ([ Exec command; AppendLine ("Whisper Assistant: error: " ++ line) ],
           recordingProcess, Returned tt)
      | Thrown thrown => ([ Exec command ], recordingProcess, Thrown thrown)
      end
  end.

(** [startRecording]: what it lets observe and the new value of
    [this.recordingProcess]. *)
Definition startRecording (p : Platform) (tempDir : string)
           (recordingProcess : option nat)
  : list PipelineEvent * option nat :=
  fst (startRecording_call p tempDir recordingProcess).

(** The callback that [startRecording] hands to [exec]. *)
Definition onRecorderExit (p : Platform) (error : option JsError)
           (stdout stderr : string) : Prog PipelineEvent unit :=
  match error with
  | Some e =>
      line <~ pure_step (thrown_text p e) ;;
      tell (AppendLine ("Whisper Assistant: error: " ++ line))
  | None =>
      if truthy_string stderr then
        tell (AppendLine ("Whisper Assistant: SoX process has been killed: "
                          ++ stderr))
      else tell (AppendLine ("Whisper Assistant: stdout: " ++ stdout))
  end.

(** [stopRecording]: the new value of [this.recordingProcess]. *)
Definition stopRecording (recordingProcess : option nat)
  : list PipelineEvent * option nat :=
  match recordingProcess with
  | None => ([ AppendLine "Whisper Assistant: No recording process found" ],
             None)
  | Some process =>
      ([ AppendLine "Whisper Assistant: Stopping recording"; Kill process ],
       None)
  end.

(** The processes a trace spawned and did not kill. *)
Fixpoint spawned (p : Platform) (tr : list PipelineEvent) : list nat :=
  match tr with
  | [] => []
  | Exec command :: rest =>
      match exec p command with
      | Returned process => process :: spawned p rest
      | Thrown _ => spawned p rest
      end
  | _ :: rest => spawned p rest
  end.

Fixpoint killed (tr : list PipelineEvent) : list nat :=
  match tr with
  | [] => []
  | Kill process :: rest => process :: killed rest
  | _ :: rest => killed rest
  end.

(** ** The status bar of the extension *)





(** ** Reading traces and tables *)

Definition is_host_call (ev : Event) : bool :=
  match ev with
  | VscodeExecuteCommand _ _ => true
  | _ => false
  end.

(** The calls of the host command facility in a run of the mapper. *)
Definition host_calls {A} (m : Eff A) : list Event :=
  filter is_host_call (trace m).

(** [tool.function.name] of every tool of a [tools] array. *)
Definition declared_tool_names (tools : JsValue) : list JsValue :=
  match tools with
  | JArray items =>
      map (fun item =>
             match js_path item [ "function"; "name" ] with
             | Returned n => n
             | Thrown _ => JUndefined
             end)
          items
  | _ => []
  end.

Definition is_chat (ev : PipelineEvent) : bool :=
  match ev with ChatCreate _ => true | _ => false end.

Definition is_command (ev : PipelineEvent) : bool :=
  match ev with ExecuteCommand _ _ => true | _ => false end.

Definition is_write (ev : PipelineEvent) : bool :=
  match ev with WriteFile _ _ => true | _ => false end.

Definition is_shown (ev : PipelineEvent) : bool :=
  match ev with ShowError _ => true | _ => false end.

(** The request [processRecording] sends to the speech engine, for the
    model found in [PROVIDER_MODELS]. *)
Definition transcriptionRequest (p : Platform) (tempDir : string)
           (found : JsValue) : TranscriptionRequest :=
  {| file := path_join p tempDir (fileName ++ ".wav");
     model := found;
     request_language := "en";
     response_format := "verbose_json" |}.

(** The events of [processRecording] up to the reply of the speech
    engine. *)
Definition transcribing (p : Platform) (tempDir : string) (found : JsValue)
  : list PipelineEvent :=
  [ AppendLine ("Whisper Assistant: Transcribing recording using "
                ++ apiProvider p ++ " API");
    CreateReadStream (path_join p tempDir (fileName ++ ".wav"));
    TranscriptionsCreate (transcriptionRequest p tempDir found) ].

(** The events of its [catch] block. *)
Definition failing (p : Platform) (error : JsError) : list PipelineEvent :=
  [ AppendLine ("Whisper Assistant: error: " ++ error_string p error);
    ShowError ("Whisper Assistant: " ++ errorMessage p error) ].

(** The events from the write of the result on. *)
Definition saving (p : Platform) (tempDir : string) (result : Transcription)
  : list PipelineEvent :=
  [ WriteFile (path_join p tempDir (fileName ++ ".json")) result;
    AppendLine ("Whisper Assistant: Transcription: " ++ text result) ].

(** [s] ends with [suffix]. *)
Definition ends_with (suffix s : string) : Prop :=
  exists prefix, s = prefix ++ suffix.

Definition first_char (s : string) : option ascii :=
  match s with
  | EmptyString => None
  | String c _ => Some c
  end.

Fixpoint last_char (s : string) : option ascii :=
  match s with
  | EmptyString => None
  | String c EmptyString => Some c
  | String _ rest => last_char rest
  end.

Definition spaced (c : option ascii) : bool :=
  match c with
  | Some x => is_space x
  | None => false
  end.

(** [PROVIDER_MODELS[provider]] *)
Definition whisperModel (p : Platform) : JsValue :=
  match js_get PROVIDER_MODELS (apiProvider p) with
  | Returned found => found
  | Thrown _ => JUndefined
  end.

(** The line [processRecording] logs once the speech engine answered. *)
Definition raw_line (transcription : TranscriptionVerbose) : PipelineEvent :=
  AppendLine ("Whisper Assistant: Transcription raw: "
              ++ raw_text transcription).

(** [completion?.choices[0]?.message?.function_call] for a completion. *)
Definition function_call_of (completion : ChatCompletion)
  : option FunctionCall :=
  match first_message completion with
  | Some msg => function_call msg
  | None => None
  end.

(** ** A platform for concrete runs

    [demo_to_string] and [demo_stringify] print as the runtime does on
    strings, [undefined], [null], booleans, integers and on objects and
    arrays of these without control characters; [demo_to_string] is read
    on the values that are [convertible]. *)

Fixpoint joined (parts : list string) : string :=
  match parts with
  | [] => EmptyString
  | [ x ] => x
  | x :: rest => x ++ "," ++ joined rest
  end.

Fixpoint demo_to_string (v : JsValue) : string :=
  match v with
  | JString s => s
  | JUndefined => "undefined"
  | JNull => "null"
  | JBool true => "true"
  | JBool false => "false"
  | JNumber n => Number_toString (mantissa n * 10 ^ exp10 n)
  | JArray items =>
      joined ((fix each (l : list JsValue) : list string :=
                 match l with
                 | [] => []
                 | x :: rest =>
                     (if nullish x then EmptyString else demo_to_string x)
                     :: each rest
                 end) items)
  | JObject _ => "[object Object]"
  | JNative k => "function " ++ k ++ "() { [native code] }"
  end.

Fixpoint escaped (s : string) : string :=
  match s with
  | EmptyString => EmptyString
  | String c rest =>
      if ((nat_of_ascii c =? 34) || (nat_of_ascii c =? 92))%nat
      then String (ascii_of_nat 92) (String c (escaped rest))
      else String c (escaped rest)
  end.

Fixpoint demo_stringify (v : JsValue) : string :=
  match v with
  | JUndefined | JNull | JNative _ => "null"
  | JBool true => "true"
  | JBool false => "false"
  | JNumber n => Number_toString (mantissa n * 10 ^ exp10 n)
  | JString s => quoted (escaped s)
  | JArray items =>
      "[" ++ joined ((fix each (l : list JsValue) : list string :=
                        match l with
                        | [] => []
                        | x :: rest => demo_stringify x :: each rest
                        end) items) ++ "]"
  | JObject fields =>
      "{" ++ joined ((fix each (l : list (string * JsValue)) : list string :=
                        match l with
                        | [] => []
                        | (k, x) :: rest =>
                            match x with
                            | JUndefined | JNative _ => each rest
                            | _ => (quoted (escaped k) ++ ":"
                                    ++ demo_stringify x) :: each rest
                            end
                        end) fields) ++ "}"
  end.

(** The texts of the errors of the runs below.  They are engine texts,
    not the program's: the [TypeError] is worded as V8 words the read of
    member [0] of [undefined], the [SyntaxError] as the V8 of Node 18 words
    a JSON text that ends early (later versions name the position).  No
    theorem depends on them; a run that is stated with one of them is a
    run on that engine. *)
Definition demo_error_message (e : JsError) : string :=
  match e with
  | TypeError => "Cannot read properties of undefined (reading '0')"
  | SyntaxError => "Unexpected end of JSON input"
  | Rejected reason => reason
  end.

Definition demo_error_string (e : JsError) : string :=
  match e with
  | TypeError => "TypeError: " ++ demo_error_message e
  | SyntaxError => "SyntaxError: " ++ demo_error_message e
  | Rejected reason => "Error: " ++ reason
  end.

(** A platform whose settings are [settings] and whose speech engine,
    chat endpoint, host and file system settle as given.  What they reject
    with is a sound [Error]. *)
Definition demo_platform (settings : string -> option string)
           (engine : Outcome TranscriptionVerbose)
           (chat : Outcome ChatCompletion)
           (host_outcome write_outcome : Outcome unit) : Platform :=
  {| config_get := settings;
     path_join := fun dir name => dir ++ "/" ++ name;
     transcriptions_create := fun _ => engine;
     chat_create := fun _ => chat;
     json_parse := Json.parse;
     json_stringify := demo_stringify;
     to_string := demo_to_string;
     error_string := demo_error_string;
     error_message := fun e => Some (demo_error_message e);
     rejection_defect := fun _ => Sound;
     execute_command := fun _ _ => host_outcome;
     write_file := fun _ _ => write_outcome;
     exec := fun _ => Returned 4242 |}.

Definition only_api_key (key : string) : option string :=
  if String.eqb key "apiKey" then Some "sk-demo" else None.

Definition short_reply : TranscriptionVerbose :=
  {| raw_text := "uh"; raw_segments := Some []; raw_language := "english" |}.

Definition save_as_notes : string :=
  Json.text_of
    "{'command':'workbench.action.files.save','args':{'filename':'notes'}}".


(** [processedText] for a decoded [command] and [args]. *)
Definition processedText (p : Platform) (command inner : JsValue) : string :=
  to_string p command
  ++ (if truthy inner then " " ++ json_stringify p inner else EmptyString).

(** The line logged before the host is invoked. *)
Definition command_line (p : Platform) (command : JsValue)
           (args : list JsValue) : PipelineEvent :=
  AppendLine ("Whisper Assistant: Executing command "
              ++ to_string p command ++ " with args: "
              ++ json_stringify p (JArray args)).

(** What follows the call of the host in the trace. *)
Definition after_command (p : Platform) (settled : Outcome unit)
  : list PipelineEvent :=
  match settled with
  | Returned _ => []
  | Thrown e =>
      [ AppendLine ("Whisper Assistant: Error executing command: "
                    ++ error_string p e) ]
  end.

(** Whether a caught value prints in a template literal. *)
Definition prints (p : Platform) (error : JsError) : bool :=
  match defect p error with
  | Unprintable _ => false
  | Sound | OddMessage _ => true
  end.

(** The host returned, or rejected with a value that prints. *)
Definition settles_printably (p : Platform) (settled : Outcome unit) : bool :=
  match settled with
  | Returned _ => true
  | Thrown e => prints p e
  end.

(** The target of [fs.promises.writeFile]. *)
Definition resultFile (p : Platform) (tempDir : string) : string :=
  path_join p tempDir (fileName ++ ".json").

(** The command line [startRecording] hands to [exec]. *)
Definition soxCommand (p : Platform) (tempDir : string) : string :=
  "sox -d -b 16 -e signed -c 1 -r 16k "
  ++ quoted (path_join p tempDir (fileName ++ ".wav")).

Definition endpoint_fails (e : JsError) : JsValue -> Outcome ChatCompletion :=
  fun _ => Thrown e.

(** Settings that name a provider the tables do not know. *)
Definition azure_settings (key : string) : option string :=
  if String.eqb key "apiKey" then Some "sk-demo"
  else if String.eqb key "apiProvider" then Some "azure"
  else None.

(** Settings for a local server without a custom endpoint. *)
Definition localhost_settings (key : string) : option string :=
  if String.eqb key "apiKey" then Some "sk-demo"
  else if String.eqb key "apiProvider" then Some "localhost"
  else None.

(** The demo platform on a machine where [sox] cannot be spawned. *)
Definition platform_without_sox : Platform :=
  {| config_get := only_api_key;
     path_join := fun dir name => dir ++ "/" ++ name;
     transcriptions_create := fun _ => Returned whisper_reply;
     chat_create := fun _ => Returned reply_without_call;
     json_parse := Json.parse;
     json_stringify := demo_stringify;
     to_string := demo_to_string;
     error_string := demo_error_string;
     error_message := fun e => Some (demo_error_message e);
     rejection_defect := fun _ => Sound;
     execute_command := fun _ _ => Returned tt;
     write_file := fun _ _ => Returned tt;
     exec := fun _ => Thrown (Rejected "spawn sox ENOENT") |}.


(** Runs of the pipeline: what was said, and what went wrong. *)
Definition said_uh : Platform :=
  demo_platform only_api_key (Returned short_reply)
                (Returned reply_without_call) (Returned tt) (Returned tt).

Definition engine_down : Platform :=
  demo_platform only_api_key (Thrown (Rejected "Error: 401 Unauthorized"))
                (Returned reply_without_call) (Returned tt) (Returned tt).

Definition no_call : Platform :=
  demo_platform only_api_key (Returned whisper_reply)
                (Returned reply_without_call) (Returned tt) (Returned tt).



Definition disk_full : Platform :=
  demo_platform only_api_key (Returned whisper_reply)
                (Returned (reply_with_function_call save_as_notes))
                (Returned tt) (Thrown (Rejected "ENOSPC")).

(** [p] where the values behind the rejections are as [defects] says. *)
Definition with_defects (p : Platform) (defects : string -> Defect)
  : Platform :=
  {| config_get := config_get p;
     path_join := path_join p;
     transcriptions_create := transcriptions_create p;
     chat_create := chat_create p;
     json_parse := json_parse p;
     json_stringify := json_stringify p;
     to_string := to_string p;
     error_string := error_string p;
     error_message := error_message p;
     rejection_defect := defects;
     execute_command := execute_command p;
     write_file := write_file p;
     exec := exec p |}.

(** A rejection with an object that has no prototype, as
    [Object.create(null)] makes it: it has no [toString], and printing it
    throws a [TypeError]. *)
Definition bare_object : string := "[Object: null prototype] {}".

Definition bare_is_unprintable (reason : string) : Defect :=
  if String.eqb reason bare_object then Unprintable TypeError else Sound.

(** The speech engine rejects with a bare object. *)
Definition engine_rejects_bare : Platform :=
  with_defects
    (demo_platform only_api_key (Thrown (Rejected bare_object))
                   (Returned reply_without_call) (Returned tt) (Returned tt))
    bare_is_unprintable.

(** [exec] throws a bare object. *)
Definition exec_throws_bare : Platform :=
  with_defects
    {| config_get := only_api_key;
       path_join := fun dir name => dir ++ "/" ++ name;
       transcriptions_create := fun _ => Returned whisper_reply;
       chat_create := fun _ => Returned reply_without_call;
       json_parse := Json.parse;
       json_stringify := demo_stringify;
       to_string := demo_to_string;
       error_string := demo_error_string;
       error_message := fun e => Some (demo_error_message e);
       rejection_defect := fun _ => Sound;
       execute_command := fun _ _ => Returned tt;
       write_file := fun _ _ => Returned tt;
       exec := fun _ => Thrown (Rejected bare_object) |}
    bare_is_unprintable.

(** The chat endpoint answers with a command that cannot be printed. *)
Definition unprintable_command : string :=
  Json.text_of "{'command':{'toString':1},'args':{'filename':'notes'}}".

Definition unprintable_call : Platform :=
  demo_platform only_api_key (Returned whisper_reply)
                (Returned (reply_with_function_call unprintable_command))
                (Returned tt) (Returned tt).

(** An [Error] whose message is the one word [Error]. *)
Definition engine_says_Error : Platform :=
  demo_platform only_api_key (Thrown (Rejected "Error"))
                (Returned reply_without_call) (Returned tt) (Returned tt).

Definition nothing_configured (key : string) : option string := None.

Definition platform_without_key : Platform :=
  demo_platform nothing_configured (Returned whisper_reply)
                (Returned reply_without_call) (Returned tt) (Returned tt).

Definition localhost_platform : Platform :=
  demo_platform localhost_settings (Returned whisper_reply)
                (Returned reply_without_call) (Returned tt) (Returned tt).

Definition azure_platform : Platform :=
  demo_platform azure_settings (Returned whisper_reply)
                (Returned reply_without_call) (Returned tt) (Returned tt).

(** * Properties *)

Unset Implicit Arguments.

(** ** The effect monad *)

Lemma bind_returned {A B} (tr : list Event) (a : A) (k : A -> Eff B) :
  bind (tr, Returned a) k = ((tr ++ fst (k a))%list, snd (k a)).
Proof. unfold bind. destruct (k a); reflexivity. Qed.

Lemma bind_thrown {A B} (tr : list Event) (e : JsError) (k : A -> Eff B) :
  bind (tr, Thrown e) k = (tr, Thrown e).
Proof. reflexivity. Qed.

Lemma try_catch_returned {A} (tr : list Event) (a : A) h :
  try_catch (tr, Returned a) h = (tr, Returned a).
Proof. reflexivity. Qed.

Lemma try_catch_thrown {A} (tr : list Event) (e : JsError)
      (h : JsError -> Eff A) :
  try_catch (tr, Thrown e) h = ((tr ++ fst (h e))%list, snd (h e)).
Proof. unfold try_catch. destruct (h e); reflexivity. Qed.

Lemma bind_ret {A B} (a : A) (k : A -> Eff B) : bind (ret a) k = k a.
Proof. unfold bind, ret. destruct (k a); reflexivity. Qed.

Lemma bind_lift_returned {A B} (a : A) (k : A -> Eff B) :
  bind (lift (Returned a)) k = k a.
Proof. exact (bind_ret a k). Qed.

Lemma bind_lift_thrown {A B} (e : JsError) (k : A -> Eff B) :
  bind (lift (Thrown e)) k = throw e.
Proof. reflexivity. Qed.

(** A [try] whose handler returns never throws. *)
Lemma try_catch_total {A} (body : Eff A) (h : JsError -> Eff A) :
  (forall e, exists tr a, h e = (tr, Returned a)) ->
  exists tr a, try_catch body h = (tr, Returned a).
Proof.
  intros Hh. destruct body as [tr [a | e]].
  - exists tr, a. reflexivity.
  - destruct (Hh e) as (tr' & a & Heq).
    exists (tr ++ tr')%list, a. unfold try_catch. rewrite Heq. reflexivity.
Qed.

(** ** The guard *)

Lemma truthy_string_length (s : string) :
  truthy_string s = true <-> (0 < String.length s)%nat.
Proof.
  destruct s; simpl; split; intros H; try lia; try discriminate; reflexivity.
Qed.

Lemma too_short_true (t : Transcription) :
  (String.length (text t) <= 2)%nat -> too_short t = true.
Proof.
  intros H. unfold too_short.
  apply orb_true_iff. right. apply Nat.leb_le. exact H.
Qed.

Lemma too_short_false (t : Transcription) :
  (2 < String.length (text t))%nat -> too_short t = false.
Proof.
  intros H. unfold too_short. apply orb_false_iff. split.
  - apply negb_false_iff. apply truthy_string_length. lia.
  - apply Nat.leb_gt. exact H.
Qed.

(** The guard is exactly the length test: the emptiness test adds nothing. *)
Lemma too_short_iff (t : Transcription) :
  too_short t = true <-> (String.length (text t) <= 2)%nat.
Proof.
  split; [ | apply too_short_true ].
  intros H. destruct (le_gt_dec (String.length (text t)) 2) as [Hle | Hgt];
    [ exact Hle | ].
  rewrite (too_short_false t Hgt) in H. discriminate.
Qed.

Section MapperProperties.

Variable JSON_parse : string -> option JsValue.
Variable endpoint : JsValue -> Outcome ChatCompletion.
Variable host : JsValue -> JsValue -> Outcome unit.

(** [JSON.parse('')] throws a [SyntaxError]. *)
Hypothesis JSON_parse_empty : JSON_parse EmptyString = None.

Lemma decodable_is_truthy (payload : string) (v : JsValue) :
  JSON_parse payload = Some v -> truthy_string payload = true.
Proof using JSON_parse_empty.
  destruct payload; [ | reflexivity ].
  rewrite JSON_parse_empty. discriminate.
Qed.

(** One step of either operation past the guard, once the endpoint has
    answered. *)
Lemma map_command_after_reply t completion :
  (2 < String.length (text t))%nat ->
  endpoint (functionsRequest (text t)) = Returned completion ->
  mapTranscriptionToCommand JSON_parse endpoint t =
  try_catch
    (bind ([ChatCompletionsCreate (functionsRequest (text t))],
           Returned completion)
       (fun completion =>
          match function_call_arguments completion with
          | Some payload =>
              if truthy_string payload
              then args <- parse JSON_parse payload ;; ret args
              else ret JUndefined
          | None => ret JUndefined
          end))
    onMappingError.
Proof.
  intros Hlen Hreply. unfold mapTranscriptionToCommand, await_create.
  rewrite (too_short_false t Hlen), Hreply. reflexivity.
Qed.

Lemma map_via_tools_after_reply t completion :
  (2 < String.length (text t))%nat ->
  endpoint (toolsRequest (text t)) = Returned completion ->
  mapTranscriptionToCommandViaTools JSON_parse endpoint t =
  try_catch
    (bind ([ChatCompletionsCreate (toolsRequest (text t))],
           Returned completion)
       (fun completion =>
          match first_tool_call completion with
          | Some toolCall =>
              if String.eqb (type toolCall) "function"
                 && truthy_string (arguments (function toolCall))
              then
                args <- parse JSON_parse (arguments (function toolCall)) ;;
                command <-
                  lift (js_get commandMap (name (function toolCall))) ;;
                filename <- lift (js_get args "filename") ;;
                ret (JObject [ ("command", command); ("args", filename) ])
              else ret JUndefined
          | None => ret JUndefined
          end))
    onMappingError.
Proof.
  intros Hlen Hreply. unfold mapTranscriptionToCommandViaTools, await_create.
  rewrite (too_short_false t Hlen), Hreply. reflexivity.
Qed.

(** C3. A transcription whose text is empty or has at most two characters
    makes both mapping operations return absent at once: the trace of the
    run is empty, so no request went to the language-model endpoint (and
    nothing was logged or shown). *)
Theorem short_text_is_absent_without_request (t : Transcription) :
  (String.length (text t) <= 2)%nat ->
  mapTranscriptionToCommand JSON_parse endpoint t = ([], Returned JUndefined)
  /\ mapTranscriptionToCommandViaTools JSON_parse endpoint t = ([], Returned JUndefined)
  /\ requests (mapTranscriptionToCommand JSON_parse endpoint t) = 0%nat
  /\ requests (mapTranscriptionToCommandViaTools JSON_parse endpoint t) = 0%nat.
Proof.
  intros Hlen.
  assert (Hc : mapTranscriptionToCommand JSON_parse endpoint t = ([], Returned JUndefined)).
  { unfold mapTranscriptionToCommand.
    rewrite (too_short_true t Hlen). reflexivity. }
  assert (Hv : mapTranscriptionToCommandViaTools JSON_parse endpoint t = ([], Returned JUndefined)).
  { unfold mapTranscriptionToCommandViaTools.
    rewrite (too_short_true t Hlen). reflexivity. }
  rewrite Hc, Hv. repeat split; reflexivity.
Qed.

(** C7. When the reply of the model carries no function-call (no first
    choice, no message in it, or no [function_call] in the message),
    [mapTranscriptionToCommand] returns absent; the one request is all the
    run shows. *)
Theorem no_function_call_is_absent (t : Transcription)
        (completion : ChatCompletion) :
  (2 < String.length (text t))%nat ->
  endpoint (functionsRequest (text t)) = Returned completion ->
  function_call_arguments completion = None ->
  mapTranscriptionToCommand JSON_parse endpoint t
  = ([ChatCompletionsCreate (functionsRequest (text t))], Returned JUndefined).
Proof.
  intros Hlen Hreply Hnone.
  rewrite (map_command_after_reply t completion Hlen Hreply).
  rewrite bind_returned, Hnone. reflexivity.
Qed.

(** The run on a reply whose function-call arguments decode. *)
Lemma map_command_returns_decoded (t : Transcription)
      (completion : ChatCompletion) (payload : string) (v : JsValue) :
  (2 < String.length (text t))%nat ->
  endpoint (functionsRequest (text t)) = Returned completion ->
  function_call_arguments completion = Some payload ->
  JSON_parse payload = Some v ->
  mapTranscriptionToCommand JSON_parse endpoint t
  = ([ChatCompletionsCreate (functionsRequest (text t))], Returned v).
Proof using JSON_parse_empty.
  intros Hlen Hreply Hcall Hdecode.
  rewrite (map_command_after_reply t completion Hlen Hreply).
  rewrite bind_returned, Hcall, (decodable_is_truthy payload v Hdecode).
  unfold parse. rewrite Hdecode. reflexivity.
Qed.

(** C2. When the reply carries a function-call whose arguments JSON-decode
    to a value [v] (a [{command, args?}] structure in particular),
    [mapTranscriptionToCommand] returns [v] itself: nothing is added,
    removed, checked or rewritten, and nothing but the request is
    observable. *)
Theorem decoded_arguments_returned_unmodified (t : Transcription)
        (completion : ChatCompletion) (payload : string) (v : JsValue) :
  (2 < String.length (text t))%nat ->
  endpoint (functionsRequest (text t)) = Returned completion ->
  function_call_arguments completion = Some payload ->
  JSON_parse payload = Some v ->
  mapTranscriptionToCommand JSON_parse endpoint t
  = ([ChatCompletionsCreate (functionsRequest (text t))], Returned v).
Proof using JSON_parse_empty.
  intros Hlen Hreply Hcall Hdecode.
  unfold mapTranscriptionToCommand, await_create.
  rewrite (too_short_false t Hlen), Hreply, bind_returned, Hcall.
  destruct payload as [ | c rest ].
  - rewrite JSON_parse_empty in Hdecode. discriminate Hdecode.
  - cbn [truthy_string]. unfold parse. rewrite Hdecode.
    rewrite bind_ret. reflexivity.
Qed.

(** C6, as amended. When the function-call arguments are a non-empty
    payload whose JSON decoding throws, [mapTranscriptionToCommand] resolves
    to absent instead of raising, after logging the error and showing
    exactly one failure notification.  (The empty string, on which decoding
    throws as well, never reaches [JSON.parse]: the run on it is silent.) *)
Theorem malformed_arguments_are_absent_with_one_notification
        (t : Transcription) (completion : ChatCompletion) (payload : string) :
  (2 < String.length (text t))%nat ->
  endpoint (functionsRequest (text t)) = Returned completion ->
  function_call_arguments completion = Some payload ->
  payload <> EmptyString ->
  JSON_parse payload = None ->
  mapTranscriptionToCommand JSON_parse endpoint t
  = ([ ChatCompletionsCreate (functionsRequest (text t));
       ConsoleError "Error mapping transcription to command:" SyntaxError;
       ShowErrorMessage "Failed to map voice command to VS Code action" ],
     Returned JUndefined)
  /\ notifications (mapTranscriptionToCommand JSON_parse endpoint t) = 1%nat.
Proof.
  intros Hlen Hreply Hcall Hpresent Hthrows.
  assert (Hrun : mapTranscriptionToCommand JSON_parse endpoint t
    = ([ ChatCompletionsCreate (functionsRequest (text t));
         ConsoleError "Error mapping transcription to command:" SyntaxError;
         ShowErrorMessage "Failed to map voice command to VS Code action" ],
       Returned JUndefined)).
  { rewrite (map_command_after_reply t completion Hlen Hreply).
    rewrite bind_returned, Hcall.
    destruct payload as [ | c rest ]; [ contradiction | ].
    cbn [truthy_string]. unfold parse. rewrite Hthrows. reflexivity. }
  split; [ exact Hrun | rewrite Hrun; reflexivity ].
Qed.


(** An empty arguments string is not decoded: the run ends absent with the
    request as its only event. *)
Lemma empty_arguments_are_absent_silently (t : Transcription)
      (completion : ChatCompletion) :
  (2 < String.length (text t))%nat ->
  endpoint (functionsRequest (text t)) = Returned completion ->
  function_call_arguments completion = Some EmptyString ->
  mapTranscriptionToCommand JSON_parse endpoint t
  = ([ChatCompletionsCreate (functionsRequest (text t))], Returned JUndefined).
Proof.
  intros Hlen Hreply Hcall.
  rewrite (map_command_after_reply t completion Hlen Hreply).
  rewrite bind_returned, Hcall. reflexivity.
Qed.

(** A rejected request takes the failure path as well. *)
Lemma rejected_request_is_absent (t : Transcription) (e : JsError) :
  (2 < String.length (text t))%nat ->
  endpoint (functionsRequest (text t)) = Thrown e ->
  mapTranscriptionToCommand JSON_parse endpoint t
  = ([ ChatCompletionsCreate (functionsRequest (text t));
       ConsoleError "Error mapping transcription to command:" e;
       ShowErrorMessage "Failed to map voice command to VS Code action" ],
     Returned JUndefined).
Proof.
  intros Hlen Hreply. unfold mapTranscriptionToCommand, await_create.
  rewrite (too_short_false t Hlen), Hreply. reflexivity.
Qed.

(** Neither mapping operation ever raises. *)
Lemma map_command_total (t : Transcription) :
  exists tr r, mapTranscriptionToCommand JSON_parse endpoint t = (tr, Returned r).
Proof.
  unfold mapTranscriptionToCommand. apply try_catch_total.
  intros e. eexists. eexists. reflexivity.
Qed.

Lemma map_via_tools_total (t : Transcription) :
  exists tr r,
    mapTranscriptionToCommandViaTools JSON_parse endpoint t = (tr, Returned r).
Proof.
  unfold mapTranscriptionToCommandViaTools. apply try_catch_total.
  intros e. eexists. eexists. reflexivity.
Qed.

(** ** The tools protocol *)

Lemma js_get_object (fields : list (string * JsValue)) (k : string) :
  exists x, js_get (JObject fields) k = Returned x.
Proof.
  unfold js_get. destruct (own_property fields k).
  - eexists; reflexivity.
  - destruct (mem_string k object_prototype_keys); eexists; reflexivity.
Qed.

Lemma js_get_non_nullish (v : JsValue) (k : string) :
  nullish v = false -> exists x, js_get v k = Returned x.
Proof.
  destruct v; simpl; intros H; try discriminate;
    try (eexists; reflexivity).
  apply js_get_object.
Qed.

Lemma js_get_nullish (v : JsValue) (k : string) :
  nullish v = true -> js_get v k = Thrown TypeError.
Proof. destruct v; simpl; intros H; try discriminate; reflexivity. Qed.

(** Looking a name up in [commandMap] never throws. *)
Lemma commandMap_lookup (tool_name : string) :
  exists command, js_get commandMap tool_name = Returned command.
Proof. unfold commandMap. apply js_get_object. Qed.

(** Every row of the table is a row of [commandMap]. *)
Lemma commandMap_row (tool_name host_command : string) :
  In (tool_name, host_command) toolCommands ->
  js_get commandMap tool_name = Returned (JString host_command).
Proof.
  unfold toolCommands. intros Hin.
  repeat (destruct Hin as [Heq | Hin];
          [ injection Heq as <- <-; reflexivity | ]).
  destruct Hin.
Qed.

(** The run on a reply whose first tool-call passes the test of the source
    and whose arguments decode to [v]. *)
Lemma map_via_tools_on_decoded (t : Transcription)
      (completion : ChatCompletion) (toolCall : ToolCall) (v : JsValue) :
  (2 < String.length (text t))%nat ->
  endpoint (toolsRequest (text t)) = Returned completion ->
  first_tool_call completion = Some toolCall ->
  type toolCall = "function" ->
  JSON_parse (arguments (function toolCall)) = Some v ->
  mapTranscriptionToCommandViaTools JSON_parse endpoint t
  = match js_get commandMap (name (function toolCall)),
          js_get v "filename" with
    | Returned command, Returned filename =>
        ([ChatCompletionsCreate (toolsRequest (text t))],
         Returned (JObject [ ("command", command); ("args", filename) ]))
    | Thrown e, _ | _, Thrown e =>
        ([ ChatCompletionsCreate (toolsRequest (text t));
           ConsoleError "Error mapping transcription to command:" e;
           ShowErrorMessage "Failed to map voice command to VS Code action" ],
         Returned JUndefined)
    end.
Proof using JSON_parse_empty.
  intros Hlen Hreply Hcall Htype Hdecode.
  rewrite (map_via_tools_after_reply t completion Hlen Hreply).
  rewrite bind_returned, Hcall, Htype.
  rewrite (decodable_is_truthy _ v Hdecode).
  cbn [String.eqb Ascii.eqb Bool.eqb andb]. unfold parse. rewrite Hdecode.
  rewrite bind_ret.
  destruct (js_get commandMap (name (function toolCall))) as [command | e].
  - rewrite bind_lift_returned.
    destruct (js_get v "filename") as [filename | e'].
    + rewrite bind_lift_returned. reflexivity.
    + rewrite bind_lift_thrown. reflexivity.
  - rewrite bind_lift_thrown. destruct (js_get v "filename"); reflexivity.
Qed.

(** Whatever mapping the tools path hands on has two members, the first of
    which is the table's answer for the name of the first tool-call. *)
Lemma map_via_tools_result_shape (t : Transcription)
      (completion : ChatCompletion) (toolCall : ToolCall)
      (mapping : JsValue) :
  (2 < String.length (text t))%nat ->
  endpoint (toolsRequest (text t)) = Returned completion ->
  first_tool_call completion = Some toolCall ->
  outcome (mapTranscriptionToCommandViaTools JSON_parse endpoint t)
  = Returned mapping ->
  mapping <> JUndefined ->
  exists command filename v,
    mapping = JObject [ ("command", command); ("args", filename) ]
    /\ js_get commandMap (name (function toolCall)) = Returned command
    /\ JSON_parse (arguments (function toolCall)) = Some v
    /\ js_get v "filename" = Returned filename.
Proof.
  intros Hlen Hreply Hcall Hout Hpresent.
  rewrite (map_via_tools_after_reply t completion Hlen Hreply) in Hout.
  rewrite bind_returned, Hcall in Hout.
  destruct (String.eqb (type toolCall) "function"
            && truthy_string (arguments (function toolCall)));
    [ | cbn in Hout; congruence ].
  unfold parse in Hout.
  destruct (JSON_parse (arguments (function toolCall))) as [v | ] eqn:Hdecode;
    [ | cbn in Hout; congruence ].
  rewrite bind_ret in Hout.
  destruct (js_get commandMap (name (function toolCall)))
    as [command | e] eqn:Hcommand;
    [ rewrite bind_lift_returned in Hout
    | rewrite bind_lift_thrown in Hout; cbn in Hout; congruence ].
  destruct (js_get v "filename") as [filename | e] eqn:Hfile;
    [ rewrite bind_lift_returned in Hout
    | rewrite bind_lift_thrown in Hout; cbn in Hout; congruence ].
  cbn in Hout. injection Hout as <-.
  exists command, filename, v. auto.
Qed.

(** C4, as amended. For each of the six tool names, on a reply whose first
    tool-call uses that name: whatever mapping
    [mapTranscriptionToCommandViaTools] returns has, as its [command], the
    host command identifier of the lookup table for that name; and it does
    return such a mapping when the call is a function call whose arguments
    decode to a value other than [null]. *)
Theorem tool_name_selects_host_command
        (tool_name host_command : string) (t : Transcription)
        (completion : ChatCompletion) (toolCall : ToolCall) :
  In (tool_name, host_command)
     [ ("quickOpen", "workbench.action.quickOpen");
       ("newFile", "workbench.action.files.newUntitledFile");
       ("saveFile", "workbench.action.files.save");
       ("closeEditor", "workbench.action.closeActiveEditor");
       ("findInFiles", "workbench.action.findInFiles");
       ("findReferences", "references-view.findReferences") ] ->
  (2 < String.length (text t))%nat ->
  endpoint (toolsRequest (text t)) = Returned completion ->
  first_tool_call completion = Some toolCall ->
  name (function toolCall) = tool_name ->
  (forall mapping,
      outcome (mapTranscriptionToCommandViaTools JSON_parse endpoint t)
      = Returned mapping ->
      mapping <> JUndefined ->
      command_of mapping = Some (JString host_command))
  /\ (forall v,
         type toolCall = "function" ->
         JSON_parse (arguments (function toolCall)) = Some v ->
         nullish v = false ->
         exists filename,
           mapTranscriptionToCommandViaTools JSON_parse endpoint t
           = ([ChatCompletionsCreate (toolsRequest (text t))],
              Returned (JObject [ ("command", JString host_command);
                                  ("args", filename) ]))).
Proof using JSON_parse_empty.
  intros Hrow Hlen Hreply Hcall Hname.
  pose proof (commandMap_row tool_name host_command Hrow) as Htable.
  rewrite <- Hname in Htable. split.
  - intros mapping Hout Hpresent.
    destruct (map_via_tools_result_shape t completion toolCall mapping
                Hlen Hreply Hcall Hout Hpresent)
      as (command & filename & v & -> & Hcommand & _ & _).
    rewrite Htable in Hcommand. injection Hcommand as <-. reflexivity.
  - intros v Htype Hdecode Hmembers.
    destruct (js_get_non_nullish v "filename" Hmembers) as [filename Hfile].
    exists filename.
    rewrite (map_via_tools_on_decoded t completion toolCall v
               Hlen Hreply Hcall Htype Hdecode).
    rewrite Htable, Hfile. reflexivity.
Qed.

(** C5, as amended. On a reply whose first tool-call is a function call
    with arguments that decode to a value [v] other than [null],
    [mapTranscriptionToCommandViaTools] returns a mapping whose [args] is
    the member [v.filename] itself, the raw value and not an object around
    it: the string when [v] is [{filename: s}], [undefined] when [v] has no
    such member. *)
Theorem via_tools_args_is_raw_filename (t : Transcription)
        (completion : ChatCompletion) (toolCall : ToolCall) (v : JsValue) :
  (2 < String.length (text t))%nat ->
  endpoint (toolsRequest (text t)) = Returned completion ->
  first_tool_call completion = Some toolCall ->
  type toolCall = "function" ->
  JSON_parse (arguments (function toolCall)) = Some v ->
  nullish v = false ->
  exists command filename,
    js_get v "filename" = Returned filename
    /\ mapTranscriptionToCommandViaTools JSON_parse endpoint t
       = ([ChatCompletionsCreate (toolsRequest (text t))],
          Returned (JObject [ ("command", command); ("args", filename) ]))
    /\ js_get (JObject [ ("command", command); ("args", filename) ]) "args"
       = Returned filename
    /\ (forall s rest,
           v = JObject (("filename", JString s) :: rest) ->
           filename = JString s).
Proof using JSON_parse_empty.
  intros Hlen Hreply Hcall Htype Hdecode Hmembers.
  destruct (commandMap_lookup (name (function toolCall)))
    as [command Hcommand].
  destruct (js_get_non_nullish v "filename" Hmembers) as [filename Hfile].
  exists command, filename. split; [ exact Hfile | ]. split; [ | split ].
  - rewrite (map_via_tools_on_decoded t completion toolCall v
               Hlen Hreply Hcall Htype Hdecode).
    rewrite Hcommand, Hfile. reflexivity.
  - reflexivity.
  - intros s rest ->. cbn in Hfile. congruence.
Qed.

(** Arguments that decode to [null] have no member to read: the run takes
    the failure path. *)
Lemma via_tools_null_arguments_are_absent (t : Transcription)
      (completion : ChatCompletion) (toolCall : ToolCall) (v : JsValue) :
  (2 < String.length (text t))%nat ->
  endpoint (toolsRequest (text t)) = Returned completion ->
  first_tool_call completion = Some toolCall ->
  type toolCall = "function" ->
  JSON_parse (arguments (function toolCall)) = Some v ->
  nullish v = true ->
  mapTranscriptionToCommandViaTools JSON_parse endpoint t
  = ([ ChatCompletionsCreate (toolsRequest (text t));
       ConsoleError "Error mapping transcription to command:" TypeError;
       ShowErrorMessage "Failed to map voice command to VS Code action" ],
     Returned JUndefined).
Proof using JSON_parse_empty.
  intros Hlen Hreply Hcall Htype Hdecode Hnull.
  rewrite (map_via_tools_on_decoded t completion toolCall v
             Hlen Hreply Hcall Htype Hdecode).
  rewrite (js_get_nullish v "filename" Hnull).
  destruct (commandMap_lookup (name (function toolCall))) as [command ->].
  reflexivity.
Qed.

(** ** Execution *)

Lemma onExecuteError_returns (e : JsError) :
  onExecuteError e
  = ([ ConsoleError "Error executing VS Code command:" e;
       ShowErrorMessage "Failed to execute VS Code command" ],
     Returned tt).
Proof. reflexivity. Qed.

Lemma try_catch_unit_resolves (body : Eff unit) :
  outcome (try_catch body onExecuteError) = Returned tt.
Proof.
  destruct body as [tr [[] | e]].
  - reflexivity.
  - rewrite try_catch_thrown, onExecuteError_returns. reflexivity.
Qed.

(** C8. For every mapping, [executeCommand] resolves to void and never
    raises, in both revisions of the method; when the host command named by
    the mapping throws, the failure is caught, logged and shown to the user
    in one non-fatal notification. *)
Theorem executeCommand_never_raises (mapping : JsValue) :
  outcome (executeCommand host mapping) = Returned tt
  /\ outcome (executeCommand_unlogged host mapping) = Returned tt
  /\ (forall command args e,
         js_get mapping "command" = Returned command ->
         js_get mapping "args" = Returned args ->
         host command args = Thrown e ->
         executeCommand host mapping
         = ([ ConsoleLog "Executing command:" mapping;
              VscodeExecuteCommand command args;
              ConsoleError "Error executing VS Code command:" e;
              ShowErrorMessage "Failed to execute VS Code command" ],
            Returned tt)
         /\ notifications (executeCommand host mapping) = 1%nat).
Proof.
  split; [ apply try_catch_unit_resolves | ].
  split; [ apply try_catch_unit_resolves | ].
  intros command args e Hcommand Hargs Hthrows.
  assert (Hrun : executeCommand host mapping
    = ([ ConsoleLog "Executing command:" mapping;
         VscodeExecuteCommand command args;
         ConsoleError "Error executing VS Code command:" e;
         ShowErrorMessage "Failed to execute VS Code command" ],
       Returned tt)).
  { unfold executeCommand, await_executeCommand.
    rewrite Hcommand, Hargs. unfold emit. rewrite bind_returned.
    rewrite !bind_lift_returned, Hthrows. reflexivity. }
  split; [ exact Hrun | rewrite Hrun; reflexivity ].
Qed.

(** When the host command settles, nothing is logged as an error or shown. *)
Lemma executeCommand_on_success (mapping command args : JsValue) :
  js_get mapping "command" = Returned command ->
  js_get mapping "args" = Returned args ->
  host command args = Returned tt ->
  executeCommand host mapping
  = ([ ConsoleLog "Executing command:" mapping;
       VscodeExecuteCommand command args ],
     Returned tt).
Proof.
  intros Hcommand Hargs Hok.
  unfold executeCommand, await_executeCommand.
  rewrite Hcommand, Hargs. unfold emit. rewrite bind_returned.
  rewrite !bind_lift_returned, Hok. reflexivity.
Qed.

(** ** The enumeration *)

Lemma functionsRequest_declares_enum (content : string) :
  declared_enum (functionsRequest content)
  = Returned (JArray (map JString commandEnum)).
Proof. reflexivity. Qed.

(** C1, as amended. [mapTranscriptionToCommand] checks no membership: the
    six identifiers are only declared to the model, as the [enum] of the
    [command] parameter in the request; the mapping it returns carries the
    command the arguments of the reply decode to, whatever it is, so the
    enumeration invariant holds on a run exactly as far as the model
    respected the declared [enum]. *)
Theorem returned_command_is_the_decoded_one (t : Transcription)
        (completion : ChatCompletion) (payload : string) (v : JsValue) :
  (2 < String.length (text t))%nat ->
  endpoint (functionsRequest (text t)) = Returned completion ->
  function_call_arguments completion = Some payload ->
  JSON_parse payload = Some v ->
  declared_enum (functionsRequest (text t))
  = Returned (JArray [ JString "workbench.action.quickOpen";
                       JString "workbench.action.files.newUntitledFile";
                       JString "workbench.action.files.save";
                       JString "workbench.action.closeActiveEditor";
                       JString "workbench.action.findInFiles";
                       JString "references-view.findReferences" ])
  /\ (exists mapping,
         outcome (mapTranscriptionToCommand JSON_parse endpoint t)
         = Returned mapping
         /\ command_of mapping = command_of v)
  /\ ((exists c, command_of v = Some c /\ is_known_command c = true)
      -> command_always_in_enumeration JSON_parse endpoint t)
  /\ (v <> JUndefined ->
      command_always_in_enumeration JSON_parse endpoint t ->
      exists c, command_of v = Some c /\ is_known_command c = true).
Proof using JSON_parse_empty.
  intros Hlen Hreply Hcall Hdecode.
  pose proof (map_command_returns_decoded t completion payload v
                Hlen Hreply Hcall Hdecode) as Hrun.
  split; [ apply functionsRequest_declares_enum | ].
  split; [ exists v; rewrite Hrun; split; reflexivity | ].
  unfold command_always_in_enumeration. rewrite Hrun. cbn [outcome snd].
  split.
  - intros Hknown mapping Hout _. injection Hout as <-. exact Hknown.
  - intros Hpresent Hinv. apply Hinv; [ reflexivity | exact Hpresent ].
Qed.

End MapperProperties.


(** ** The tools protocol on an unknown name *)

(** C10. There is a reply whose first tool-call names a function outside
    the six tools, with arguments that decode, for which
    [mapTranscriptionToCommandViaTools] returns a mapping whose [command] is
    [undefined], not absent: the table has no row for [deleteFile] and the
    miss is handed on. *)
Theorem unknown_tool_name_yields_undefined_command :
  exists completion toolCall decoded,
    first_tool_call completion = Some toolCall
    /\ type toolCall = "function"
    /\ ~ In (name (function toolCall))
           [ "quickOpen"; "newFile"; "saveFile"; "closeEditor";
             "findInFiles"; "findReferences" ]
    /\ Json.parse (arguments (function toolCall)) = Some decoded
    /\ mapTranscriptionToCommandViaTools Json.parse
         (endpoint_replies completion) (spoken "delete this file")
       = ([ChatCompletionsCreate (toolsRequest "delete this file")],
          Returned (JObject [ ("command", JUndefined);
                              ("args", JString "notes.txt") ]))
    /\ command_of (JObject [ ("command", JUndefined);
                             ("args", JString "notes.txt") ])
       = Some JUndefined.
Proof.
  exists (reply_with_tool_call "deleteFile" filename_notes),
         {| type := "function";
            function := {| name := "deleteFile";
                           arguments := filename_notes |} |},
         filename_notes_value.
  split; [ reflexivity | ]. split; [ reflexivity | ].
  split.
  { cbn [name function In]. intros Hin.
    repeat (destruct Hin as [Heq | Hin]; [ discriminate Heq | ]).
    exact Hin. }
  split; [ vm_compute; reflexivity | ].
  split; [ vm_compute; reflexivity | reflexivity ].
Qed.

(** ** Segments *)

Lemma processRecording_segment_converted (seg : Segment) :
  converted_from seg (processRecording_segment seg).
Proof. unfold converted_from. cbn. repeat split; reflexivity. Qed.

Lemma map_segments_converted (segs : list Segment) :
  Forall2 converted_from segs (map processRecording_segment segs).
Proof.
  induction segs as [ | seg rest IH ]; cbn [map].
  - constructor.
  - constructor; [ apply processRecording_segment_converted | exact IH ].
Qed.

(** C9, as amended. Of every segment of the speech engine, in order, [id],
    [start], [end] and [text] reach the resulting [Transcription]
    unchanged, while [seek] and [temperature] are written as [0] and
    [tokens] as the empty sequence; a reply without segments gives none;
    the language is handed on.  Neither mapping operation reads anything of
    a transcription but its text. *)
Theorem segments_keep_id_timing_and_text (processedText : string)
        (transcription : TranscriptionVerbose) :
  Forall2 converted_from
          (engine_segments transcription)
          (segments (processRecording_result processedText transcription))
  /\ List.length (segments (processRecording_result processedText
                              transcription))
     = List.length (engine_segments transcription)
  /\ language (processRecording_result processedText transcription)
     = raw_language transcription
  /\ (forall JSON_parse endpoint said segs lang segs' lang',
         mapTranscriptionToCommand JSON_parse endpoint
           {| text := said; segments := segs; language := lang |}
         = mapTranscriptionToCommand JSON_parse endpoint
             {| text := said; segments := segs'; language := lang' |}
         /\ mapTranscriptionToCommandViaTools JSON_parse endpoint
              {| text := said; segments := segs; language := lang |}
            = mapTranscriptionToCommandViaTools JSON_parse endpoint
                {| text := said; segments := segs'; language := lang' |}).
Proof.
  unfold processRecording_result, engine_segments. cbn [segments language].
  destruct (raw_segments transcription) as [ segs | ].
  - split; [ apply map_segments_converted | ].
    split; [ apply length_map | ].
    split; [ reflexivity | intros; split; reflexivity ].
  - split; [ constructor | ].
    split; [ reflexivity | ].
    split; [ reflexivity | intros; split; reflexivity ].
Qed.

(** ** Runs that contradict the specification *)

(** Against C1: the arguments of the reply name a command outside the
    enumeration, and the mapping with that command is what the caller
    gets. *)
Lemma unlisted_command_is_forwarded :
  mapTranscriptionToCommand Json.parse
    (endpoint_replies (reply_with_function_call unlisted_command))
    (spoken "kill the terminal")
  = ([ChatCompletionsCreate (functionsRequest "kill the terminal")],
     Returned unlisted_command_value)
  /\ is_known_command (JString "workbench.action.terminal.kill") = false
  /\ ~ command_always_in_enumeration Json.parse
         (endpoint_replies (reply_with_function_call unlisted_command))
         (spoken "kill the terminal").
Proof.
  assert (Hrun :
    mapTranscriptionToCommand Json.parse
      (endpoint_replies (reply_with_function_call unlisted_command))
      (spoken "kill the terminal")
    = ([ChatCompletionsCreate (functionsRequest "kill the terminal")],
       Returned unlisted_command_value)).
  { vm_compute. reflexivity. }
  split; [ exact Hrun | ]. split; [ reflexivity | ].
  intros Hinv.
  destruct (Hinv unlisted_command_value) as (c & Hc & Hknown).
  - rewrite Hrun. reflexivity.
  - discriminate.
  - cbn in Hc. injection Hc as <-. discriminate Hknown.
Qed.

(** Against C4: the first tool-call names [saveFile] and carries no
    arguments; no mapping comes back. *)
Lemma saveFile_without_arguments_is_absent :
  first_tool_call (reply_with_tool_call "saveFile" EmptyString)
  = Some {| type := "function";
            function := {| name := "saveFile"; arguments := EmptyString |} |}
  /\ mapTranscriptionToCommandViaTools Json.parse
       (endpoint_replies (reply_with_tool_call "saveFile" EmptyString))
       (spoken "save the file")
     = ([ChatCompletionsCreate (toolsRequest "save the file")],
        Returned JUndefined)
  /\ ~ (exists mapping,
           outcome
             (mapTranscriptionToCommandViaTools Json.parse
                (endpoint_replies (reply_with_tool_call "saveFile" EmptyString))
                (spoken "save the file"))
           = Returned mapping
           /\ command_of mapping
              = Some (JString "workbench.action.files.save")).
Proof.
  split; [ reflexivity | ]. split; [ reflexivity | ].
  intros (mapping & Hout & Hcommand).
  cbn in Hout. injection Hout as <-. discriminate Hcommand.
Qed.

(** Against C6: the function-call arguments are the empty string, a
    payload on which JSON decoding throws.  The code tests the arguments
    for truthiness before it decodes them, so the run ends absent without
    any notification. *)
Lemma empty_arguments_are_not_notified :
  Json.parse EmptyString = None
  /\ function_call_arguments (reply_with_function_call EmptyString)
     = Some EmptyString
  /\ mapTranscriptionToCommand Json.parse
       (endpoint_replies (reply_with_function_call EmptyString))
       (spoken "save the file")
     = ([ChatCompletionsCreate (functionsRequest "save the file")],
        Returned JUndefined)
  /\ notifications
       (mapTranscriptionToCommand Json.parse
          (endpoint_replies (reply_with_function_call EmptyString))
          (spoken "save the file"))
     = 0%nat.
Proof. repeat split. Qed.

(** Against C5: the arguments of the first tool-call decode, to [null];
    reading [filename] from it throws and the run ends absent, with a
    notification. *)
Lemma null_arguments_give_no_mapping :
  Json.parse "null" = Some JNull
  /\ mapTranscriptionToCommandViaTools Json.parse
       (endpoint_replies (reply_with_tool_call "quickOpen" "null"))
       (spoken "open my notes")
     = ([ ChatCompletionsCreate (toolsRequest "open my notes");
          ConsoleError "Error mapping transcription to command:" TypeError;
          ShowErrorMessage "Failed to map voice command to VS Code action" ],
        Returned JUndefined)
  /\ ~ (exists command filename,
           outcome
             (mapTranscriptionToCommandViaTools Json.parse
                (endpoint_replies (reply_with_tool_call "quickOpen" "null"))
                (spoken "open my notes"))
           = Returned (JObject [ ("command", command); ("args", filename) ])).
Proof.
  split; [ reflexivity | ]. split; [ vm_compute; reflexivity | ].
  intros (command & filename & Hout).
  vm_compute in Hout. discriminate Hout.
Qed.

(** Against C9: the engine's [seek], [tokens] and [temperature] do not
    reach the result. *)
Lemma engine_segment_is_rewritten :
  segments (processRecording_result "none" whisper_reply)
  = [ {| id := Num 0 0;
         seek := Num 0 0;
         start := Num 0 0;
         end_ := Num 25 (-1);
         seg_text := " save the file";
         tokens := [];
         temperature := Num 0 0 |} ]
  /\ segments (processRecording_result "none" whisper_reply)
     <> [ whisper_segment ]
  /\ processRecording_result "none" whisper_reply
     <> passThrough_result "none" whisper_reply.
Proof.
  split; [ reflexivity | ].
  split.
  - intros Heq. apply (f_equal (map seek)) in Heq. discriminate Heq.
  - intros Heq. apply (f_equal (fun r => map seek (segments r))) in Heq.
    discriminate Heq.
Qed.

(** ** The theorems at concrete runs *)

Lemma json_parse_empty : Json.parse EmptyString = None.
Proof. reflexivity. Qed.

Lemma short_text_witness :
  (String.length (text (spoken "ok")) <= 2)%nat
  /\ mapTranscriptionToCommand Json.parse
       (endpoint_replies (reply_with_function_call quickOpen_config))
       (spoken "ok")
     = ([], Returned JUndefined)
  /\ mapTranscriptionToCommandViaTools Json.parse
       (endpoint_replies (reply_with_tool_call "quickOpen" filename_notes))
       (spoken "ok")
     = ([], Returned JUndefined).
Proof.
  assert (Hlen : (String.length (text (spoken "ok")) <= 2)%nat)
    by (apply Nat.leb_le; reflexivity).
  split; [ exact Hlen | ]. split.
  - apply (short_text_is_absent_without_request Json.parse
             (endpoint_replies (reply_with_function_call quickOpen_config))
             (spoken "ok") Hlen).
  - apply (short_text_is_absent_without_request Json.parse
             (endpoint_replies
                (reply_with_tool_call "quickOpen" filename_notes))
             (spoken "ok") Hlen).
Defined.

Lemma no_function_call_witness :
  function_call_arguments reply_without_call = None
  /\ mapTranscriptionToCommand Json.parse (endpoint_replies reply_without_call)
       (spoken "save")
     = ([ChatCompletionsCreate (functionsRequest "save")],
        Returned JUndefined).
Proof.
  split; [ reflexivity | ].
  apply (no_function_call_is_absent Json.parse
           (endpoint_replies reply_without_call) (spoken "save")
           reply_without_call).
  - apply Nat.ltb_lt. reflexivity.
  - reflexivity.
  - reflexivity.
Defined.

Lemma decoded_arguments_witness :
  Json.parse quickOpen_config = Some quickOpen_config_value
  /\ mapTranscriptionToCommand Json.parse
       (endpoint_replies (reply_with_function_call quickOpen_config))
       (spoken "open the config file")
     = ([ChatCompletionsCreate (functionsRequest "open the config file")],
        Returned quickOpen_config_value).
Proof.
  assert (Hdecode : Json.parse quickOpen_config = Some quickOpen_config_value)
    by (vm_compute; reflexivity).
  split; [ exact Hdecode | ].
  apply (decoded_arguments_returned_unmodified Json.parse
           (endpoint_replies (reply_with_function_call quickOpen_config))
           json_parse_empty (spoken "open the config file")
           (reply_with_function_call quickOpen_config)
           quickOpen_config quickOpen_config_value).
  - apply Nat.ltb_lt. reflexivity.
  - reflexivity.
  - reflexivity.
  - exact Hdecode.
Defined.

Lemma malformed_arguments_witness :
  Json.parse truncated_arguments = None
  /\ mapTranscriptionToCommand Json.parse
       (endpoint_replies (reply_with_function_call truncated_arguments))
       (spoken "save the file")
     = ([ ChatCompletionsCreate (functionsRequest "save the file");
          ConsoleError "Error mapping transcription to command:" SyntaxError;
          ShowErrorMessage "Failed to map voice command to VS Code action" ],
        Returned JUndefined)
  /\ notifications
       (mapTranscriptionToCommand Json.parse
          (endpoint_replies (reply_with_function_call truncated_arguments))
          (spoken "save the file"))
     = 1%nat.
Proof.
  assert (Hthrows : Json.parse truncated_arguments = None)
    by (vm_compute; reflexivity).
  split; [ exact Hthrows | ].
  apply (malformed_arguments_are_absent_with_one_notification Json.parse
           (endpoint_replies (reply_with_function_call truncated_arguments))
           (spoken "save the file")
           (reply_with_function_call truncated_arguments)
           truncated_arguments).
  - apply Nat.ltb_lt. reflexivity.
  - reflexivity.
  - reflexivity.
  - discriminate.
  - exact Hthrows.
Defined.

Lemma findReferences_witness :
  In ("findReferences", "references-view.findReferences") toolCommands
  /\ exists filename,
       mapTranscriptionToCommandViaTools Json.parse
         (endpoint_replies
            (reply_with_tool_call "findReferences" filename_notes))
         (spoken "find references")
       = ([ChatCompletionsCreate (toolsRequest "find references")],
          Returned (JObject
                      [ ("command", JString "references-view.findReferences");
                        ("args", filename) ])).
Proof.
  assert (Hrow : In ("findReferences", "references-view.findReferences")
                    toolCommands)
    by (do 5 right; left; reflexivity).
  split; [ exact Hrow | ].
  apply (proj2
           (tool_name_selects_host_command Json.parse
              (endpoint_replies
                 (reply_with_tool_call "findReferences" filename_notes))
              json_parse_empty
              "findReferences" "references-view.findReferences"
              (spoken "find references")
              (reply_with_tool_call "findReferences" filename_notes)
              {| type := "function";
                 function := {| name := "findReferences";
                                arguments := filename_notes |} |}
              Hrow
              (proj1 (Nat.ltb_lt 2 15) eq_refl)
              eq_refl eq_refl eq_refl)
           filename_notes_value).
  - reflexivity.
  - vm_compute. reflexivity.
  - reflexivity.
Defined.

Lemma raw_filename_witness :
  exists command filename,
    js_get filename_notes_value "filename" = Returned filename
    /\ mapTranscriptionToCommandViaTools Json.parse
         (endpoint_replies (reply_with_tool_call "quickOpen" filename_notes))
         (spoken "open my notes")
       = ([ChatCompletionsCreate (toolsRequest "open my notes")],
          Returned (JObject [ ("command", command); ("args", filename) ]))
    /\ js_get (JObject [ ("command", command); ("args", filename) ]) "args"
       = Returned filename
    /\ (forall s rest,
           filename_notes_value = JObject (("filename", JString s) :: rest) ->
           filename = JString s).
Proof.
  apply (via_tools_args_is_raw_filename Json.parse
           (endpoint_replies (reply_with_tool_call "quickOpen" filename_notes))
           json_parse_empty (spoken "open my notes")
           (reply_with_tool_call "quickOpen" filename_notes)
           {| type := "function";
              function := {| name := "quickOpen";
                             arguments := filename_notes |} |}
           filename_notes_value).
  - apply Nat.ltb_lt. reflexivity.
  - reflexivity.
  - reflexivity.
  - reflexivity.
  - vm_compute. reflexivity.
  - reflexivity.
Defined.

Lemma host_failure_witness :
  executeCommand host_rejects quickOpen_config_value
  = ([ ConsoleLog "Executing command:" quickOpen_config_value;
       VscodeExecuteCommand (JString "workbench.action.quickOpen")
                            (JObject [ ("filename", JString "config") ]);
       ConsoleError "Error executing VS Code command:"
                    (Rejected "command not found");
       ShowErrorMessage "Failed to execute VS Code command" ],
     Returned tt)
  /\ notifications (executeCommand host_rejects quickOpen_config_value)
     = 1%nat.
Proof.
  apply (proj2 (proj2 (executeCommand_never_raises host_rejects
                         quickOpen_config_value))).
  - reflexivity.
  - reflexivity.
  - reflexivity.
Defined.

Lemma listed_command_witness :
  command_always_in_enumeration Json.parse
    (endpoint_replies (reply_with_function_call quickOpen_config))
    (spoken "open the config file").
Proof.
  apply (proj1 (proj2 (proj2
           (returned_command_is_the_decoded_one Json.parse
              (endpoint_replies (reply_with_function_call quickOpen_config))
              json_parse_empty (spoken "open the config file")
              (reply_with_function_call quickOpen_config)
              quickOpen_config quickOpen_config_value
              (proj1 (Nat.ltb_lt 2 20) eq_refl)
              eq_refl eq_refl eq_refl)))).
  exists (JString "workbench.action.quickOpen").
  split; reflexivity.
Defined.

(** The six rows, each on a run of its own. *)
Lemma six_tools_six_commands :
  Forall
    (fun row =>
       outcome
         (mapTranscriptionToCommandViaTools Json.parse
            (endpoint_replies (reply_with_tool_call (fst row) filename_notes))
            (spoken "open my notes"))
       = Returned (JObject [ ("command", JString (snd row));
                             ("args", JString "notes.txt") ]))
    toolCommands.
Proof. repeat constructor. Qed.

(** * Further properties of the command mapper *)

Section MapperFurther.

Variable JSON_parse : string -> option JsValue.
Variable endpoint : JsValue -> Outcome ChatCompletion.
Variable host : JsValue -> JsValue -> Outcome unit.

(** X1. Neither mapping operation ever rejects: whatever the endpoint and
    [JSON.parse] do, the promise resolves. *)
Theorem mapping_never_rejects (t : Transcription) :
  (exists tr r,
      mapTranscriptionToCommand JSON_parse endpoint t = (tr, Returned r))
  /\ (exists tr r,
         mapTranscriptionToCommandViaTools JSON_parse endpoint t
         = (tr, Returned r)).
Proof.
  split.
  - unfold mapTranscriptionToCommand. apply try_catch_total.
    intros e. eexists. eexists. reflexivity.
  - unfold mapTranscriptionToCommandViaTools. apply try_catch_total.
    intros e. eexists. eexists. reflexivity.
Qed.

(** The runs of the primary path, case by case. *)
Lemma map_command_cases (t : Transcription) :
  let request := ChatCompletionsCreate (functionsRequest (text t)) in
  let run := mapTranscriptionToCommand JSON_parse endpoint t in
  (String.length (text t) <= 2)%nat /\ run = ([], Returned JUndefined)
  \/ (2 < String.length (text t))%nat
     /\ ((exists v, run = ([request], Returned v))
         \/ (exists e,
                run = ([ request;
                         ConsoleError
                           "Error mapping transcription to command:" e;
                         ShowErrorMessage
                           "Failed to map voice command to VS Code action" ],
                       Returned JUndefined))).
Proof.
  cbv zeta.
  destruct (le_gt_dec (String.length (text t)) 2) as [Hshort | Hlong].
  - left. split; [ exact Hshort | ].
    unfold mapTranscriptionToCommand.
    rewrite (too_short_true t Hshort). reflexivity.
  - right. split; [ exact Hlong | ].
    unfold mapTranscriptionToCommand, await_create.
    rewrite (too_short_false t Hlong).
    destruct (endpoint (functionsRequest (text t))) as [completion | e].
    + rewrite bind_returned.
      destruct (function_call_arguments completion) as [payload | ];
        [ | left; exists JUndefined; reflexivity ].
      destruct (truthy_string payload);
        [ | left; exists JUndefined; reflexivity ].
      unfold parse. destruct (JSON_parse payload) as [v | ].
      * left. exists v. rewrite bind_ret. reflexivity.
      * right. exists SyntaxError. reflexivity.
    + right. exists e. reflexivity.
Qed.

(** The runs of the tools path, case by case. *)
Lemma map_via_tools_cases (t : Transcription) :
  let request := ChatCompletionsCreate (toolsRequest (text t)) in
  let run := mapTranscriptionToCommandViaTools JSON_parse endpoint t in
  (String.length (text t) <= 2)%nat /\ run = ([], Returned JUndefined)
  \/ (2 < String.length (text t))%nat
     /\ ((exists v, run = ([request], Returned v))
         \/ (exists e,
                run = ([ request;
                         ConsoleError
                           "Error mapping transcription to command:" e;
                         ShowErrorMessage
                           "Failed to map voice command to VS Code action" ],
                       Returned JUndefined))).
Proof.
  cbv zeta.
  destruct (le_gt_dec (String.length (text t)) 2) as [Hshort | Hlong].
  - left. split; [ exact Hshort | ].
    unfold mapTranscriptionToCommandViaTools.
    rewrite (too_short_true t Hshort). reflexivity.
  - right. split; [ exact Hlong | ].
    unfold mapTranscriptionToCommandViaTools, await_create.
    rewrite (too_short_false t Hlong).
    destruct (endpoint (toolsRequest (text t))) as [completion | e];
      [ | right; exists e; reflexivity ].
    rewrite bind_returned.
    destruct (first_tool_call completion) as [toolCall | ];
      [ | left; exists JUndefined; reflexivity ].
    destruct (String.eqb (type toolCall) "function"
              && truthy_string (arguments (function toolCall)));
      [ | left; exists JUndefined; reflexivity ].
    unfold parse.
    destruct (JSON_parse (arguments (function toolCall))) as [v | ];
      [ | right; exists SyntaxError; reflexivity ].
    rewrite bind_ret.
    destruct (commandMap_lookup (name (function toolCall)))
      as [command ->].
    rewrite bind_lift_returned.
    destruct (js_get v "filename") as [filename | e].
    + rewrite bind_lift_returned. left. eexists. reflexivity.
    + rewrite bind_lift_thrown. right. exists e. reflexivity.
Qed.

(** X2. A mapping operation sends a request to the language-model endpoint
    exactly when the text is longer than two characters, and never a second
    one (nothing is retried). *)
Theorem one_request_iff_text_is_long_enough (t : Transcription) :
  requests (mapTranscriptionToCommand JSON_parse endpoint t)
  = (if (String.length (text t) <=? 2)%nat then 0 else 1)%nat
  /\ requests (mapTranscriptionToCommandViaTools JSON_parse endpoint t)
     = (if (String.length (text t) <=? 2)%nat then 0 else 1)%nat.
Proof.
  split.
  - destruct (map_command_cases t)
      as [[Hlen ->] | [Hlen [[v ->] | [e ->]]]].
    + apply Nat.leb_le in Hlen. rewrite Hlen. reflexivity.
    + apply Nat.leb_gt in Hlen. rewrite Hlen. reflexivity.
    + apply Nat.leb_gt in Hlen. rewrite Hlen. reflexivity.
  - destruct (map_via_tools_cases t)
      as [[Hlen ->] | [Hlen [[v ->] | [e ->]]]].
    + apply Nat.leb_le in Hlen. rewrite Hlen. reflexivity.
    + apply Nat.leb_gt in Hlen. rewrite Hlen. reflexivity.
    + apply Nat.leb_gt in Hlen. rewrite Hlen. reflexivity.
Qed.

(** X3. A mapping operation shows at most one failure notification, and a
    run that shows one has the absent result. *)
Theorem notification_means_absent (t : Transcription) :
  (notifications (mapTranscriptionToCommand JSON_parse endpoint t) <= 1)%nat
  /\ (notifications (mapTranscriptionToCommandViaTools JSON_parse endpoint t)
      <= 1)%nat
  /\ (notifications (mapTranscriptionToCommand JSON_parse endpoint t) = 1%nat
      -> outcome (mapTranscriptionToCommand JSON_parse endpoint t)
         = Returned JUndefined)
  /\ (notifications (mapTranscriptionToCommandViaTools JSON_parse endpoint t)
      = 1%nat
      -> outcome (mapTranscriptionToCommandViaTools JSON_parse endpoint t)
         = Returned JUndefined).
Proof.
  destruct (map_command_cases t)
    as [[_ ->] | [_ [[v ->] | [e ->]]]];
    destruct (map_via_tools_cases t)
      as [[_ ->] | [_ [[v' ->] | [e' ->]]]];
    cbn; repeat split; intros; try lia; try discriminate; reflexivity.
Qed.

(** X4. When the request to the endpoint is rejected, either mapping
    operation logs the error, shows one notification and resolves to absent;
    the one attempt is all there is. *)
Theorem rejected_request_degrades_to_absent (t : Transcription)
        (e : JsError) :
  (2 < String.length (text t))%nat ->
  (endpoint (functionsRequest (text t)) = Thrown e ->
   mapTranscriptionToCommand JSON_parse endpoint t
   = ([ ChatCompletionsCreate (functionsRequest (text t));
        ConsoleError "Error mapping transcription to command:" e;
        ShowErrorMessage "Failed to map voice command to VS Code action" ],
      Returned JUndefined))
  /\ (endpoint (toolsRequest (text t)) = Thrown e ->
      mapTranscriptionToCommandViaTools JSON_parse endpoint t
      = ([ ChatCompletionsCreate (toolsRequest (text t));
           ConsoleError "Error mapping transcription to command:" e;
           ShowErrorMessage "Failed to map voice command to VS Code action" ],
         Returned JUndefined)).
Proof.
  intros Hlen. split; intros Hreply.
  - unfold mapTranscriptionToCommand, await_create.
    rewrite (too_short_false t Hlen), Hreply. reflexivity.
  - unfold mapTranscriptionToCommandViaTools, await_create.
    rewrite (too_short_false t Hlen), Hreply. reflexivity.
Qed.

(** X5. On the tools path a reply without a usable first tool-call (no
    tool-call at all, one whose [type] is not [function], or one with an
    empty arguments string) gives absent silently: the request is the only
    event, nothing is logged or shown. *)
Theorem unusable_tool_call_is_absent_silently (t : Transcription)
        (completion : ChatCompletion) :
  (2 < String.length (text t))%nat ->
  endpoint (toolsRequest (text t)) = Returned completion ->
  (first_tool_call completion = None
   \/ exists toolCall,
       first_tool_call completion = Some toolCall
       /\ (type toolCall <> "function"
           \/ arguments (function toolCall) = EmptyString)) ->
  mapTranscriptionToCommandViaTools JSON_parse endpoint t
  = ([ChatCompletionsCreate (toolsRequest (text t))], Returned JUndefined).
Proof.
  intros Hlen Hreply Hcall.
  rewrite (map_via_tools_after_reply JSON_parse endpoint t completion
             Hlen Hreply).
  rewrite bind_returned.
  destruct Hcall as [-> | (toolCall & -> & [Htype | Hempty])].
  - reflexivity.
  - apply String.eqb_neq in Htype. rewrite Htype. reflexivity.
  - rewrite Hempty, andb_false_r. reflexivity.
Qed.


End MapperFurther.



Section MapperComposition.

Variable JSON_parse : string -> option JsValue.
Variable endpoint : JsValue -> Outcome ChatCompletion.
Variable host : JsValue -> JsValue -> Outcome unit.

Hypothesis JSON_parse_empty : JSON_parse EmptyString = None.


(** What [executeCommand] does with a mapping that has members. *)
Lemma executeCommand_calls_host (mapping : JsValue) :
  nullish mapping = false ->
  exists command args,
    js_get mapping "command" = Returned command
    /\ js_get mapping "args" = Returned args
    /\ host_calls (executeCommand host mapping)
       = [ VscodeExecuteCommand command args ].
Proof.
  intros Hmembers.
  destruct (js_get_non_nullish mapping "command" Hmembers) as [c Hc].
  destruct (js_get_non_nullish mapping "args" Hmembers) as [a Ha].
  exists c, a. split; [ exact Hc | ]. split; [ exact Ha | ].
  unfold executeCommand, await_executeCommand, host_calls.
  rewrite Hc, Ha. unfold emit. rewrite bind_returned.
  rewrite !bind_lift_returned.
  destruct (host c a) as [[] | e]; reflexivity.
Qed.

(** X8. Handing the absent result of a mapping operation ([undefined], or
    [null]) to [executeCommand] never reaches the host: reading [command]
    throws, the failure is logged and notified once, and the call
    resolves. *)
Theorem executing_absent_never_reaches_host (mapping : JsValue) :
  nullish mapping = true ->
  executeCommand host mapping
  = ([ ConsoleLog "Executing command:" mapping;
       ConsoleError "Error executing VS Code command:" TypeError;
       ShowErrorMessage "Failed to execute VS Code command" ],
     Returned tt)
  /\ host_calls (executeCommand host mapping) = [].
Proof.
  intros Hnull.
  assert (Hrun : executeCommand host mapping
    = ([ ConsoleLog "Executing command:" mapping;
         ConsoleError "Error executing VS Code command:" TypeError;
         ShowErrorMessage "Failed to execute VS Code command" ],
       Returned tt)).
  { unfold executeCommand.
    rewrite (js_get_nullish mapping "command" Hnull). reflexivity. }
  split; [ exact Hrun | ]. unfold host_calls. rewrite Hrun. reflexivity.
Qed.

(** X9. For a mapping that has members, [executeCommand] invokes the host
    exactly once, with [mapping.command] and [mapping.args] as they are,
    whether the host command then settles or throws. *)
Theorem host_is_invoked_once_with_the_mapping (mapping : JsValue) :
  nullish mapping = false ->
  exists command args,
    js_get mapping "command" = Returned command
    /\ js_get mapping "args" = Returned args
    /\ host_calls (executeCommand host mapping)
       = [ VscodeExecuteCommand command args ]
    /\ host_calls (executeCommand_unlogged host mapping)
       = [ VscodeExecuteCommand command args ].
Proof.
  intros Hmembers.
  destruct (executeCommand_calls_host mapping Hmembers)
    as (c & a & Hc & Ha & Hcalls).
  exists c, a. repeat split; try assumption.
  unfold executeCommand_unlogged, await_executeCommand, host_calls.
  rewrite Hc, Ha, !bind_lift_returned.
  destruct (host c a) as [[] | e]; reflexivity.
Qed.



End MapperComposition.

(** ** The tables of the tools protocol *)

Lemma commandMap_hit (tool_name c : string) :
  js_get commandMap tool_name = Returned (JString c) ->
  In (tool_name, c) toolCommands.
Proof.
  unfold commandMap, js_get. cbn [own_property].
  repeat match goal with
         | |- context [String.eqb ?k tool_name] =>
             let H := fresh "Hk" in
             destruct (String.eqb k tool_name) eqn:H;
             [ apply String.eqb_eq in H; subst tool_name;
               intros Heq; injection Heq as <-; cbn; tauto
             | ]
         end.
  destruct (mem_string tool_name object_prototype_keys); discriminate.
Qed.

(** X12. The three tables of the mapper agree: the tools declared to the
    model are exactly the names that [commandMap] answers with a string,
    and those strings are exactly the six identifiers of the [enum] of the
    functions protocol. *)
Theorem declared_tools_match_the_table :
  (forall tool_name,
      In (JString tool_name) (declared_tool_names VS_CODE_COMMAND_TOOLS)
      <-> exists c, js_get commandMap tool_name = Returned (JString c))
  /\ (forall c,
         In c commandEnum
         <-> exists tool_name,
             js_get commandMap tool_name = Returned (JString c)).
Proof.
  split.
  - intros tool_name. split.
    + cbn. intros Hin.
      repeat (destruct Hin as [Heq | Hin];
              [ injection Heq as <-; eexists; reflexivity | ]).
      destruct Hin.
    + intros [c Hrow]. apply commandMap_hit in Hrow.
      unfold toolCommands in Hrow. cbn.
      repeat (destruct Hrow as [Heq | Hrow];
              [ injection Heq as <- <-; tauto | ]).
      destruct Hrow.
  - intros c. split.
    + cbn. intros Hin.
      repeat (destruct Hin as [<- | Hin]).
      * exists "quickOpen". reflexivity.
      * exists "newFile". reflexivity.
      * exists "saveFile". reflexivity.
      * exists "closeEditor". reflexivity.
      * exists "findInFiles". reflexivity.
      * exists "findReferences". reflexivity.
      * destruct Hin.
    + intros [tool_name Hrow]. apply commandMap_hit in Hrow.
      unfold toolCommands in Hrow. cbn.
      repeat (destruct Hrow as [Heq | Hrow];
              [ injection Heq as <- <-; tauto | ]).
      destruct Hrow.
Qed.

(** * The transcription pipeline *)

(** ** Programs *)

Lemma and_then_run {E A B} (m : Prog E A) (k : A -> Prog E B)
      (tr : list E) (a : A) :
  m = (tr, Returned a) ->
  and_then m k = ((tr ++ fst (k a))%list, snd (k a)).
Proof. intros ->. unfold and_then. destruct (k a); reflexivity. Qed.

Lemma and_then_fail {E A B} (m : Prog E A) (k : A -> Prog E B)
      (tr : list E) (e : JsError) :
  m = (tr, Thrown e) -> and_then m k = (tr, Thrown e).
Proof. intros ->. reflexivity. Qed.


Lemma attempt_caught {E A} (h : JsError -> Prog E A) (tr : list E)
      (e : JsError) :
  attempt (tr, Thrown e) h = ((tr ++ fst (h e))%list, snd (h e)).
Proof. unfold attempt. destruct (h e); reflexivity. Qed.

Lemma attempt_total {E A} (body : Prog E A) (h : JsError -> Prog E A) :
  (forall e, exists tr a, h e = (tr, Returned a)) ->
  exists tr a, attempt body h = (tr, Returned a).
Proof.
  intros Hh. destruct body as [tr [a | e]].
  - exists tr, a. reflexivity.
  - destruct (Hh e) as (tr' & a & Heq). rewrite attempt_caught, Heq.
    eexists. eexists. reflexivity.
Qed.

(** An [attempt] that ends with a value other than the one its handler
    gives ran its body to the end. *)
Lemma attempt_body_returned {E A} (body : Prog E A) (h : JsError -> Prog E A)
      (tr : list E) (a : A) :
  attempt body h = (tr, Returned a) ->
  (forall e, snd (h e) <> Returned a) ->
  body = (tr, Returned a).
Proof.
  destruct body as [tr0 [a0 | e]]; intros Hrun Hh.
  - exact Hrun.
  - rewrite attempt_caught in Hrun. injection Hrun as _ Hend.
    exfalso. exact (Hh e Hend).
Qed.

Lemma and_then_returned_inv {E A B} (m : Prog E A) (k : A -> Prog E B)
      (tr : list E) (b : B) :
  and_then m k = (tr, Returned b) ->
  exists tr1 a,
    m = (tr1, Returned a)
    /\ tr = (tr1 ++ fst (k a))%list
    /\ snd (k a) = Returned b.
Proof.
  destruct m as [tr1 [a | e]]; intros Hrun.
  - rewrite (and_then_run _ k tr1 a eq_refl) in Hrun.
    injection Hrun as <- Hend. exists tr1, a. auto.
  - discriminate Hrun.
Qed.

(** ** The phases of [processRecording] *)

Lemma whisperModel_found (p : Platform) :
  js_get PROVIDER_MODELS (apiProvider p) = Returned (whisperModel p).
Proof.
  unfold whisperModel.
  destruct (js_get_object
              [ ("openai", JString "whisper-1");
                ("groq", JString "whisper-large-v3-turbo");
                ("localhost", JString "whisper-1") ]
              (apiProvider p)) as [found Hfound].
  fold PROVIDER_MODELS in Hfound. rewrite Hfound. reflexivity.
Qed.

Lemma transcribe_run (p : Platform) (tempDir : string) :
  transcribe p tempDir
  = match transcriptions_create p
            (transcriptionRequest p tempDir (whisperModel p)) with
    | Returned transcription =>
        ((transcribing p tempDir (whisperModel p)
          ++ [ raw_line transcription ])%list,
         Returned transcription)
    | Thrown e => (transcribing p tempDir (whisperModel p), Thrown e)
    end.
Proof.
  unfold transcribe. rewrite whisperModel_found.
  cbn [and_then tell pure_step await done app fst snd].
  unfold transcriptionRequest, transcribing, transcriptionRequest.
  destruct (transcriptions_create p _) as [transcription | e]; reflexivity.
Qed.

Lemma interpretation_run (p : Platform) (said : string) :
  interpretation p said
  = if (2 <? String.length said)%nat then
      match chat_create p (interpretRequest said) with
      | Returned completion =>
          ([ ChatCreate (interpretRequest said) ],
           Returned (function_call_of completion))
      | Thrown e => ([ ChatCreate (interpretRequest said) ], Thrown e)
      end
    else ([], Thrown TypeError).
Proof.
  unfold interpretation.
  destruct (2 <? String.length said)%nat; [ | reflexivity ].
  destruct (chat_create p (interpretRequest said)); reflexivity.
Qed.

Lemma optional_get_total (inner : JsValue) (k : string) :
  exists x, optional_get inner k = Returned x.
Proof.
  unfold optional_get. destruct (nullish inner) eqn:Hn.
  - eexists; reflexivity.
  - apply js_get_non_nullish. exact Hn.
Qed.

(** What the runtime throws on a decoded value is a [TypeError]. *)
Lemma js_get_throws_TypeError (v : JsValue) (k : string) (e : JsError) :
  js_get v k = Thrown e -> e = TypeError.
Proof.
  destruct v; cbn [js_get]; intros H;
    try discriminate H; try (injection H as <-; reflexivity).
  destruct (own_property fields k); [ discriminate H | ].
  destruct (mem_string k object_prototype_keys); discriminate H.
Qed.

Lemma template_convertible (p : Platform) (v : JsValue) :
  convertible v = true -> template p v = Returned (to_string p v).
Proof. unfold template. intros ->. reflexivity. Qed.

Lemma template_unconvertible (p : Platform) (v : JsValue) :
  convertible v = false -> template p v = Thrown TypeError.
Proof. unfold template. intros ->. reflexivity. Qed.

Lemma thrown_text_prints (p : Platform) (e : JsError) :
  prints p e = true -> thrown_text p e = Returned (error_string p e).
Proof.
  unfold prints, thrown_text. destruct (defect p e); intros H;
    [ reflexivity | discriminate H | reflexivity ].
Qed.

Lemma thrown_text_unprintable (p : Platform) (e thrown : JsError) :
  defect p e = Unprintable thrown -> thrown_text p e = Thrown thrown.
Proof. unfold thrown_text. intros ->. reflexivity. Qed.

(** Only what a collaborator rejected with can be defective. *)
Lemma defect_is_of_a_rejection (p : Platform) (e : JsError) :
  defect p e <> Sound ->
  exists reason, e = Rejected reason /\ defect p e = rejection_defect p reason.
Proof.
  destruct e as [ | | reason ]; cbn [defect]; intros H;
    [ contradiction | contradiction | ].
  exists reason. split; reflexivity.
Qed.

(** The block that reads the function-call never throws, and logs at most
    one line: what its [try] block throws is thrown by the runtime, and
    prints. *)
Lemma interpret_cases (p : Platform) (functionCall : option FunctionCall) :
  (exists r, interpret p functionCall = ([], Returned r))
  \/ (exists line,
         interpret p functionCall
         = ([ AppendLine line ], Returned nothing_interpreted)).
Proof.
  unfold interpret. destruct functionCall as [call | ];
    [ | left; eexists; reflexivity ].
  destruct (truthy_string (arguments call));
    [ | left; eexists; reflexivity ].
  destruct (json_parse p (arguments call)) as [v | ];
    [ | right; eexists; reflexivity ].
  cbn [and_then pure_step app fst snd].
  destruct (js_get v "command") as [command | e] eqn:Hcommand.
  2:{ apply js_get_throws_TypeError in Hcommand. subst e.
      right. eexists. reflexivity. }
  cbn [and_then pure_step app fst snd].
  destruct (template p command) as [printed | e] eqn:Hprinted.
  2:{ unfold template in Hprinted.
      destruct (convertible command); [ discriminate Hprinted | ].
      injection Hprinted as <-. right. eexists. reflexivity. }
  cbn [and_then pure_step app fst snd].
  destruct (js_get v "args") as [inner | e] eqn:Hinner.
  2:{ apply js_get_throws_TypeError in Hinner. subst e.
      right. eexists. reflexivity. }
  cbn [and_then pure_step app fst snd].
  destruct (optional_get_total inner "filename") as [f ->].
  destruct (optional_get_total inner "searchTerm") as [s' ->].
  left. eexists. reflexivity.
Qed.

(** The block that runs the command: it invokes the host once when the
    command is truthy and prints, and not at all otherwise; it throws only
    when the host rejects with a value that does not print. *)
Lemma run_command_cases (p : Platform) (commandObject : CommandObject) :
  truthy (object_command commandObject) = false
  /\ run_command p commandObject = ([], Returned tt)
  \/ truthy (object_command commandObject) = true
     /\ (convertible (object_command commandObject) = false
         /\ run_command p commandObject
            = ([ AppendLine ("Whisper Assistant: Error executing command: "
                             ++ error_string p TypeError) ],
               Returned tt)
         \/ convertible (object_command commandObject) = true
            /\ exists tail settled,
                run_command p commandObject
                = ((command_line p (object_command commandObject)
                                 (object_args commandObject)
                    :: ExecuteCommand (object_command commandObject)
                                      (object_args commandObject)
                    :: tail)%list,
                   settled)
                /\ (tail = [] /\ settled = Returned tt
                    /\ execute_command p (object_command commandObject)
                                       (object_args commandObject)
                       = Returned tt
                    \/ exists e,
                        execute_command p (object_command commandObject)
                                        (object_args commandObject) = Thrown e
                        /\ (prints p e = true
                            /\ tail = after_command p (Thrown e)
                            /\ settled = Returned tt
                            \/ exists thrown,
                                defect p e = Unprintable thrown
                                /\ tail = []
                                /\ settled = Thrown thrown))).
Proof.
  unfold run_command.
  destruct (truthy (object_command commandObject));
    [ right; split; [ reflexivity | ] | left; split; reflexivity ].
  unfold template.
  destruct (convertible (object_command commandObject));
    [ right; split; [ reflexivity | ] | left; split; reflexivity ].
  unfold command_line.
  cbn [and_then tell await pure_step app fst snd].
  destruct (execute_command p (object_command commandObject)
                            (object_args commandObject)) as [[] | e] eqn:Hhost.
  - exists [], (Returned tt). split; [ reflexivity | ].
    left. repeat split.
  - cbn [attempt and_then tell pure_step].
    destruct (defect p e) as [ | thrown | formatted ] eqn:Hdefect.
    + exists (after_command p (Thrown e)), (Returned tt).
      unfold thrown_text, after_command. rewrite Hdefect.
      split; [ reflexivity | ].
      right. exists e. split; [ reflexivity | ].
      left. unfold prints. rewrite Hdefect. repeat split.
    + exists [], (Thrown thrown).
      unfold thrown_text. rewrite Hdefect.
      split; [ reflexivity | ].
      right. exists e. split; [ reflexivity | ].
      right. exists thrown. split; [ exact Hdefect | split; reflexivity ].
    + exists (after_command p (Thrown e)), (Returned tt).
      unfold thrown_text, after_command. rewrite Hdefect.
      split; [ reflexivity | ].
      right. exists e. split; [ reflexivity | ].
      left. unfold prints. rewrite Hdefect. repeat split.
Qed.

(** The run of the block on a command that prints, when the host settles
    printably. *)
Lemma run_command_printably (p : Platform) (command : JsValue)
      (args : list JsValue) :
  truthy command = true ->
  convertible command = true ->
  settles_printably p (execute_command p command args) = true ->
  run_command p {| object_command := command; object_args := args |}
  = ((command_line p command args
      :: ExecuteCommand command args
      :: after_command p (execute_command p command args))%list,
     Returned tt).
Proof.
  intros Htruthy Hconvertible Hsettles.
  unfold run_command, template. cbn [object_command object_args].
  rewrite Htruthy, Hconvertible. unfold command_line, after_command.
  cbn [and_then tell await pure_step app fst snd].
  destruct (execute_command p command args) as [[] | e]; [ reflexivity | ].
  cbn [settles_printably] in Hsettles.
  cbn [attempt and_then tell pure_step].
  rewrite (thrown_text_prints p e Hsettles). reflexivity.
Qed.

Lemma save_run (p : Platform) (tempDir : string) (result : Transcription) :
  save p tempDir result
  = match write_file p (path_join p tempDir (fileName ++ ".json")) result with
    | Returned _ =>
        (saving p tempDir result,
         Returned (if (String.length (text result) =? 0)%nat then None
                   else Some result))
    | Thrown e =>
        ([ WriteFile (path_join p tempDir (fileName ++ ".json")) result ],
         Thrown e)
    end.
Proof.
  unfold save, saving.
  destruct (write_file p _ result) as [[] | e]; [ | reflexivity ].
  cbn [and_then tell await app fst snd].
  destruct (String.length (text result) =? 0)%nat; reflexivity.
Qed.

(** The [catch] block, by what is wrong with the error it caught. *)
Lemma onRecordingError_run (p : Platform) (e : JsError) :
  onRecordingError p e
  = match defect p e with
    | Sound => (failing p e, Returned None)
    | Unprintable thrown => ([], Thrown thrown)
    | OddMessage (Returned shown) =>
        ([ AppendLine ("Whisper Assistant: error: " ++ error_string p e);
           ShowError ("Whisper Assistant: " ++ shown) ],
         Returned None)
    | OddMessage (Thrown thrown) =>
        ([ AppendLine ("Whisper Assistant: error: " ++ error_string p e) ],
         Thrown thrown)
    end.
Proof.
  unfold onRecordingError, thrown_text, shown_message, failing.
  destruct (defect p e) as [ | thrown | [shown | thrown] ]; reflexivity.
Qed.

Lemma onRecordingError_sound (p : Platform) (e : JsError) :
  defect p e = Sound -> onRecordingError p e = (failing p e, Returned None).
Proof. intros Hsound. rewrite onRecordingError_run, Hsound. reflexivity. Qed.

(** What the [catch] block lets observe: lines and at most one
    notification, which it shows only when it returns. *)
Lemma onRecordingError_facts (p : Platform) (e : JsError) :
  filter is_chat (events (onRecordingError p e)) = []
  /\ filter is_command (events (onRecordingError p e)) = []
  /\ filter is_write (events (onRecordingError p e)) = []
  /\ (List.length (filter is_shown (events (onRecordingError p e))) <= 1)%nat
  /\ (filter is_shown (events (onRecordingError p e)) <> []
      -> ending (onRecordingError p e) = Returned None)
  /\ (forall r, ending (onRecordingError p e) <> Returned (Some r))
  /\ (forall thrown,
         ending (onRecordingError p e) = Thrown thrown ->
         filter is_shown (events (onRecordingError p e)) = []
         /\ (defect p e = Unprintable thrown
             \/ defect p e = OddMessage (Thrown thrown))).
Proof.
  rewrite onRecordingError_run. unfold failing.
  destruct (defect p e) as [ | thrown | [shown | thrown] ];
    cbn [events ending fst snd filter is_chat is_command is_write is_shown
         List.length];
    repeat split; try lia; try reflexivity; try discriminate;
    try (intros H; exfalso; apply H; reflexivity);
    try (intros thrown' H; discriminate H);
    try (intros thrown' H; injection H as <-; split;
         [ reflexivity | first [ left; reflexivity | right; reflexivity ] ]);
    match goal with
    | H : Thrown _ = Thrown _ |- _ =>
        injection H as <-; first [ left; reflexivity | right; reflexivity ]
    end.
Qed.

Ltac run_prog :=
  cbn [and_then attempt tell await done raise pure_step app fst snd].

(** An [attempt], by how its body ends. *)
Lemma attempt_run {E A} (body : Prog E A) (h : JsError -> Prog E A) :
  attempt body h
  = match ending body with
    | Returned a => (events body, Returned a)
    | Thrown e => ((events body ++ events (h e))%list, ending (h e))
    end.
Proof.
  destruct body as [tr [a | e]]; cbn [ending events fst snd].
  - reflexivity.
  - apply attempt_caught.
Qed.

(** The [try] block once the speech engine and the chat endpoint have
    answered, in terms of the blocks that follow. *)
Lemma attempted_interpreted (p : Platform) (tempDir : string)
      (t : TranscriptionVerbose) (completion : ChatCompletion)
      (tr3 : list PipelineEvent) (i : string * CommandObject) :
  transcriptions_create p (transcriptionRequest p tempDir (whisperModel p))
  = Returned t ->
  (2 < String.length (raw_text t))%nat ->
  chat_create p (interpretRequest (raw_text t)) = Returned completion ->
  interpret p (function_call_of completion) = (tr3, Returned i) ->
  attempted p tempDir
  = ((transcribing p tempDir (whisperModel p)
      ++ raw_line t :: ChatCreate (interpretRequest (raw_text t))
         :: tr3
         ++ events (run_command p (snd i) ;;>
                    save p tempDir (processRecording_result (fst i) t)))%list,
     ending (run_command p (snd i) ;;>
             save p tempDir (processRecording_result (fst i) t))).
Proof.
  intros Hengine Hlen Hchat Hinterpret.
  unfold attempted.
  rewrite transcribe_run, Hengine.
  rewrite (and_then_run _ _ _ _ eq_refl). cbv beta.
  rewrite interpretation_run.
  apply Nat.ltb_lt in Hlen. rewrite Hlen, Hchat.
  rewrite (and_then_run _ _ _ _ eq_refl). cbv beta.
  rewrite (and_then_run _ _ _ _ Hinterpret). cbv beta zeta.
  cbn [fst snd app events ending]. rewrite <- !app_assoc. reflexivity.
Qed.

(** The run once the speech engine and the chat endpoint have answered and
    the command block has returned. *)
Lemma processRecording_interpreted (p : Platform) (tempDir : string)
      (t : TranscriptionVerbose) (completion : ChatCompletion)
      (tr3 tr4 : list PipelineEvent) (i : string * CommandObject) :
  transcriptions_create p (transcriptionRequest p tempDir (whisperModel p))
  = Returned t ->
  (2 < String.length (raw_text t))%nat ->
  chat_create p (interpretRequest (raw_text t)) = Returned completion ->
  interpret p (function_call_of completion) = (tr3, Returned i) ->
  run_command p (snd i) = (tr4, Returned tt) ->
  processRecording p tempDir
  = attempt
      ((transcribing p tempDir (whisperModel p)
        ++ raw_line t :: ChatCreate (interpretRequest (raw_text t))
           :: tr3 ++ tr4
           ++ fst (save p tempDir (processRecording_result (fst i) t)))%list,
       snd (save p tempDir (processRecording_result (fst i) t)))
      (onRecordingError p).
Proof.
  intros Hengine Hlen Hchat Hinterpret Hcommand.
  unfold processRecording.
  rewrite (attempted_interpreted p tempDir t completion tr3 i
             Hengine Hlen Hchat Hinterpret).
  rewrite (and_then_run _ _ _ _ Hcommand).
  cbn [events ending fst snd]. reflexivity.
Qed.

(** X14. A transcription whose text has at most two characters makes
    [processRecording] fail: no chat request is sent, so [completion] is
    [false], reading [choices[0]] of it throws a [TypeError], and the run
    ends in the [catch] block with an error notification and [undefined];
    no command is executed and no file is written. *)
Theorem short_transcription_ends_in_catch (p : Platform) (tempDir : string)
        (t : TranscriptionVerbose) :
  transcriptions_create p (transcriptionRequest p tempDir (whisperModel p))
  = Returned t ->
  (String.length (raw_text t) <= 2)%nat ->
  processRecording p tempDir
  = ((transcribing p tempDir (whisperModel p)
      ++ raw_line t :: failing p TypeError)%list,
     Returned None).
Proof.
  intros Hengine Hlen. unfold processRecording, attempted.
  rewrite transcribe_run, Hengine.
  rewrite (and_then_run _ _ _ _ eq_refl). cbv beta.
  rewrite interpretation_run.
  assert (Hshort : (2 <? String.length (raw_text t))%nat = false)
    by (apply Nat.ltb_ge; exact Hlen).
  rewrite Hshort.
  rewrite (and_then_fail _ _ [] TypeError eq_refl). cbn [fst snd].
  rewrite attempt_caught, (onRecordingError_sound p TypeError eq_refl).
  cbn [fst snd].
  rewrite app_nil_r, <- app_assoc. reflexivity.
Qed.

(** X15. When the speech engine rejects, [processRecording] sends no chat
    request, executes no command and writes no file; what follows depends
    on the value the engine rejected with.  If that value prints and, being
    an [Error], has a string for its message, the error is logged, one
    notification is shown and the promise resolves to [undefined].  If
    printing it throws, the [catch] block throws at its first line:
    nothing is logged or shown and the promise rejects with what the
    conversion threw.  If it is an [Error] whose message is not a string,
    the error is logged, and the promise rejects or the notification shows
    another text, as the formatting of that message ends. *)
Theorem engine_failure_ends_in_catch (p : Platform) (tempDir : string)
        (e : JsError) :
  transcriptions_create p (transcriptionRequest p tempDir (whisperModel p))
  = Thrown e ->
  processRecording p tempDir
  = match defect p e with
    | Sound =>
        ((transcribing p tempDir (whisperModel p) ++ failing p e)%list,
         Returned None)
    | Unprintable thrown =>
        (transcribing p tempDir (whisperModel p), Thrown thrown)
    | OddMessage (Returned shown) =>
        ((transcribing p tempDir (whisperModel p)
          ++ [ AppendLine ("Whisper Assistant: error: " ++ error_string p e);
               ShowError ("Whisper Assistant: " ++ shown) ])%list,
         Returned None)
    | OddMessage (Thrown thrown) =>
        ((transcribing p tempDir (whisperModel p)
          ++ [ AppendLine ("Whisper Assistant: error: "
                           ++ error_string p e) ])%list,
         Thrown thrown)
    end.
Proof.
  intros Hengine. unfold processRecording, attempted.
  rewrite transcribe_run, Hengine.
  rewrite (and_then_fail _ _ _ _ eq_refl).
  rewrite attempt_caught, onRecordingError_run.
  destruct (defect p e) as [ | thrown | [shown | thrown] ];
    cbn [fst snd]; rewrite ?app_nil_r; reflexivity.
Qed.

(** X16. When the chat reply carries no function-call arguments (no first
    choice, no message, no function-call, or an empty arguments string),
    [processRecording] executes no command, writes and returns a
    transcription whose text is the word [none], and shows nothing to the
    user. *)
Theorem no_interpretation_gives_none (p : Platform) (tempDir : string)
        (t : TranscriptionVerbose) (completion : ChatCompletion) :
  transcriptions_create p (transcriptionRequest p tempDir (whisperModel p))
  = Returned t ->
  (2 < String.length (raw_text t))%nat ->
  chat_create p (interpretRequest (raw_text t)) = Returned completion ->
  (function_call_of completion = None
   \/ exists call,
       function_call_of completion = Some call
       /\ arguments call = EmptyString) ->
  write_file p (path_join p tempDir (fileName ++ ".json"))
             (processRecording_result "none" t)
  = Returned tt ->
  processRecording p tempDir
  = ((transcribing p tempDir (whisperModel p)
      ++ raw_line t :: ChatCreate (interpretRequest (raw_text t))
         :: saving p tempDir (processRecording_result "none" t))%list,
     Returned (Some (processRecording_result "none" t))).
Proof.
  intros Hengine Hlen Hchat Hcall Hwrite.
  assert (Hinterpret : interpret p (function_call_of completion)
                       = ([], Returned nothing_interpreted)).
  { destruct Hcall as [-> | (call & -> & Hempty)]; [ reflexivity | ].
    unfold interpret. rewrite Hempty. reflexivity. }
  rewrite (processRecording_interpreted p tempDir t completion [] []
             nothing_interpreted Hengine Hlen Hchat Hinterpret eq_refl).
  cbn [fst snd nothing_interpreted app].
  rewrite save_run, Hwrite. reflexivity.
Qed.


Lemma interpret_decoded (p : Platform) (call : FunctionCall)
      (v command inner f s : JsValue) :
  arguments call <> EmptyString ->
  json_parse p (arguments call) = Some v ->
  js_get v "command" = Returned command ->
  convertible command = true ->
  js_get v "args" = Returned inner ->
  optional_get inner "filename" = Returned f ->
  optional_get inner "searchTerm" = Returned s ->
  interpret p (Some call)
  = ([], Returned (processedText p command inner,
                   {| object_command := command;
                      object_args := filter truthy [ f; s ] |})).
Proof.
  intros Hpresent Hdecode Hcommand Hconvertible Hinner Hf Hs.
  unfold interpret.
  destruct (arguments call) as [ | c rest ] eqn:Hargs; [ contradiction | ].
  cbn [truthy_string]. rewrite Hdecode. run_prog.
  rewrite Hcommand. run_prog.
  rewrite (template_convertible p command Hconvertible). run_prog.
  rewrite Hinner. run_prog.
  rewrite Hf. run_prog. rewrite Hs. reflexivity.
Qed.

(** A decoded command that does not print (an object with a member
    [toString], which no decoded value can call) makes the [try] block of
    the interpretation throw before anything is assigned: the error is
    logged, no command is executed, and the transcription is written and
    returned with the text [none]. *)
Lemma unprintable_command_is_only_logged (p : Platform) (tempDir : string)
      (t : TranscriptionVerbose) (completion : ChatCompletion)
      (call : FunctionCall) (v command : JsValue) :
  transcriptions_create p (transcriptionRequest p tempDir (whisperModel p))
  = Returned t ->
  (2 < String.length (raw_text t))%nat ->
  chat_create p (interpretRequest (raw_text t)) = Returned completion ->
  function_call_of completion = Some call ->
  arguments call <> EmptyString ->
  json_parse p (arguments call) = Some v ->
  js_get v "command" = Returned command ->
  convertible command = false ->
  write_file p (path_join p tempDir (fileName ++ ".json"))
             (processRecording_result "none" t)
  = Returned tt ->
  processRecording p tempDir
  = ((transcribing p tempDir (whisperModel p)
      ++ raw_line t :: ChatCreate (interpretRequest (raw_text t))
         :: AppendLine
              ("Whisper Assistant: Error parsing function arguments: "
               ++ error_string p TypeError)
         :: saving p tempDir (processRecording_result "none" t))%list,
     Returned (Some (processRecording_result "none" t))).
Proof.
  intros Hengine Hlen Hchat Hcall Hpresent Hdecode Hcommand Hodd Hwrite.
  assert (Hinterpret :
    interpret p (function_call_of completion)
    = ([ AppendLine ("Whisper Assistant: Error parsing function arguments: "
                     ++ error_string p TypeError) ],
       Returned nothing_interpreted)).
  { rewrite Hcall. unfold interpret.
    destruct (arguments call) as [ | c rest ] eqn:Hargs;
      [ contradiction | ].
    cbn [truthy_string]. rewrite Hdecode. run_prog.
    rewrite Hcommand. run_prog.
    rewrite (template_unconvertible p command Hodd). reflexivity. }
  rewrite (processRecording_interpreted p tempDir t completion _ []
             nothing_interpreted Hengine Hlen Hchat Hinterpret eq_refl).
  cbn [fst snd nothing_interpreted app].
  rewrite save_run, Hwrite. reflexivity.
Qed.


(** The two inner blocks emit nothing but lines and at most one call of the
    host. *)
Lemma interpret_only_logs (p : Platform) (functionCall : option FunctionCall)
      (f : PipelineEvent -> bool) :
  (forall line, f (AppendLine line) = false) ->
  filter f (events (interpret p functionCall)) = [].
Proof.
  intros Hf.
  destruct (interpret_cases p functionCall) as [[r ->] | [line ->]].
  - reflexivity.
  - cbn. rewrite Hf. reflexivity.
Qed.

Lemma run_command_only_calls_host (p : Platform)
      (commandObject : CommandObject) (f : PipelineEvent -> bool) :
  (forall line, f (AppendLine line) = false) ->
  exists called : bool,
    filter f (events (run_command p commandObject))
    = if called
      then filter f [ ExecuteCommand (object_command commandObject)
                                     (object_args commandObject) ]
      else [].
Proof.
  intros Hf.
  destruct (run_command_cases p commandObject)
    as [[_ ->]
       | [_ [[_ ->]
            | [_ (tail & settled & -> & Htail)]]]].
  - exists false. reflexivity.
  - exists false. cbn [events fst filter]. rewrite Hf. reflexivity.
  - exists true. unfold command_line. cbn [events fst filter]. rewrite Hf.
    destruct Htail
      as [(-> & _) | (e & _ & [(_ & -> & _) | (thrown & _ & -> & _)])];
      cbn [after_command filter]; rewrite ?Hf; reflexivity.
Qed.

Lemma interpret_returns (p : Platform) (functionCall : option FunctionCall) :
  exists i,
    interpret p functionCall
    = (events (interpret p functionCall), Returned i).
Proof.
  destruct (interpret_cases p functionCall) as [[r ->] | [line ->]];
    eexists; reflexivity.
Qed.

(** Every run of the [try] block of [processRecording], by what its
    collaborators did. *)
Lemma attempted_cases (p : Platform) (tempDir : string) :
  (exists e,
      transcriptions_create p
        (transcriptionRequest p tempDir (whisperModel p)) = Thrown e
      /\ attempted p tempDir
         = (transcribing p tempDir (whisperModel p), Thrown e))
  \/ exists t,
      transcriptions_create p
        (transcriptionRequest p tempDir (whisperModel p)) = Returned t
      /\ ((String.length (raw_text t) <= 2)%nat
          /\ attempted p tempDir
             = ((transcribing p tempDir (whisperModel p)
                 ++ [ raw_line t ])%list,
                Thrown TypeError)
          \/ (2 < String.length (raw_text t))%nat
             /\ ((exists e,
                     attempted p tempDir
                     = ((transcribing p tempDir (whisperModel p)
                         ++ [ raw_line t;
                              ChatCreate (interpretRequest (raw_text t)) ])
                        %list,
                        Thrown e))
                 \/ exists completion i,
                     chat_create p (interpretRequest (raw_text t))
                     = Returned completion
                     /\ interpret p (function_call_of completion)
                        = (events (interpret p (function_call_of completion)),
                           Returned i)
                     /\ ((exists e,
                             attempted p tempDir
                             = ((transcribing p tempDir (whisperModel p)
                                 ++ raw_line t
                                 :: ChatCreate (interpretRequest (raw_text t))
                                 :: events (interpret p
                                              (function_call_of completion))
                                 ++ events (run_command p (snd i)))%list,
                                Thrown e))
                         \/ (exists e,
                             attempted p tempDir
                             = ((transcribing p tempDir (whisperModel p)
                                 ++ raw_line t
                                 :: ChatCreate (interpretRequest (raw_text t))
                                 :: events (interpret p
                                              (function_call_of completion))
                                 ++ events (run_command p (snd i))
                                 ++ [ WriteFile (resultFile p tempDir)
                                        (processRecording_result (fst i) t) ])
                                %list,
                                Thrown e))
                         \/ attempted p tempDir
                            = ((transcribing p tempDir (whisperModel p)
                                ++ raw_line t
                                :: ChatCreate (interpretRequest (raw_text t))
                                :: events (interpret p
                                             (function_call_of completion))
                                ++ events (run_command p (snd i))
                                ++ saving p tempDir
                                     (processRecording_result (fst i) t))
                               %list,
                               Returned
                                 (if (String.length (fst i) =? 0)%nat
                                  then None
                                  else Some (processRecording_result
                                               (fst i) t)))))).
Proof.
  destruct (transcriptions_create p
              (transcriptionRequest p tempDir (whisperModel p)))
    as [t | e] eqn:Hengine.
  - right. exists t. split; [ reflexivity | ].
    destruct (le_gt_dec (String.length (raw_text t)) 2) as [Hshort | Hlong].
    + left. split; [ exact Hshort | ].
      unfold attempted. rewrite transcribe_run, Hengine.
      rewrite (and_then_run _ _ _ _ eq_refl). cbv beta.
      rewrite interpretation_run.
      assert (Hs : (2 <? String.length (raw_text t))%nat = false)
        by (apply Nat.ltb_ge; exact Hshort).
      rewrite Hs. rewrite (and_then_fail _ _ [] TypeError eq_refl).
      cbn [fst snd]. rewrite app_nil_r. reflexivity.
    + right. split; [ exact Hlong | ].
      destruct (chat_create p (interpretRequest (raw_text t)))
        as [completion | e] eqn:Hchat.
      * right. destruct (interpret_returns p (function_call_of completion))
          as [i Hinterpret].
        exists completion, i. split; [ reflexivity | ].
        split; [ exact Hinterpret | ].
        rewrite (attempted_interpreted p tempDir t completion _ i
                   Hengine Hlong Hchat Hinterpret).
        destruct (run_command p (snd i)) as [tr4 [[] | e]] eqn:Hrun.
        -- rewrite (and_then_run _ _ _ _ eq_refl).
           rewrite save_run. fold (resultFile p tempDir).
           destruct (write_file p (resultFile p tempDir)
                                (processRecording_result (fst i) t))
             as [[] | e].
           ++ right. right. reflexivity.
           ++ right. left. exists e. reflexivity.
        -- left. exists e. rewrite (and_then_fail _ _ _ _ eq_refl).
           reflexivity.
      * left. exists e. unfold attempted.
        rewrite transcribe_run, Hengine.
        rewrite (and_then_run _ _ _ _ eq_refl). cbv beta.
        rewrite interpretation_run.
        apply Nat.ltb_lt in Hlong. rewrite Hlong, Hchat.
        rewrite (and_then_fail _ _ _ e eq_refl). cbn [fst snd].
        rewrite <- !app_assoc. reflexivity.
  - left. exists e. split; [ reflexivity | ].
    unfold attempted. rewrite transcribe_run, Hengine.
    rewrite (and_then_fail _ _ _ _ eq_refl). reflexivity.
Qed.

Lemma transcribing_only_asks_engine (p : Platform) (tempDir : string)
      (found : JsValue) (f : PipelineEvent -> bool) :
  (forall line, f (AppendLine line) = false) ->
  (forall path, f (CreateReadStream path) = false) ->
  (forall request, f (TranscriptionsCreate request) = false) ->
  filter f (transcribing p tempDir found) = [].
Proof.
  intros Hline Hstream Hengine. unfold transcribing. cbn [filter].
  rewrite Hline, Hstream, Hengine. reflexivity.
Qed.

Lemma result_segments (processed : string) (t : TranscriptionVerbose) :
  segments (processRecording_result processed t)
  = map processRecording_segment (engine_segments t).
Proof.
  unfold processRecording_result, engine_segments. cbn [segments].
  destruct (raw_segments t); reflexivity.
Qed.

(** What the [try] block lets observe. *)
Lemma attempted_facts (p : Platform) (tempDir : string) :
  filter is_shown (events (attempted p tempDir)) = []
  /\ filter is_chat (events (attempted p tempDir))
     = match transcriptions_create p
               (transcriptionRequest p tempDir (whisperModel p)) with
       | Returned t =>
           if (2 <? String.length (raw_text t))%nat
           then [ ChatCreate (interpretRequest (raw_text t)) ]
           else []
       | Thrown _ => []
       end
  /\ (List.length (filter is_command (events (attempted p tempDir))) <= 1)%nat
  /\ (List.length (filter is_write (events (attempted p tempDir))) <= 1)%nat
  /\ (filter is_command (events (attempted p tempDir)) <> []
      -> filter is_chat (events (attempted p tempDir)) <> []).
Proof.
  destruct (attempted_cases p tempDir)
    as [(e & -> & Hrun)
       | (t & ->
          & [[Hshort Hrun]
            | [Hlong [(e & Hrun)
                     | (completion & i & Hchat & Hinterpret
                        & [(e & Hrun) | [(e & Hrun) | Hrun]])]]])];
    rewrite Hrun; cbn [events fst];
    try (apply Nat.ltb_ge in Hshort; rewrite Hshort);
    try (apply Nat.ltb_lt in Hlong; rewrite Hlong);
    try (destruct (run_command_only_calls_host p (snd i) is_shown
                     (fun _ => eq_refl)) as [called1 Hcalled1];
         destruct (run_command_only_calls_host p (snd i) is_chat
                     (fun _ => eq_refl)) as [called2 Hcalled2];
         destruct (run_command_only_calls_host p (snd i) is_command
                     (fun _ => eq_refl)) as [called3 Hcalled3];
         destruct (run_command_only_calls_host p (snd i) is_write
                     (fun _ => eq_refl)) as [called4 Hcalled4]);
    unfold saving, raw_line;
    repeat first
      [ progress cbn [filter is_command is_write is_shown is_chat app
                      List.length]
      | rewrite filter_app
      | rewrite interpret_only_logs by reflexivity
      | rewrite transcribing_only_asks_engine by reflexivity
      | rewrite Hcalled1 | rewrite Hcalled2
      | rewrite Hcalled3 | rewrite Hcalled4 ];
    try destruct called1; try destruct called2;
    try destruct called3; try destruct called4;
    cbn [filter is_command is_write is_shown is_chat app List.length];
    repeat split; try lia; try reflexivity;
    try (intros H;
         first [ reflexivity
               | exfalso; apply H; reflexivity
               | discriminate ]).
Qed.

(** A transcription that the [try] block returns. *)
Lemma attempted_returned (p : Platform) (tempDir : string)
      (r : Transcription) :
  ending (attempted p tempDir) = Returned (Some r) ->
  text r <> EmptyString
  /\ In (WriteFile (resultFile p tempDir) r) (events (attempted p tempDir))
  /\ exists t,
      transcriptions_create p
        (transcriptionRequest p tempDir (whisperModel p)) = Returned t
      /\ (2 < String.length (raw_text t))%nat
      /\ segments r = map processRecording_segment (engine_segments t)
      /\ language r = raw_language t.
Proof.
  intros Hend.
  destruct (attempted_cases p tempDir)
    as [(e & _ & Hrun)
       | (t & Hengine
          & [[_ Hrun]
            | [Hlong [(e & Hrun)
                     | (completion & i & Hchat & Hinterpret
                        & [(e & Hrun) | [(e & Hrun) | Hrun]])]]])];
    rewrite Hrun in Hend |- *; cbn [ending events fst snd] in Hend |- *;
    try discriminate Hend.
  destruct (String.length (fst i) =? 0)%nat eqn:Hempty;
    [ discriminate Hend | ].
  injection Hend as <-.
  split.
  { cbn [processRecording_result text]. intros Heq.
    rewrite Heq in Hempty. discriminate Hempty. }
  split.
  { apply in_or_app. right. right. right.
    apply in_or_app. right. apply in_or_app. right.
    left. reflexivity. }
  exists t. split; [ exact Hengine | ]. split; [ exact Hlong | ].
  split; [ apply result_segments | reflexivity ].
Qed.

(** X13. [processRecording] rejects only from its own [catch] block.  When
    every value its collaborators reject with is sound (it prints, and its
    message is a string if it is an [Error]), the promise resolves in
    every run.  In general, a run that rejects has entered the [catch]
    block with a value a collaborator rejected with, has thrown while
    printing that value or formatting its message, rejects with what was
    thrown there, and has shown no notification. *)
Theorem processRecording_rejects_only_from_its_catch (p : Platform)
        (tempDir : string) :
  ((forall reason, rejection_defect p reason = Sound) ->
   exists r, ending (processRecording p tempDir) = Returned r)
  /\ (forall thrown,
         ending (processRecording p tempDir) = Thrown thrown ->
         filter is_shown (events (processRecording p tempDir)) = []
         /\ exists reason,
             ending (attempted p tempDir) = Thrown (Rejected reason)
             /\ (rejection_defect p reason = Unprintable thrown
                 \/ rejection_defect p reason = OddMessage (Thrown thrown))).
Proof.
  assert (Hrejects : forall thrown,
    ending (processRecording p tempDir) = Thrown thrown ->
    filter is_shown (events (processRecording p tempDir)) = []
    /\ exists reason,
        ending (attempted p tempDir) = Thrown (Rejected reason)
        /\ (rejection_defect p reason = Unprintable thrown
            \/ rejection_defect p reason = OddMessage (Thrown thrown))).
  { intros thrown. unfold processRecording. rewrite attempt_run.
    destruct (attempted_facts p tempDir) as (Hquiet & _).
    destruct (ending (attempted p tempDir)) as [a | e] eqn:Hbody;
      cbn [ending events fst snd]; [ discriminate | ].
    intros Hthrown.
    destruct (onRecordingError_facts p e)
      as (_ & _ & _ & _ & _ & _ & Hcatch).
    destruct (Hcatch thrown Hthrown) as [Hnone Hdefect].
    split.
    { rewrite filter_app, Hquiet, Hnone. reflexivity. }
    destruct (defect_is_of_a_rejection p e) as (reason & -> & Hreason).
    { destruct Hdefect as [-> | ->]; discriminate. }
    exists reason. split; [ reflexivity | ].
    rewrite <- Hreason. exact Hdefect. }
  split; [ | exact Hrejects ].
  intros Hsound.
  destruct (ending (processRecording p tempDir)) as [r | thrown] eqn:Hend.
  - exists r. reflexivity.
  - destruct (Hrejects thrown eq_refl) as (_ & reason & _ & Hdefect).
    rewrite Hsound in Hdefect. destruct Hdefect; discriminate.
Qed.

(** X19. Whenever [processRecording] returns a transcription, that very
    value was written to the result file first, its text is not empty, no
    error notification was shown, and it comes from a reply of the speech
    engine with more than two characters of text: its segments are the
    converted segments of that reply and its language the reply's. *)
Theorem returned_transcription_was_written (p : Platform) (tempDir : string)
        (r : Transcription) :
  ending (processRecording p tempDir) = Returned (Some r) ->
  text r <> EmptyString
  /\ In (WriteFile (resultFile p tempDir) r)
        (events (processRecording p tempDir))
  /\ filter is_shown (events (processRecording p tempDir)) = []
  /\ exists t,
      transcriptions_create p
        (transcriptionRequest p tempDir (whisperModel p)) = Returned t
      /\ (2 < String.length (raw_text t))%nat
      /\ segments r = map processRecording_segment (engine_segments t)
      /\ language r = raw_language t.
Proof.
  intros Hend. unfold processRecording in Hend |- *.
  rewrite attempt_run in Hend |- *.
  destruct (attempted_facts p tempDir) as (Hquiet & _).
  destruct (ending (attempted p tempDir)) as [a | e] eqn:Hbody;
    cbn [ending events fst snd] in Hend |- *.
  - injection Hend as ->.
    destruct (attempted_returned p tempDir r Hbody)
      as (Htext & Hwritten & Hengine).
    split; [ exact Htext | ]. split; [ exact Hwritten | ].
    split; [ exact Hquiet | exact Hengine ].
  - destruct (onRecordingError_facts p e)
      as (_ & _ & _ & _ & _ & Hnever & _).
    exfalso. exact (Hnever r Hend).
Qed.

(** X20. In every run [processRecording] sends a chat request exactly when
    the speech engine answered with a text longer than two characters, and
    then one only, carrying that text. *)
Theorem chat_request_iff_long_transcription (p : Platform)
        (tempDir : string) :
  filter is_chat (events (processRecording p tempDir))
  = match transcriptions_create p
            (transcriptionRequest p tempDir (whisperModel p)) with
    | Returned t =>
        if (2 <? String.length (raw_text t))%nat
        then [ ChatCreate (interpretRequest (raw_text t)) ]
        else []
    | Thrown _ => []
    end.
Proof.
  unfold processRecording. rewrite attempt_run.
  destruct (attempted_facts p tempDir) as (_ & Hchat & _).
  destruct (ending (attempted p tempDir)) as [a | e];
    cbn [events fst]; [ exact Hchat | ].
  destruct (onRecordingError_facts p e) as (Hnone & _).
  rewrite filter_app, Hnone, app_nil_r. exact Hchat.
Qed.

(** X21. In every run of [processRecording] the host is invoked at most
    once, the result file is written at most once and at most one error
    notification is shown; a run that shows one returns [undefined], and a
    command is only executed in a run that sent a chat request. *)
Theorem at_most_one_command_write_and_notification (p : Platform)
        (tempDir : string) :
  (List.length (filter is_command (events (processRecording p tempDir)))
   <= 1)%nat
  /\ (List.length (filter is_write (events (processRecording p tempDir)))
      <= 1)%nat
  /\ (List.length (filter is_shown (events (processRecording p tempDir)))
      <= 1)%nat
  /\ (filter is_shown (events (processRecording p tempDir)) <> []
      -> ending (processRecording p tempDir) = Returned None)
  /\ (filter is_command (events (processRecording p tempDir)) <> []
      -> filter is_chat (events (processRecording p tempDir)) <> []).
Proof.
  unfold processRecording. rewrite attempt_run.
  destruct (attempted_facts p tempDir)
    as (Hquiet & _ & Hcommand & Hwrite & Hcalled).
  destruct (ending (attempted p tempDir)) as [a | e];
    cbn [events ending fst snd].
  - rewrite Hquiet. cbn [List.length].
    split; [ exact Hcommand | ]. split; [ exact Hwrite | ].
    split; [ lia | ].
    split; [ intros H; exfalso; apply H; reflexivity | exact Hcalled ].
  - destruct (onRecordingError_facts p e)
      as (Hchat' & Hcommand' & Hwrite' & Hshown' & Hnone' & _).
    rewrite !filter_app, Hquiet, Hchat', Hcommand', Hwrite', !app_nil_r.
    cbn [app].
    split; [ exact Hcommand | ]. split; [ exact Hwrite | ].
    split; [ exact Hshown' | ].
    split; [ exact Hnone' | exact Hcalled ].
Qed.

(** X22. When the result file cannot be written, the transcription is
    lost although the command of the reply has already been executed: the
    run enters the [catch] block of [processRecording] with the error of
    the write, and (that error being sound) ends with its log line, one
    notification and [undefined].  The command is one that prints, and the
    host returned or rejected with a value that prints. *)
Theorem write_failure_loses_the_result (p : Platform) (tempDir : string)
        (t : TranscriptionVerbose) (completion : ChatCompletion)
        (call : FunctionCall) (v command inner f s : JsValue)
        (e : JsError) :
  transcriptions_create p (transcriptionRequest p tempDir (whisperModel p))
  = Returned t ->
  (2 < String.length (raw_text t))%nat ->
  chat_create p (interpretRequest (raw_text t)) = Returned completion ->
  function_call_of completion = Some call ->
  arguments call <> EmptyString ->
  json_parse p (arguments call) = Some v ->
  js_get v "command" = Returned command ->
  truthy command = true ->
  convertible command = true ->
  js_get v "args" = Returned inner ->
  optional_get inner "filename" = Returned f ->
  optional_get inner "searchTerm" = Returned s ->
  settles_printably p (execute_command p command (filter truthy [ f; s ]))
  = true ->
  write_file p (resultFile p tempDir)
             (processRecording_result (processedText p command inner) t)
  = Thrown e ->
  defect p e = Sound ->
  processRecording p tempDir
  = ((transcribing p tempDir (whisperModel p)
      ++ raw_line t :: ChatCreate (interpretRequest (raw_text t))
         :: command_line p command (filter truthy [ f; s ])
         :: ExecuteCommand command (filter truthy [ f; s ])
         :: after_command p
              (execute_command p command (filter truthy [ f; s ]))
         ++ WriteFile (resultFile p tempDir)
              (processRecording_result (processedText p command inner) t)
            :: failing p e)%list,
     Returned None).
Proof.
  intros Hengine Hlen Hchat Hcall Hpresent Hdecode Hcommand Htruthy
         Hconvertible Hinner Hf Hs Hsettles Hwrite Hsound.
  pose proof (interpret_decoded p call v command inner f s
                Hpresent Hdecode Hcommand Hconvertible Hinner Hf Hs)
    as Hinterpret.
  rewrite <- Hcall in Hinterpret.
  pose proof (run_command_printably p command (filter truthy [ f; s ])
                Htruthy Hconvertible Hsettles) as Hrun.
  rewrite (processRecording_interpreted p tempDir t completion _ _ _
             Hengine Hlen Hchat Hinterpret Hrun).
  cbn [fst snd app]. rewrite save_run.
  unfold resultFile in Hwrite |- *. rewrite Hwrite.
  cbn [fst snd]. rewrite attempt_caught, (onRecordingError_sound p e Hsound).
  cbn [fst snd]. rewrite <- !app_assoc. cbn [app].
  rewrite <- !app_assoc. reflexivity.
Qed.

(** ** [getApiConfig] *)

Lemma getApiConfig_with_key (p : Platform) (key : string) :
  config_get p "apiKey" = Some key ->
  key <> EmptyString ->
  exists url, getApiConfig p = Returned {| baseURL := url; apiKey := key |}.
Proof.
  intros Hkey Hpresent. unfold getApiConfig. rewrite Hkey.
  destruct key as [ | c rest ]; [ contradiction | ].
  cbn [truthy_string].
  destruct (js_get_object
              [ ("localhost",
                  JString (or_default (config_get p "customEndpoint")
                                      "http://localhost:4444" ++ "/v1"));
                ("openai", JString "https://api.openai.com/v1");
                ("groq", JString "https://api.groq.com/openai/v1") ]
              (apiProvider p)) as [url Hurl].
  fold (baseURLs p) in Hurl. cbv zeta. rewrite Hurl.
  exists url. reflexivity.
Qed.

(** X23. [getApiConfig] throws exactly when no API key is configured (the
    setting is missing or empty), with a message that names the provider
    (openai when none is set); otherwise it returns the key unchanged. *)
Theorem api_key_is_required (p : Platform) :
  (forall key,
      config_get p "apiKey" = Some key ->
      key <> EmptyString ->
      exists url, getApiConfig p = Returned {| baseURL := url; apiKey := key |})
  /\ (config_get p "apiKey" = None
      \/ config_get p "apiKey" = Some EmptyString ->
      getApiConfig p
      = Thrown (Rejected ("API key not configured for " ++ apiProvider p)))
  /\ (config_get p "apiProvider" = None
      \/ config_get p "apiProvider" = Some EmptyString ->
      apiProvider p = "openai").
Proof.
  split; [ | split ].
  - apply getApiConfig_with_key.
  - unfold getApiConfig. intros [-> | ->]; reflexivity.
  - unfold apiProvider. intros [-> | ->]; reflexivity.
Qed.

(** X24. With a key configured, the base URL of each known provider ends
    in [/v1]: the fixed addresses of openai and groq, and for localhost the
    configured custom endpoint, or [http://localhost:4444] when that
    setting is missing or empty, followed by [/v1] (also when the endpoint
    already ends in it).  The custom endpoint plays no part for the other
    providers. *)
Theorem base_url_of_known_provider (p : Platform) (key : string) :
  config_get p "apiKey" = Some key ->
  key <> EmptyString ->
  (apiProvider p = "openai" ->
   getApiConfig p
   = Returned {| baseURL := JString "https://api.openai.com/v1";
                 apiKey := key |})
  /\ (apiProvider p = "groq" ->
      getApiConfig p
      = Returned {| baseURL := JString "https://api.groq.com/openai/v1";
                    apiKey := key |})
  /\ (apiProvider p = "localhost" ->
      getApiConfig p
      = Returned
          {| baseURL :=
               JString (or_default (config_get p "customEndpoint")
                                   "http://localhost:4444" ++ "/v1");
             apiKey := key |})
  /\ (In (apiProvider p) [ "openai"; "groq"; "localhost" ] ->
      exists url,
        getApiConfig p = Returned {| baseURL := JString url; apiKey := key |}
        /\ ends_with "/v1" url).
Proof.
  intros Hkey Hpresent.
  assert (Hrun : getApiConfig p
                 = match js_get (baseURLs p) (apiProvider p) with
                   | Returned url =>
                       Returned {| baseURL := url; apiKey := key |}
                   | Thrown e => Thrown e
                   end).
  { unfold getApiConfig. rewrite Hkey.
    destruct key as [ | c rest ]; [ contradiction | reflexivity ]. }
  assert (Hopenai : apiProvider p = "openai" ->
    getApiConfig p
    = Returned {| baseURL := JString "https://api.openai.com/v1";
                  apiKey := key |})
    by (intros Hp; rewrite Hrun, Hp; reflexivity).
  assert (Hgroq : apiProvider p = "groq" ->
    getApiConfig p
    = Returned {| baseURL := JString "https://api.groq.com/openai/v1";
                  apiKey := key |})
    by (intros Hp; rewrite Hrun, Hp; reflexivity).
  assert (Hlocal : apiProvider p = "localhost" ->
    getApiConfig p
    = Returned
        {| baseURL :=
             JString (or_default (config_get p "customEndpoint")
                                 "http://localhost:4444" ++ "/v1");
           apiKey := key |})
    by (intros Hp; rewrite Hrun, Hp; reflexivity).
  repeat split; try assumption.
  intros [Hp | [Hp | [Hp | []]]]; symmetry in Hp.
  - eexists. split; [ exact (Hopenai Hp) | ].
    exists "https://api.openai.com". reflexivity.
  - eexists. split; [ exact (Hgroq Hp) | ].
    exists "https://api.groq.com/openai". reflexivity.
  - eexists. split; [ exact (Hlocal Hp) | ].
    eexists. reflexivity.
Qed.

Lemma provider_tables_rows (provider : string) (p : Platform) :
  (exists url, js_get (baseURLs p) provider = Returned (JString url))
  <-> In provider [ "localhost"; "openai"; "groq" ].
Proof.
  unfold baseURLs, js_get. cbn [own_property]. split.
  - repeat match goal with
           | |- context [String.eqb ?k provider] =>
               let H := fresh "Hk" in
               destruct (String.eqb k provider) eqn:H;
               [ apply String.eqb_eq in H; subst provider;
                 intros _; cbn; tauto
               | ]
           end.
    destruct (mem_string provider object_prototype_keys);
      intros [url Hurl]; discriminate Hurl.
  - intros [<- | [<- | [<- | []]]]; eexists; reflexivity.
Qed.

Lemma model_table_rows (provider : string) :
  (exists m, js_get PROVIDER_MODELS provider = Returned (JString m))
  <-> In provider [ "localhost"; "openai"; "groq" ].
Proof.
  unfold PROVIDER_MODELS, js_get. cbn [own_property]. split.
  - repeat match goal with
           | |- context [String.eqb ?k provider] =>
               let H := fresh "Hk" in
               destruct (String.eqb k provider) eqn:H;
               [ apply String.eqb_eq in H; subst provider;
                 intros _; cbn; tauto
               | ]
           end.
    destruct (mem_string provider object_prototype_keys);
      intros [m Hm]; discriminate Hm.
  - intros [<- | [<- | [<- | []]]]; eexists; reflexivity.
Qed.

(** X25. The two provider tables have the same rows: a provider has a
    base URL exactly when it has a transcription model.  A provider name
    outside them is not rejected: [getApiConfig] returns a base URL that is
    no string, and [processRecording] asks the engine with a model that is
    no string. *)
Theorem provider_tables_agree (p : Platform) (provider : string) :
  ((exists url, js_get (baseURLs p) provider = Returned (JString url))
   <-> exists m, js_get PROVIDER_MODELS provider = Returned (JString m))
  /\ (~ In provider [ "localhost"; "openai"; "groq" ] ->
      apiProvider p = provider ->
      (forall key,
          config_get p "apiKey" = Some key ->
          key <> EmptyString ->
          exists url,
            getApiConfig p = Returned {| baseURL := url; apiKey := key |}
            /\ forall text, url <> JString text)
      /\ forall text, whisperModel p <> JString text).
Proof.
  split.
  - rewrite provider_tables_rows, model_table_rows. reflexivity.
  - intros Hother Hp. split.
    + intros key Hkey Hpresent.
      destruct (getApiConfig_with_key p key Hkey Hpresent) as [url Hrun].
      exists url. split; [ exact Hrun | ].
      intros text ->. apply Hother. apply (provider_tables_rows provider p).
      exists text. unfold getApiConfig in Hrun. rewrite Hkey in Hrun.
      destruct key as [ | c rest ]; [ contradiction | ].
      cbn [truthy_string] in Hrun. cbv zeta in Hrun. rewrite Hp in Hrun.
      destruct (js_get (baseURLs p) provider) as [u | e'];
        [ injection Hrun as -> | discriminate Hrun ].
      reflexivity.
    + intros text Hmodel. apply Hother. apply (model_table_rows provider).
      exists text. rewrite <- Hp, whisperModel_found, Hmodel. reflexivity.
Qed.

(** ** The message of the notification *)

Lemma trim_start_first (s : string) :
  spaced (first_char (trim_start s)) = false.
Proof.
  induction s as [ | c rest IH ]; [ reflexivity | ].
  cbn [trim_start]. destruct (is_space c) eqn:Hc; [ exact IH | ].
  cbn. exact Hc.
Qed.

Lemma trim_end_first (s : string) :
  spaced (first_char s) = false -> spaced (first_char (trim_end s)) = false.
Proof.
  destruct s as [ | c rest ]; [ reflexivity | ].
  cbn [first_char spaced trim_end]. intros Hc.
  destruct (trim_end rest); [ rewrite Hc | ]; cbn; exact Hc.
Qed.

Lemma trim_end_last (s : string) :
  spaced (last_char (trim_end s)) = false.
Proof.
  induction s as [ | c rest IH ]; [ reflexivity | ].
  cbn [trim_end]. destruct (trim_end rest) as [ | k kept ] eqn:Hkept.
  - destruct (is_space c) eqn:Hc; [ reflexivity | cbn; exact Hc ].
  - exact IH.
Qed.

Lemma last_char_append (prefix s : string) :
  s <> EmptyString -> last_char (prefix ++ s) = last_char s.
Proof.
  intros Hs. induction prefix as [ | c rest IH ]; [ reflexivity | ].
  cbn [append last_char]. rewrite IH.
  destruct (rest ++ s) eqn:Hrest; [ | reflexivity ].
  destruct rest; cbn [append] in Hrest; [ contradiction | discriminate ].
Qed.

Lemma errorMessage_trimmed (p : Platform) (e : JsError) :
  spaced (first_char (errorMessage p e)) = false
  /\ spaced (last_char (errorMessage p e)) = false.
Proof.
  unfold errorMessage. destruct (error_message p e) as [msg | ].
  - unfold trim. split.
    + apply trim_end_first, trim_start_first.
    + apply trim_end_last.
  - split; reflexivity.
Qed.

(** X26. For an error that is sound, the notification [processRecording]
    shows is the prefix [Whisper Assistant: ] followed by the message of
    the error without the first standalone word [Error] and trimmed: that
    part never starts or ends with white space, whatever the message.  The
    text shown ends with a blank exactly when that part is empty, as it is
    for an error whose message is the one word [Error]. *)
Theorem notification_is_prefix_and_trimmed_message (p : Platform)
        (e : JsError) :
  defect p e = Sound ->
  filter is_shown (events (onRecordingError p e))
  = [ ShowError ("Whisper Assistant: " ++ errorMessage p e) ]
  /\ spaced (first_char (errorMessage p e)) = false
  /\ spaced (last_char (errorMessage p e)) = false
  /\ (last_char ("Whisper Assistant: " ++ errorMessage p e) = Some " "%char
      <-> errorMessage p e = EmptyString)
  /\ (error_message p e = Some "Error" -> errorMessage p e = EmptyString).
Proof.
  intros Hsound.
  destruct (errorMessage_trimmed p e) as [Hfirst Hlast].
  split.
  { rewrite (onRecordingError_sound p e Hsound). reflexivity. }
  split; [ exact Hfirst | ]. split; [ exact Hlast | ].
  split.
  - split.
    + intros Hblank.
      destruct (errorMessage p e) as [ | c rest ] eqn:Hshown;
        [ reflexivity | ].
      rewrite last_char_append in Hblank by discriminate.
      rewrite Hblank in Hlast. discriminate Hlast.
    + intros ->. reflexivity.
  - intros Hmsg. unfold errorMessage. rewrite Hmsg. reflexivity.
Qed.


(** ** The status bar *)



(** ** The recorder process *)

(** X29. The recorder keeps one handle only.  Stopping after a start kills
    the process that was started and forgets it; a second stop only logs
    that there is none.  Starting twice spawns two processes, and the
    stop that follows kills one: the first is left running.  (A start
    whose [exec] throws is the matter of the next theorem.) *)
Theorem recorder_keeps_one_handle (p : Platform) (tempDir : string)
        (handle : nat) :
  exec p (soxCommand p tempDir) = Returned handle ->
  (forall before,
      startRecording p tempDir before
      = ([ Exec (soxCommand p tempDir) ], Some handle))
  /\ stopRecording (Some handle)
     = ([ AppendLine "Whisper Assistant: Stopping recording"; Kill handle ],
        None)
  /\ stopRecording (snd (stopRecording (Some handle)))
     = ([ AppendLine "Whisper Assistant: No recording process found" ], None)
  /\ (forall before,
         let first := startRecording p tempDir before in
         let second := startRecording p tempDir (snd first) in
         let stopped := stopRecording (snd second) in
         List.length (spawned p (fst first ++ fst second ++ fst stopped)) = 2%nat
         /\ killed (fst first ++ fst second ++ fst stopped) = [ handle ]
         /\ snd stopped = None).
Proof.
  intros Hexec.
  assert (Hstart : forall before,
    startRecording p tempDir before
    = ([ Exec (soxCommand p tempDir) ], Some handle)).
  { intros before. unfold startRecording, startRecording_call.
    fold (soxCommand p tempDir). rewrite Hexec. reflexivity. }
  split; [ exact Hstart | ].
  split; [ reflexivity | ]. split; [ reflexivity | ].
  intros before. cbv zeta. rewrite !Hstart. cbn [fst snd stopRecording app].
  cbn [spawned killed]. rewrite Hexec. repeat split.
Qed.

(** X30. A start of the recorder whose [exec] throws leaves the handle as
    it was, so a stop that follows acts on the earlier process, or reports
    that there is none.  When the value [exec] threw prints, the error is
    logged and the call returns; when printing it throws, nothing is
    logged and [startRecording] throws to its caller what the conversion
    threw. *)
Theorem failed_start_keeps_the_handle (p : Platform) (tempDir : string)
        (e : JsError) (before : option nat) :
  exec p (soxCommand p tempDir) = Thrown e ->
  startRecording_call p tempDir before
  = match defect p e with
    | Unprintable thrown =>
        ([ Exec (soxCommand p tempDir) ], before, Thrown thrown)
    | Sound | OddMessage _ =>
        ([ Exec (soxCommand p tempDir);
           AppendLine ("Whisper Assistant: error: " ++ error_string p e) ],
         before, Returned tt)
    end
  /\ killed (fst (stopRecording (snd (startRecording p tempDir before))))
     = match before with
       | Some earlier => [ earlier ]
       | None => []
       end.
Proof.
  intros Hexec.
  assert (Hstart : startRecording_call p tempDir before
    = match defect p e with
      | Unprintable thrown =>
          ([ Exec (soxCommand p tempDir) ], before, Thrown thrown)
      | Sound | OddMessage _ =>
          ([ Exec (soxCommand p tempDir);
             AppendLine ("Whisper Assistant: error: " ++ error_string p e) ],
           before, Returned tt)
      end).
  { unfold startRecording_call. fold (soxCommand p tempDir).
    rewrite Hexec. unfold thrown_text.
    destruct (defect p e); reflexivity. }
  split; [ exact Hstart | ].
  unfold startRecording. rewrite Hstart.
  destruct (defect p e); destruct before; reflexivity.
Qed.

(** ** The further theorems at concrete runs *)

Lemma notification_witness :
  notifications
    (mapTranscriptionToCommand Json.parse
       (endpoint_replies (reply_with_function_call truncated_arguments))
       (spoken "save the file"))
  = 1%nat
  /\ outcome
       (mapTranscriptionToCommand Json.parse
          (endpoint_replies (reply_with_function_call truncated_arguments))
          (spoken "save the file"))
     = Returned JUndefined.
Proof.
  assert (Hone : notifications
    (mapTranscriptionToCommand Json.parse
       (endpoint_replies (reply_with_function_call truncated_arguments))
       (spoken "save the file")) = 1%nat) by (vm_compute; reflexivity).
  split; [ exact Hone | ].
  exact (proj1 (proj2 (proj2
           (notification_means_absent Json.parse
              (endpoint_replies (reply_with_function_call truncated_arguments))
              (spoken "save the file")))) Hone).
Defined.

Lemma rejected_request_witness :
  mapTranscriptionToCommand Json.parse
    (endpoint_fails (Rejected "429 rate limit")) (spoken "save the file")
  = ([ ChatCompletionsCreate (functionsRequest "save the file");
       ConsoleError "Error mapping transcription to command:"
                    (Rejected "429 rate limit");
       ShowErrorMessage "Failed to map voice command to VS Code action" ],
     Returned JUndefined).
Proof.
  apply (proj1 (rejected_request_degrades_to_absent Json.parse
                  (endpoint_fails (Rejected "429 rate limit"))
                  (spoken "save the file") (Rejected "429 rate limit")
                  (proj1 (Nat.ltb_lt 2 13) eq_refl))).
  reflexivity.
Defined.

Lemma unusable_tool_call_witness :
  mapTranscriptionToCommandViaTools Json.parse
    (endpoint_replies (reply_with_tool_call "saveFile" EmptyString))
    (spoken "save the file")
  = ([ChatCompletionsCreate (toolsRequest "save the file")],
     Returned JUndefined).
Proof.
  apply (unusable_tool_call_is_absent_silently Json.parse
           (endpoint_replies (reply_with_tool_call "saveFile" EmptyString))
           (spoken "save the file")
           (reply_with_tool_call "saveFile" EmptyString)).
  - apply Nat.ltb_lt. reflexivity.
  - reflexivity.
  - right.
    exists {| type := "function";
              function := {| name := "saveFile";
                             arguments := EmptyString |} |}.
    split; [ reflexivity | right; reflexivity ].
Defined.



Lemma executing_absent_witness :
  executeCommand host_accepts JUndefined
  = ([ ConsoleLog "Executing command:" JUndefined;
       ConsoleError "Error executing VS Code command:" TypeError;
       ShowErrorMessage "Failed to execute VS Code command" ],
     Returned tt)
  /\ host_calls (executeCommand host_accepts JUndefined) = [].
Proof.
  apply (executing_absent_never_reaches_host host_accepts JUndefined).
  reflexivity.
Defined.

Lemma host_invoked_once_witness :
  exists command args,
    js_get quickOpen_config_value "command" = Returned command
    /\ js_get quickOpen_config_value "args" = Returned args
    /\ host_calls (executeCommand host_rejects quickOpen_config_value)
       = [ VscodeExecuteCommand command args ]
    /\ host_calls (executeCommand_unlogged host_rejects quickOpen_config_value)
       = [ VscodeExecuteCommand command args ].
Proof.
  apply (host_is_invoked_once_with_the_mapping host_rejects
           quickOpen_config_value).
  reflexivity.
Defined.



Lemma short_transcription_witness :
  processRecording said_uh "/tmp/wa"
  = ((transcribing said_uh "/tmp/wa" (JString "whisper-1")
      ++ raw_line short_reply :: failing said_uh TypeError)%list,
     Returned None)
  /\ filter is_chat (events (processRecording said_uh "/tmp/wa")) = []
  /\ filter is_shown (events (processRecording said_uh "/tmp/wa"))
     = [ ShowError
           "Whisper Assistant: Cannot read properties of undefined (reading '0')" ].
Proof.
  assert (Hrun : processRecording said_uh "/tmp/wa"
    = ((transcribing said_uh "/tmp/wa" (JString "whisper-1")
        ++ raw_line short_reply :: failing said_uh TypeError)%list,
       Returned None)).
  { apply (short_transcription_ends_in_catch said_uh "/tmp/wa" short_reply).
    - reflexivity.
    - apply Nat.leb_le. reflexivity. }
  split; [ exact Hrun | ]. rewrite Hrun.
  split; vm_compute; reflexivity.
Defined.

Lemma engine_failure_witness :
  processRecording engine_down "/tmp/wa"
  = ((transcribing engine_down "/tmp/wa" (JString "whisper-1")
      ++ failing engine_down (Rejected "Error: 401 Unauthorized"))%list,
     Returned None)
  /\ processRecording engine_rejects_bare "/tmp/wa"
     = (transcribing engine_rejects_bare "/tmp/wa" (JString "whisper-1"),
        Thrown TypeError).
Proof.
  split.
  - exact (engine_failure_ends_in_catch engine_down "/tmp/wa"
             (Rejected "Error: 401 Unauthorized") eq_refl).
  - exact (engine_failure_ends_in_catch engine_rejects_bare "/tmp/wa"
             (Rejected bare_object) eq_refl).
Defined.

Lemma rejection_witness :
  (exists r, ending (processRecording engine_down "/tmp/wa") = Returned r)
  /\ filter is_shown (events (processRecording engine_rejects_bare "/tmp/wa"))
     = []
  /\ ending (attempted engine_rejects_bare "/tmp/wa")
     = Thrown (Rejected bare_object).
Proof.
  split.
  - apply (proj1 (processRecording_rejects_only_from_its_catch
                    engine_down "/tmp/wa")).
    intros reason. reflexivity.
  - destruct (proj2 (processRecording_rejects_only_from_its_catch
                       engine_rejects_bare "/tmp/wa")
                    TypeError eq_refl) as [Hquiet _].
    split; [ exact Hquiet | reflexivity ].
Defined.

Lemma no_interpretation_witness :
  ending (processRecording no_call "/tmp/wa")
  = Returned (Some (processRecording_result "none" whisper_reply))
  /\ filter is_command (events (processRecording no_call "/tmp/wa")) = [].
Proof.
  assert (Hrun := no_interpretation_gives_none no_call "/tmp/wa"
                    whisper_reply reply_without_call eq_refl
                    (proj1 (Nat.ltb_lt 2 14) eq_refl) eq_refl
                    (or_introl eq_refl) eq_refl).
  rewrite Hrun. split; reflexivity.
Defined.



Lemma returned_transcription_witness :
  text (processRecording_result "none" whisper_reply) <> EmptyString
  /\ In (WriteFile (resultFile no_call "/tmp/wa")
                   (processRecording_result "none" whisper_reply))
        (events (processRecording no_call "/tmp/wa")).
Proof.
  assert (Hend : ending (processRecording no_call "/tmp/wa")
                 = Returned (Some (processRecording_result "none"
                                     whisper_reply)))
    by (vm_compute; reflexivity).
  destruct (returned_transcription_was_written no_call "/tmp/wa"
              (processRecording_result "none" whisper_reply) Hend)
    as (Htext & Hwritten & _).
  split; assumption.
Defined.

Lemma write_failure_witness :
  ending (processRecording disk_full "/tmp/wa") = Returned None
  /\ filter is_command (events (processRecording disk_full "/tmp/wa"))
     = [ ExecuteCommand (JString "workbench.action.files.save")
                        [ JString "notes" ] ]
  /\ filter is_shown (events (processRecording disk_full "/tmp/wa"))
     = [ ShowError "Whisper Assistant: ENOSPC" ].
Proof.
  assert (Hdecode : Json.parse save_as_notes
    = Some (JObject
              [ ("command", JString "workbench.action.files.save");
                ("args", JObject [ ("filename", JString "notes") ]) ]))
    by (vm_compute; reflexivity).
  assert (Hrun := write_failure_loses_the_result disk_full "/tmp/wa"
                    whisper_reply (reply_with_function_call save_as_notes)
                    {| name := "executeVSCodeCommand";
                       arguments := save_as_notes |}
                    _ (JString "workbench.action.files.save")
                    (JObject [ ("filename", JString "notes") ])
                    (JString "notes") JUndefined (Rejected "ENOSPC")
                    eq_refl (proj1 (Nat.ltb_lt 2 14) eq_refl) eq_refl
                    eq_refl
                    (fun H : save_as_notes = EmptyString =>
                       eq_ind save_as_notes
                              (fun s => match s with
                                        | EmptyString => False
                                        | String _ _ => True
                                        end) I EmptyString H)
                    Hdecode eq_refl eq_refl eq_refl eq_refl eq_refl eq_refl
                    eq_refl eq_refl eq_refl).
  rewrite Hrun. split; [ reflexivity | ].
  split; vm_compute; reflexivity.
Defined.

Lemma api_key_witness :
  (exists url,
      getApiConfig no_call = Returned {| baseURL := url; apiKey := "sk-demo" |})
  /\ getApiConfig platform_without_key
     = Thrown (Rejected "API key not configured for openai").
Proof.
  split.
  - apply (proj1 (api_key_is_required no_call) "sk-demo").
    + reflexivity.
    + discriminate.
  - apply (proj1 (proj2 (api_key_is_required platform_without_key))).
    left. reflexivity.
Defined.

Lemma localhost_base_url_witness :
  getApiConfig localhost_platform
  = Returned {| baseURL := JString "http://localhost:4444/v1";
                apiKey := "sk-demo" |}.
Proof.
  apply (proj1 (proj2 (proj2
           (base_url_of_known_provider localhost_platform "sk-demo"
              eq_refl
              (fun H : "sk-demo" = EmptyString =>
                 eq_ind "sk-demo"
                        (fun s => match s with
                                  | EmptyString => False
                                  | String _ _ => True
                                  end) I EmptyString H))))).
  reflexivity.
Defined.

Lemma unknown_provider_witness :
  (exists url,
      getApiConfig azure_platform
      = Returned {| baseURL := url; apiKey := "sk-demo" |}
      /\ forall text, url <> JString text)
  /\ forall text, whisperModel azure_platform <> JString text.
Proof.
  destruct (proj2 (provider_tables_agree azure_platform "azure"))
    as [Hurl Hmodel].
  - cbn [In]. intros Hin.
    repeat (destruct Hin as [Heq | Hin]; [ discriminate Heq | ]).
    exact Hin.
  - reflexivity.
  - split; [ | exact Hmodel ].
    apply (Hurl "sk-demo"); [ reflexivity | discriminate ].
Defined.



Lemma recorder_witness :
  stopRecording (snd (startRecording no_call "/tmp/wa" None))
  = ([ AppendLine "Whisper Assistant: Stopping recording"; Kill 4242 ], None).
Proof.
  destruct (recorder_keeps_one_handle no_call "/tmp/wa" 4242 eq_refl)
    as (Hstart & Hstop & _).
  rewrite (Hstart None). exact Hstop.
Defined.

Lemma failed_start_witness :
  startRecording_call platform_without_sox "/tmp/wa" (Some 7)
  = ([ Exec (soxCommand platform_without_sox "/tmp/wa");
       AppendLine "Whisper Assistant: error: Error: spawn sox ENOENT" ],
     Some 7, Returned tt)
  /\ killed (fst (stopRecording
                    (snd (startRecording platform_without_sox "/tmp/wa"
                                         (Some 7)))))
     = [ 7 ].
Proof.
  exact (failed_start_keeps_the_handle platform_without_sox "/tmp/wa"
           (Rejected "spawn sox ENOENT") (Some 7) eq_refl).
Defined.

(** The same start when [exec] throws a value that does not print. *)
Lemma failed_start_that_throws :
  startRecording_call exec_throws_bare "/tmp/wa" (Some 7)
  = ([ Exec (soxCommand exec_throws_bare "/tmp/wa") ], Some 7,
     Thrown TypeError).
Proof. reflexivity. Qed.

Lemma blank_notification_witness :
  filter is_shown
         (events (onRecordingError engine_says_Error (Rejected "Error")))
  = [ ShowError "Whisper Assistant: " ]
  /\ last_char "Whisper Assistant: " = Some " "%char.
Proof.
  destruct (notification_is_prefix_and_trimmed_message
              engine_says_Error (Rejected "Error") eq_refl)
    as (Hshown & _ & _ & Hblank & Hempty).
  rewrite Hshown, (Hempty eq_refl). split; reflexivity.
Defined.

(** A reply whose command is an object with a member [toString]: the
    command is not executed, and the error of the conversion is logged. *)
Lemma unprintable_command_run :
  ending (processRecording unprintable_call "/tmp/wa")
  = Returned (Some (processRecording_result "none" whisper_reply))
  /\ filter is_command (events (processRecording unprintable_call "/tmp/wa"))
     = []
  /\ In (AppendLine
           ("Whisper Assistant: Error parsing function arguments: "
            ++ error_string unprintable_call TypeError))
        (events (processRecording unprintable_call "/tmp/wa")).
Proof.
  assert (Hdecode : Json.parse unprintable_command
    = Some (JObject
              [ ("command", JObject [ ("toString", JNumber (Num 1 0)) ]);
                ("args", JObject [ ("filename", JString "notes") ]) ]))
    by (vm_compute; reflexivity).
  assert (Hrun := unprintable_command_is_only_logged unprintable_call
                    "/tmp/wa" whisper_reply
                    (reply_with_function_call unprintable_command)
                    {| name := "executeVSCodeCommand";
                       arguments := unprintable_command |}
                    _ (JObject [ ("toString", JNumber (Num 1 0)) ])
                    eq_refl (proj1 (Nat.ltb_lt 2 14) eq_refl) eq_refl
                    eq_refl
                    (fun H : unprintable_command = EmptyString =>
                       eq_ind unprintable_command
                              (fun s => match s with
                                        | EmptyString => False
                                        | String _ _ => True
                                        end) I EmptyString H)
                    Hdecode eq_refl eq_refl eq_refl).
  rewrite Hrun. split; [ reflexivity | ]. split; [ reflexivity | ].
  vm_compute. tauto.
Qed.
